(** * go-basic: configuration, logger, dependency container, HTTP server

    A shallow embedding of the scaffold's Go packages

      - [internal/config]                  ([Load], the validation tags of [Config])
      - [pkg/logger]                       ([parseLevel], [New], [Sync])
      - [internal/core/constants]          (the CORS allow-list, the health status)
      - [internal/core/dependencies]       ([NewContainer], [Close])
      - [internal/interfaces/http]         ([New], the middleware chain)
      - [.../http/middleware]              ([CORS], [Logger])
      - [.../http/handlers]                ([HealthHandler], [Check])

    together with the parts of the libraries they call, as far as the
    behaviour of the packages depends on them: [strings.ToUpper],
    [strconv.ParseInt] and [strconv.ParseBool], viper's precedence of
    sources, mapstructure's weakly typed decoding, the [required], [min],
    [max] and [oneof] tags of go-playground/validator, zap's levels, the
    [time] package's [Sub], [Seconds] and RFC 3339 layout, and gin's
    handler chain ([Next], [Abort], [AbortWithStatus], [JSON]).

    Go strings are byte strings: [string] here, one [ascii] per byte.
    Go's [int], [int64] and [rune] are [Z]; where the code can overflow
    the wrap-around is written out.  [float64] seconds are the exact
    rational they approximate ([Q]). *)

From Stdlib Require Import ZArith QArith Lia List Bool Ascii String.
From stdpp Require Import base option list strings gmap.

Local Open Scope string_scope.
Local Open Scope Z_scope.

(** ** Bytes and strings *)

Definition byte_of (c : ascii) : Z := Z.of_N (N_of_ascii c).
Definition ascii_of (b : Z) : ascii := ascii_of_N (Z.to_N b).

Fixpoint bytes (s : string) : list Z :=
  match s with
  | EmptyString => []
  | String c s' => byte_of c :: bytes s'
  end.

Fixpoint of_bytes (l : list Z) : string :=
  match l with
  | [] => EmptyString
  | b :: l' => String (ascii_of b) (of_bytes l')
  end.

(** Membership of a string in a list of strings, as a [bool]. *)
Definition string_in (s : string) (l : list string) : bool :=
  existsb (String.eqb s) l.

(** ** Package [unicode/utf8] *)

Module utf8.

Definition RuneError : Z := 65533.   (* U+FFFD *)
Definition RuneSelf  : Z := 128.
Definition MaxRune   : Z := 1114111. (* U+10FFFF *)

(** The [first] table with the [acceptRanges] entry it selects: for a
    leading byte, the length of the sequence and the range allowed for the
    second byte; [None] for a byte that cannot start a sequence of two or
    more bytes (ASCII, or invalid). *)
Definition first (b : Z) : option (nat * Z * Z) :=
  if (194 <=? b) && (b <=? 223) then Some (2%nat, 128, 191)
  else if b =? 224 then Some (3%nat, 160, 191)
  else if (225 <=? b) && (b <=? 236) then Some (3%nat, 128, 191)
  else if b =? 237 then Some (3%nat, 128, 159)
  else if (238 <=? b) && (b <=? 239) then Some (3%nat, 128, 191)
  else if b =? 240 then Some (4%nat, 144, 191)
  else if (241 <=? b) && (b <=? 243) then Some (4%nat, 128, 191)
  else if b =? 244 then Some (4%nat, 128, 143)
  else None.

Definition is_cont (b : Z) : bool := (128 <=? b) && (b <=? 191).

(** [DecodeRuneInString]: the rune at the head of [s] and its width; an
    invalid or short sequence is [RuneError] of width 1, the empty string
    [RuneError] of width 0. *)
Definition DecodeRuneInString (s : list Z) : Z * nat :=
  match s with
  | [] => (RuneError, 0%nat)
  | s0 :: t =>
    match first s0 with
    | None => if s0 <? RuneSelf then (s0, 1%nat) else (RuneError, 1%nat)
    | Some (sz, lo, hi) =>
      match t with
      | s1 :: t1 =>
        if (s1 <? lo) || (hi <? s1) then (RuneError, 1%nat)
        else if (sz <=? 2)%nat then
          (Z.lor (Z.shiftl (Z.land s0 31) 6) (Z.land s1 63), 2%nat)
        else
          match t1 with
          | s2 :: t2 =>
            if negb (is_cont s2) then (RuneError, 1%nat)
            else if (sz <=? 3)%nat then
              (Z.lor (Z.lor (Z.shiftl (Z.land s0 15) 12)
                            (Z.shiftl (Z.land s1 63) 6)) (Z.land s2 63), 3%nat)
            else
              match t2 with
              | s3 :: _ =>
                if negb (is_cont s3) then (RuneError, 1%nat)
                else
                  (Z.lor (Z.lor (Z.lor (Z.shiftl (Z.land s0 7) 18)
                                       (Z.shiftl (Z.land s1 63) 12))
                                (Z.shiftl (Z.land s2 63) 6)) (Z.land s3 63), 4%nat)
              | [] => (RuneError, 1%nat)
              end
          | [] => (RuneError, 1%nat)
          end
      | [] => (RuneError, 1%nat)
      end
    end
  end.

(** The runes of a string, as [for _, c := range s] yields them. *)
Fixpoint runes_fuel (fuel : nat) (s : list Z) : list Z :=
  match fuel, s with
  | _, [] => []
  | O, _ => []
  | S fuel', _ =>
    let '(r, w) := DecodeRuneInString s in
    r :: runes_fuel fuel' (drop w s)
  end.

Definition runes (s : list Z) : list Z := runes_fuel (length s) s.

(** [EncodeRune] / [AppendRune]. *)
Definition EncodeRune (r : Z) : list Z :=
  let three (r : Z) :=
    [Z.lor 224 (Z.shiftr r 12);
     Z.lor 128 (Z.land (Z.shiftr r 6) 63);
     Z.lor 128 (Z.land r 63)] in
  if (0 <=? r) && (r <=? 127) then [r]
  else if (0 <=? r) && (r <=? 2047) then
    [Z.lor 192 (Z.shiftr r 6); Z.lor 128 (Z.land r 63)]
  else if (r <? 0) || (MaxRune <? r) || ((55296 <=? r) && (r <=? 57343)) then
    three RuneError
  else if r <=? 65535 then three r
  else
    [Z.lor 240 (Z.shiftr r 18);
     Z.lor 128 (Z.land (Z.shiftr r 12) 63);
     Z.lor 128 (Z.land (Z.shiftr r 6) 63);
     Z.lor 128 (Z.land r 63)].

End utf8.

(** ** Package [unicode] *)

Module unicode.

(** A row of [unicode.CaseRanges]: the runes [Lo..Hi] and the deltas to
    add for upper, lower and title case. *)
Record CaseRange := mkCaseRange {
  Lo : Z;
  Hi : Z;
  DeltaUpper : Z;
  DeltaLower : Z;
  DeltaTitle : Z
}.

Definition MaxASCII : Z := 127.
(** The delta that marks an alternating Upper/Lower sequence. *)
Definition UpperLower : Z := utf8.MaxRune + 1.

(** [to(UpperCase, r, caseRange)]: the row that holds [r] decides.  Go
    finds it by binary search in its sorted table; the rows are disjoint,
    so the first row that holds [r] is that row. *)
Fixpoint to_upper (r : Z) (caseRange : list CaseRange) : Z :=
  match caseRange with
  | [] => r
  | cr :: rest =>
    if (Lo cr <=? r) && (r <=? Hi cr) then
      if utf8.MaxRune <? DeltaUpper cr
      then Lo cr + Z.land (r - Lo cr) (-2)     (* [&^ 1 | UpperCase&1] *)
      else r + DeltaUpper cr
    else to_upper r rest
  end.

(** [unicode.ToUpper], over the table [CaseRanges] of the Go release in
    use, which is not part of this repository. *)
Definition ToUpper (CaseRanges : list CaseRange) (r : Z) : Z :=
  if r <=? MaxASCII then
    if (97 <=? r) && (r <=? 122) then r - 32 else r
  else to_upper r CaseRanges.

End unicode.

(** ** Package [strings] *)

Module strings.

(** [strings.Map]: every rune of [s] mapped and encoded again, negative
    results dropped; a byte that is not valid UTF-8 reads as [RuneError]. *)
Definition Map (mapping : Z -> Z) (s : list Z) : list Z :=
  flat_map (fun c => let r := mapping c in
                     if r <? 0 then [] else utf8.EncodeRune r)
           (utf8.runes s).

Definition isASCII (s : list Z) : bool := forallb (fun c => c <? utf8.RuneSelf) s.

Definition upper_byte (c : Z) : Z :=
  if (97 <=? c) && (c <=? 122) then c - 32 else c.

(** [strings.ToUpper]: bytes are mapped one by one when the string is
    ASCII, runes through [unicode.ToUpper] otherwise. *)
Definition ToUpper (CaseRanges : list unicode.CaseRange) (s : string) : string :=
  let b := bytes s in
  if isASCII b then of_bytes (map upper_byte b)
  else of_bytes (Map (unicode.ToUpper CaseRanges) b).

End strings.

(** ** Package [strconv] *)

Module strconv.

Inductive NumError := ErrSyntax | ErrRange.

(** [lower(c)]: [c | ('x' - 'X')]. *)
Definition lower (c : Z) : Z := Z.lor c 32.

Definition is_digit (c : Z) : bool := (48 <=? c) && (c <=? 57).

(** What [underscoreOK] saw last: the beginning, a digit, an underscore,
    or something else. *)
Inductive saw := SawStart | SawDigit | SawUnderscore | SawOther.

Fixpoint underscoreOK_loop (hex : bool) (sw : saw) (s : list Z) : bool :=
  match s with
  | [] => match sw with SawUnderscore => false | _ => true end
  | c :: rest =>
    if is_digit c || (hex && (97 <=? lower c) && (lower c <=? 102))
    then underscoreOK_loop hex SawDigit rest
    else if c =? 95 then
      match sw with
      | SawDigit => underscoreOK_loop hex SawUnderscore rest
      | _ => false
      end
    else
      match sw with
      | SawUnderscore => false
      | _ => underscoreOK_loop hex SawOther rest
      end
  end.

(** [underscoreOK]: underscores only between digits, or between a base
    prefix and a digit. *)
Definition underscoreOK (s : list Z) : bool :=
  let s := match s with
           | c :: t => if (c =? 45) || (c =? 43) then t else s
           | [] => s
           end in
  match s with
  | c0 :: c1 :: t =>
    if (c0 =? 48) && ((lower c1 =? 98) || (lower c1 =? 111) || (lower c1 =? 120))
    then underscoreOK_loop (lower c1 =? 120) SawDigit t
    else underscoreOK_loop false SawStart s
  | _ => underscoreOK_loop false SawStart s
  end.

(** The digit loop of [ParseUint] for base 0: the value so far and
    whether an underscore was seen. *)
Fixpoint parse_digits (base cutoff maxVal : Z) (s : list Z) (n : Z) (underscores : bool)
  : NumError + (Z * bool) :=
  match s with
  | [] => inr (n, underscores)
  | c :: rest =>
    if c =? 95 then parse_digits base cutoff maxVal rest n true
    else
      let d := if is_digit c then Some (c - 48)
               else if (97 <=? lower c) && (lower c <=? 122) then Some (lower c - 97 + 10)
               else None in
      match d with
      | None => inl ErrSyntax
      | Some d =>
        if base <=? d then inl ErrSyntax
        else if cutoff <=? n then inl ErrRange
        else
          let n := n * base in
          let n1 := (n + d) mod 2 ^ 64 in
          if (n1 <? n) || (maxVal <? n1) then inl ErrRange
          else parse_digits base cutoff maxVal rest n1 underscores
      end
  end.

(** [ParseUint(s, 0, bitSize)]: the base comes from the prefix. *)
Definition ParseUint (s : list Z) (bitSize : Z) : NumError + Z :=
  match s with
  | [] => inl ErrSyntax
  | c0 :: t =>
    let '(base, digits) :=
      if c0 =? 48 then
        match t with
        | c1 :: ((_ :: _) as t') =>
          if lower c1 =? 98 then (2, t')
          else if lower c1 =? 111 then (8, t')
          else if lower c1 =? 120 then (16, t')
          else (8, t)
        | _ => (8, t)
        end
      else (10, s) in
    let cutoff := (2 ^ 64 - 1) / base + 1 in
    let maxVal := 2 ^ bitSize - 1 in
    match parse_digits base cutoff maxVal digits 0 false with
    | inl e => inl e
    | inr (n, underscores) =>
      if underscores && negb (underscoreOK s) then inl ErrSyntax else inr n
    end
  end.

(** [ParseInt(s, 0, bitSize)]. *)
Definition ParseInt (s : string) (bitSize : Z) : NumError + Z :=
  match bytes s with
  | [] => inl ErrSyntax
  | c0 :: t =>
    let '(neg, s') :=
      if c0 =? 43 then (false, t)
      else if c0 =? 45 then (true, t)
      else (false, c0 :: t) in
    match ParseUint s' bitSize with
    | inl e => inl e
    | inr un =>
      let cutoff := 2 ^ (bitSize - 1) in
      if negb neg && (cutoff <=? un) then inl ErrRange
      else if neg && (cutoff <? un) then inl ErrRange
      else inr (if neg then - un else un)
    end
  end.

(** The digit loop of [formatBits] in base 10, filling the buffer from
    its end; a [uint64] has at most 20 digits. *)
Fixpoint formatBits (fuel : nat) (u : Z) (a : list Z) : list Z :=
  match fuel with
  | O => a
  | S fuel' =>
    if u <? 10 then (48 + u) :: a
    else formatBits fuel' (u / 10) ((48 + u mod 10) :: a)
  end.

(** [Itoa(i)] = [FormatInt(int64(i), 10)]. *)
Definition Itoa (i : Z) : string :=
  of_bytes (if i <? 0 then 45 :: formatBits 20 (- i) [] else formatBits 20 i []).

(** [ParseBool]. *)
Definition ParseBool (str : string) : option bool :=
  if string_in str ["1"; "t"; "T"; "TRUE"; "true"; "True"] then Some true
  else if string_in str ["0"; "f"; "F"; "FALSE"; "false"; "False"] then Some false
  else None.

End strconv.

(** ** viper: sources of a setting and their precedence *)

Module viper.

(** The values a source holds: defaults are typed as written in
    [SetDefault], the environment and the file hold strings. *)
Inductive value :=
| VString (s : string)
| VInt (z : Z)
| VBool (b : bool).

(** viper's keys are case-insensitive; a key is named here by the
    upper-case spelling of the source, which is also the name of its
    environment variable. *)
Record Viper := mkViper {
  defaults : gmap string value;
  config : gmap string value;
  automaticEnvApplied : bool
}.

Definition New : Viper := mkViper ∅ ∅ false.

Definition SetDefault (key : string) (val : value) (v : Viper) : Viper :=
  mkViper (<[key := val]> (defaults v)) (config v) (automaticEnvApplied v).

Inductive error := ConfigFileNotFoundError.

(** [ReadInConfig]: [file] is the content of [./.env] as the env codec
    decodes it, [None] when there is no such file or it cannot be read.
    The codec expands [$VAR] from the process environment, so the decoded
    content is the one for the environment at hand; viper folds the case of
    the keys it reads, and a key of the file is found here under its
    upper-case spelling, the spelling of the settings' keys. *)
Definition ReadInConfig (file : option (gmap string string)) (v : Viper)
  : Viper * option error :=
  match file with
  | None => (v, Some ConfigFileNotFoundError)
  | Some m => (mkViper (defaults v) (VString <$> m) (automaticEnvApplied v), None)
  end.

Definition AutomaticEnv (v : Viper) : Viper :=
  mkViper (defaults v) (config v) true.

(** [getEnv]: an empty variable counts as unset ([AllowEmptyEnv] is off). *)
Definition getEnv (environ : gmap string string) (key : string) : option string :=
  match environ !! key with
  | Some val => if String.eqb val "" then None else Some val
  | None => None
  end.

(** [find]: environment, then file, then default. *)
Definition find (environ : gmap string string) (v : Viper) (key : string)
  : option value :=
  match (if automaticEnvApplied v then getEnv environ key else None) with
  | Some s => Some (VString s)
  | None =>
    match config v !! key with
    | Some val => Some val
    | None => defaults v !! key
    end
  end.

(** [AllSettings]: every key of the file and of the defaults with the
    value [Get] finds for it. *)
Definition AllSettings (environ : gmap string string) (v : Viper)
  : gmap string value :=
  let keys : gset string := dom (defaults v) ∪ dom (config v) in
  set_fold (fun k acc => match find environ v k with
                         | Some val => <[k := val]> acc
                         | None => acc
                         end) ∅ keys.

End viper.

(** ** mapstructure: weakly typed decoding into the struct's fields *)

Module mapstructure.
Import viper.

Definition decodeString (data : value) : string :=
  match data with
  | VString s => s
  | VInt z => strconv.Itoa z
  | VBool b => if b then "1" else "0"
  end.

(** [int] is 64 bits wide. *)
Definition decodeInt (data : value) : option Z :=
  match data with
  | VInt z => Some z
  | VBool b => Some (if b then 1 else 0)
  | VString s =>
    let str := if String.eqb s "" then "0" else s in
    match strconv.ParseInt str 64 with
    | inr i => Some i
    | inl _ => None
    end
  end.

Definition decodeBool (data : value) : option bool :=
  match data with
  | VBool b => Some b
  | VInt z => Some (negb (z =? 0))
  | VString s =>
    match strconv.ParseBool s with
    | Some b => Some b
    | None => if String.eqb s "" then Some false else None
    end
  end.

End mapstructure.

(** ** go-playground/validator: the tags the settings use *)

Module validator.

Inductive rule :=
| required
| min (p : Z)
| max (p : Z)
| oneof (vals : list string).

Inductive fieldval :=
| FString (s : string)
| FInt (z : Z)
| FBool (b : bool).

Record FieldError := mkFieldError { Field : string; Tag : string }.

Definition tag_of (r : rule) : string :=
  match r with
  | required => "required"
  | min _ => "min"
  | max _ => "max"
  | oneof _ => "oneof"
  end.

(** [required] asks for a value other than the zero value; [min] and
    [max] compare a number, and the number of runes of a string; [oneof]
    is used on strings. *)
Definition holds (r : rule) (v : fieldval) : bool :=
  match r, v with
  | required, FString s => negb (String.eqb s "")
  | required, FInt z => negb (z =? 0)
  | required, FBool b => b
  | min p, FInt z => p <=? z
  | max p, FInt z => z <=? p
  | min p, FString s => p <=? Z.of_nat (length (utf8.runes (bytes s)))
  | max p, FString s => Z.of_nat (length (utf8.runes (bytes s))) <=? p
  | oneof vals, FString s => string_in s vals
  | _, _ => false
  end.

(** The tag of the first rule of a field that fails. *)
Fixpoint first_failure (rules : list rule) (v : fieldval) : option string :=
  match rules with
  | [] => None
  | r :: rest => if holds r v then first_failure rest v else Some (tag_of r)
  end.

(** [validate.Struct]: one error per failing field, in field order. *)
Fixpoint Struct (fields : list (string * fieldval * list rule)) : list FieldError :=
  match fields with
  | [] => []
  | (name, v, rules) :: rest =>
    match first_failure rules v with
    | Some tag => mkFieldError name tag :: Struct rest
    | None => Struct rest
    end
  end.

End validator.

(** ** Package [config] *)

Module config.
Import viper.

Record Config := mkConfig {
  AppName : string;
  AppVersion : string;
  Debug : bool;
  Host : string;
  Port : Z;
  LogLevel : string;
  LogFormat : string
}.

Definition set_LogLevel (l : string) (cfg : Config) : Config :=
  mkConfig (AppName cfg) (AppVersion cfg) (Debug cfg) (Host cfg) (Port cfg)
           l (LogFormat cfg).

Definition set_Port (p : Z) (cfg : Config) : Config :=
  mkConfig (AppName cfg) (AppVersion cfg) (Debug cfg) (Host cfg) p
           (LogLevel cfg) (LogFormat cfg).

Definition LogLevel_names : list string :=
  ["DEBUG"; "INFO"; "WARNING"; "ERROR"; "CRITICAL"].

(** The [validate:] tags of the struct. *)
Definition tags (cfg : Config) : list (string * validator.fieldval * list validator.rule) :=
  [ ("AppName", validator.FString (AppName cfg), [validator.required]);
    ("AppVersion", validator.FString (AppVersion cfg), [validator.required]);
    ("Debug", validator.FBool (Debug cfg), []);
    ("Host", validator.FString (Host cfg), [validator.required]);
    ("Port", validator.FInt (Port cfg),
       [validator.required; validator.min 1; validator.max 65535]);
    ("LogLevel", validator.FString (LogLevel cfg),
       [validator.required; validator.oneof LogLevel_names]);
    ("LogFormat", validator.FString (LogFormat cfg),
       [validator.required; validator.oneof ["json"; "text"]]) ].

(** [Validate] (validator.go). *)
Definition Validate (cfg : Config) : list validator.FieldError :=
  validator.Struct (tags cfg).

Definition field_string (settings : gmap string value) (key : string) : string :=
  match settings !! key with
  | Some data => mapstructure.decodeString data
  | None => ""
  end.

Definition field_int (settings : gmap string value) (key : string) : option Z :=
  match settings !! key with
  | Some data => mapstructure.decodeInt data
  | None => Some 0
  end.

Definition field_bool (settings : gmap string value) (key : string) : option bool :=
  match settings !! key with
  | Some data => mapstructure.decodeBool data
  | None => Some false
  end.

(** [v.Unmarshal(&cfg)]: the [mapstructure:] tags name the keys; the
    error lists the keys that do not decode. *)
Definition Unmarshal (environ : gmap string string) (v : Viper)
  : list string + Config :=
  let settings := AllSettings environ v in
  match field_bool settings "DEBUG", field_int settings "PORT" with
  | Some debug, Some port =>
    inr (mkConfig (field_string settings "APP_NAME")
                  (field_string settings "APP_VERSION")
                  debug
                  (field_string settings "HOST")
                  port
                  (field_string settings "LOG_LEVEL")
                  (field_string settings "LOG_FORMAT"))
  | d, p =>
    inl (app (if d is None then ["DEBUG"] else []) (if p is None then ["PORT"] else []))
  end.

Inductive LoadError :=
| ErrUnmarshal (keys : list string)          (* "failed to unmarshal config" *)
| ErrValidation (errs : list validator.FieldError). (* "config validation failed" *)

(** [Load]: [inr cfg] is [(&cfg, nil)], [inl e] is [(nil, e)].  The
    process environment and the content of [./.env] are its inputs. *)
Definition Load (CaseRanges : list unicode.CaseRange)
           (environ : gmap string string) (dotenv : option (gmap string string))
  : LoadError + Config :=
  let v := New in
  let v := SetDefault "APP_NAME" (VString "CHANGE_ME") v in
  let v := SetDefault "APP_VERSION" (VString "0.1.0") v in
  let v := SetDefault "DEBUG" (VBool false) v in
  let v := SetDefault "HOST" (VString "0.0.0.0") v in
  let v := SetDefault "PORT" (VInt 8000) v in
  let v := SetDefault "LOG_LEVEL" (VString "INFO") v in
  let v := SetDefault "LOG_FORMAT" (VString "json") v in
  let '(v, _) := ReadInConfig dotenv v in
  let v := AutomaticEnv v in
  match Unmarshal environ v with
  | inl keys => inl (ErrUnmarshal keys)
  | inr cfg =>
    let cfg := set_LogLevel (strings.ToUpper CaseRanges (LogLevel cfg)) cfg in
    match Validate cfg with
    | [] => inr cfg
    | errs => inl (ErrValidation errs)
    end
  end.

End config.

(** ** Package [time] *)

Module time.

(** A [Time]: the wall clock as seconds and nanoseconds since the Unix
    epoch, the monotonic reading in nanoseconds when it has one, and the
    offset of its location from UTC in seconds. *)
Record Time := mkTime {
  unix : Z;
  nsec : Z;
  mono : option Z;
  offset : Z
}.

(** [Duration] is an [int64] of nanoseconds. *)
Definition minDuration : Z := - 2 ^ 63.
Definition maxDuration : Z := 2 ^ 63 - 1.
Definition Second : Z := 1000000000.
Definition Millisecond : Z := 1000000.

Definition wrap64 (z : Z) : Z := (z + 2 ^ 63) mod 2 ^ 64 - 2 ^ 63.

(** [subMono]: the difference of two monotonic readings, saturated. *)
Definition subMono (t u : Z) : Z :=
  let d := wrap64 (t - u) in
  if (d <? 0) && (u <? t) then maxDuration
  else if (0 <? d) && (t <? u) then minDuration
  else d.

(** [t.Sub(u)]: on the monotonic readings when both have one, on the
    wall clock otherwise; out of range it is the nearest [Duration]. *)
Definition Sub (t u : Time) : Z :=
  match mono t, mono u with
  | Some mt, Some mu => subMono mt mu
  | _, _ =>
    let exact := (unix t - unix u) * Second + (nsec t - nsec u) in
    if exact <? minDuration then minDuration
    else if maxDuration <? exact then maxDuration
    else exact
  end.

(** [d.Seconds()]: [float64(d / Second) + float64(d % Second) / 1e9],
    as the exact rational; the rounding of [float64] is left out. *)
Definition Seconds (d : Z) : Q :=
  (inject_Z (Z.quot d Second) + (Z.rem d Second # 1000000000))%Q.

(** [d.Milliseconds()]. *)
Definition Milliseconds (d : Z) : Z := Z.quot d Millisecond.

(** [t.UTC()]: the same instant in UTC, without the monotonic reading. *)
Definition UTC (t : Time) : Time := mkTime (unix t) (nsec t) None 0.

(** The civil date of a day number (days since 1970-01-01) in the
    proleptic Gregorian calendar: year, month, day. *)
Definition civil (days : Z) : Z * Z * Z :=
  let z := days + 719468 in
  let era := z / 146097 in
  let doe := z - era * 146097 in
  let yoe := (doe - doe / 1460 + doe / 36524 - doe / 146096) / 365 in
  let doy := doe - (365 * yoe + yoe / 4 - yoe / 100) in
  let mp := (5 * doy + 2) / 153 in
  let d := doy - (153 * mp + 2) / 5 + 1 in
  let m := if mp <? 10 then mp + 3 else mp - 9 in
  let y := yoe + era * 400 + (if m <=? 2 then 1 else 0) in
  (y, m, d).

(** [appendInt]: decimal, with a sign when negative, zero-padded to [width]. *)
Definition appendInt (x : Z) (width : nat) : list Z :=
  let digits := strconv.formatBits 20 (Z.abs x) [] in
  let padded := app (repeat 48 (width - length digits)) digits in
  if x <? 0 then 45 :: padded else padded.

(** [t.Format(time.RFC3339)], layout ["2006-01-02T15:04:05Z07:00"]. *)
Definition Format_RFC3339 (t : Time) : string :=
  let abs := unix t + offset t in
  let secs := abs mod 86400 in
  let '(year, month, day) := civil (abs / 86400) in
  let zone := offset t / 60 in
  of_bytes
    (appendInt year 4 ++ [45] ++ appendInt month 2 ++ [45] ++ appendInt day 2
     ++ [84]
     ++ appendInt (secs / 3600) 2 ++ [58] ++ appendInt (secs mod 3600 / 60) 2
     ++ [58] ++ appendInt (secs mod 60) 2
     ++ (if offset t =? 0 then [90]
         else (if zone <? 0 then [45] else [43])
              ++ appendInt (Z.abs zone / 60) 2 ++ [58]
              ++ appendInt (Z.abs zone mod 60) 2))%list.

End time.

(** ** zap: levels, configurations, entries *)

Module zapcore.

Inductive Level :=
| DebugLevel | InfoLevel | WarnLevel | ErrorLevel
| DPanicLevel | PanicLevel | FatalLevel.

Definition Level_int (l : Level) : Z :=
  match l with
  | DebugLevel => -1 | InfoLevel => 0 | WarnLevel => 1 | ErrorLevel => 2
  | DPanicLevel => 3 | PanicLevel => 4 | FatalLevel => 5
  end.

(** [l.Enabled(lvl)]: entries at [lvl] pass a logger at level [l]. *)
Definition Enabled (l lvl : Level) : bool := Level_int l <=? Level_int lvl.

Inductive TimeEncoder := EpochTimeEncoder | ISO8601TimeEncoder.
Inductive LevelEncoder :=
| LowercaseLevelEncoder | CapitalLevelEncoder | CapitalColorLevelEncoder.

Inductive Field :=
| String (s : string)
| Int (z : Z).

Record Entry := mkEntry {
  EntryLevel : Level;
  Message : string;
  Fields : list (string * Field)
}.

End zapcore.

Module zap.

Record Config := mkConfig {
  Level : zapcore.Level;
  Development : bool;
  Encoding : string;
  TimeKey : string;
  EncodeTime : zapcore.TimeEncoder;
  EncodeLevel : zapcore.LevelEncoder
}.

(** The production configuration also samples (the first 100 entries of a
    second with the same level and message, then every 100th); [Config] has
    no field for it, see [logger.Infow]. *)
Definition NewProductionConfig : Config :=
  mkConfig zapcore.InfoLevel false "json" "ts"
           zapcore.EpochTimeEncoder zapcore.LowercaseLevelEncoder.

Definition NewDevelopmentConfig : Config :=
  mkConfig zapcore.DebugLevel true "console" "T"
           zapcore.ISO8601TimeEncoder zapcore.CapitalLevelEncoder.

(** A built logger keeps the configuration it was built from. *)
Record SugaredLogger := mkSugaredLogger { core : Config }.

Inductive error := NoEncoderRegistered (name : string).

(** [cfg.Build()] followed by [Sugar()]: the encoders registered are
    ["json"] and ["console"]; the sink is the standard error stream. *)
Definition Build (cfg : Config) : error + SugaredLogger :=
  if string_in (Encoding cfg) ["json"; "console"]
  then inr (mkSugaredLogger cfg)
  else inl (NoEncoderRegistered (Encoding cfg)).

End zap.

(** ** The world outside the process *)

(** What the code reads and writes besides its arguments: the clock (the
    [k]-th call of [time.Now] reads [clock k]), the log entries written, the
    result of the [k]-th flush of the log sink, and the idle connections of
    the shared HTTP client's transport. *)
Record World := mkWorld {
  clock : nat -> time.Time;
  ticks : nat;
  logged : list zapcore.Entry;
  sync_result : nat -> option string;
  syncs : nat;
  idle_conns : nat;
  idle_closes : nat
}.

Definition Now (w : World) : time.Time * World :=
  (clock w (ticks w),
   mkWorld (clock w) (S (ticks w)) (logged w) (sync_result w) (syncs w)
           (idle_conns w) (idle_closes w)).

Definition write_entry (e : zapcore.Entry) (w : World) : World :=
  mkWorld (clock w) (ticks w) (logged w ++ [e])%list (sync_result w) (syncs w)
          (idle_conns w) (idle_closes w).

Definition flush (w : World) : option string * World :=
  (sync_result w (syncs w),
   mkWorld (clock w) (ticks w) (logged w) (sync_result w) (S (syncs w))
           (idle_conns w) (idle_closes w)).

Definition close_idle (w : World) : World :=
  mkWorld (clock w) (ticks w) (logged w) (sync_result w) (syncs w)
          0%nat (S (idle_closes w)).

(** A call returns, or panics (a nil pointer is dereferenced); the world
    is what it is at that point. *)
Inductive outcome (A : Type) :=
| Returned (a : A) (w : World)
| Panicked (w : World).
Arguments Returned {A} a w.
Arguments Panicked {A} w.

(** ** Package [logger] *)

Module logger.

(** [Logger] embeds a [*zap.SugaredLogger]; [None] is the nil pointer. *)
Record Logger := mkLogger { SugaredLogger : option zap.SugaredLogger }.

Record Config := mkConfig {
  Level : string;
  Format : string
}.

(** [parseLevel]: the level and the error, which is [None] for [nil]. *)
Definition parseLevel (level : string) : zapcore.Level * option zap.error :=
  if String.eqb level "DEBUG" then (zapcore.DebugLevel, None)
  else if String.eqb level "INFO" then (zapcore.InfoLevel, None)
  else if String.eqb level "WARNING" || String.eqb level "WARN"
    then (zapcore.WarnLevel, None)
  else if String.eqb level "ERROR" then (zapcore.ErrorLevel, None)
  else if String.eqb level "CRITICAL" || String.eqb level "FATAL"
    then (zapcore.FatalLevel, None)
  else (zapcore.InfoLevel, None).

Definition set_TimeKey (k : string) (c : zap.Config) : zap.Config :=
  zap.mkConfig (zap.Level c) (zap.Development c) (zap.Encoding c) k
               (zap.EncodeTime c) (zap.EncodeLevel c).

Definition set_EncodeTime (e : zapcore.TimeEncoder) (c : zap.Config) : zap.Config :=
  zap.mkConfig (zap.Level c) (zap.Development c) (zap.Encoding c) (zap.TimeKey c)
               e (zap.EncodeLevel c).

Definition set_EncodeLevel (e : zapcore.LevelEncoder) (c : zap.Config) : zap.Config :=
  zap.mkConfig (zap.Level c) (zap.Development c) (zap.Encoding c) (zap.TimeKey c)
               (zap.EncodeTime c) e.

Definition set_Level (l : zapcore.Level) (c : zap.Config) : zap.Config :=
  zap.mkConfig l (zap.Development c) (zap.Encoding c) (zap.TimeKey c)
               (zap.EncodeTime c) (zap.EncodeLevel c).

(** [New]: [inr l] is [(l, nil)], [inl e] is [(nil, e)]. *)
Definition New (cfg : Config) : zap.error + Logger :=
  match parseLevel (Level cfg) with
  | (_, Some err) => inl err
  | (level, None) =>
    let zapConfig :=
      if String.eqb (Format cfg) "json" then
        set_EncodeTime zapcore.ISO8601TimeEncoder
          (set_TimeKey "timestamp" zap.NewProductionConfig)
      else
        set_EncodeTime zapcore.ISO8601TimeEncoder
          (set_EncodeLevel zapcore.CapitalColorLevelEncoder zap.NewDevelopmentConfig) in
    let zapConfig := set_Level level zapConfig in
    match zap.Build zapConfig with
    | inl err => inl err
    | inr zapLogger => inr (mkLogger (Some zapLogger))
    end
  end.

(** The level a logger runs at. *)
Definition level_of (l : Logger) : option zapcore.Level :=
  (fun s => zap.Level (zap.core s)) <$> SugaredLogger l.

(** [l.Sync()] on a [*Logger]. *)
Definition Sync (l : option Logger) (w : World) : outcome (option string) :=
  match l with
  | Some (mkLogger (Some _)) => let '(err, w') := flush w in Returned err w'
  | _ => Panicked w
  end.

(** [l.Infow(msg, keysAndValues...)], promoted from the embedded logger.
    An entry the level lets pass is written; the sampler of the production
    configuration, which may drop it, and the time zap reads for the entry
    are left out. *)
Definition Infow (l : option Logger) (msg : string)
           (fields : list (string * zapcore.Field)) (w : World) : outcome unit :=
  match l with
  | Some (mkLogger (Some s)) =>
    if zapcore.Enabled (zap.Level (zap.core s)) zapcore.InfoLevel
    then Returned tt (write_entry (zapcore.mkEntry zapcore.InfoLevel msg fields) w)
    else Returned tt w
  | _ => Panicked w
  end.

End logger.

(** ** Package [constants] *)

Module constants.

Definition HealthStatusHealthy : string := "healthy".
Definition HealthStatusDegraded : string := "degraded".
Definition HealthStatusUnhealthy : string := "unhealthy".

Definition CORSAllowOrigins : list string :=
  ["http://localhost:3000"; "http://localhost:8000"; "http://localhost:8080"].

End constants.

(** ** gin: request, response writer, context, handler chain *)

Module gin.

(** An [http.Header]: canonical key to the values sent under it. *)
Abbreviation Header := (gmap string (list string)).

(** [h.Get(key)]: the first value, [""] when there is none. *)
Definition Get (h : Header) (key : string) : string :=
  match h !! key with
  | Some (v :: _) => v
  | _ => ""
  end.

(** [h.Set(key, value)]. *)
Definition Header_Set (key value : string) (h : Header) : Header :=
  <[key := [value]]> h.

Record Request := mkRequest {
  Method : string;
  Path : string;
  ReqHeader : Header;
  ClientIP : string
}.

(** A JSON document, as far as the handlers build one: an object of
    strings and numbers, its members in the order of the struct's fields. *)
Inductive jvalue :=
| JString (s : string)
| JNumber (q : Q).

Definition json := list (string * jvalue).

(** The member of an object under a key. *)
Definition member (key : string) (obj : json) : option jvalue :=
  snd <$> find (fun kv => String.eqb (fst kv) key) obj.

Inductive payload :=
| PJSON (obj : json)
| PText (s : string).

(** The [responseWriter]: the status to send, whether the header is
    out, the response header, and what was written to the body. *)
Record ResponseWriter := mkWriter {
  status : Z;
  written : bool;
  header : Header;
  body : list payload
}.

Record Context := mkContext {
  Req : Request;
  Writer : ResponseWriter;
  index : Z
}.

(** [abortIndex = math.MaxInt8 >> 1]. *)
Definition abortIndex : Z := 63.
Definition int8 (z : Z) : Z := (z + 128) mod 256 - 128.

Definition set_index (i : Z) (c : Context) : Context :=
  mkContext (Req c) (Writer c) i.

Definition set_Writer (w : ResponseWriter) (c : Context) : Context :=
  mkContext (Req c) w (index c).

Definition set_header (h : Header) (w : ResponseWriter) : ResponseWriter :=
  mkWriter (status w) (written w) h (body w).

(** [c.Writer.Header().Set(key, value)]. *)
Definition Writer_Header_Set (key value : string) (c : Context) : Context :=
  set_Writer (set_header (Header_Set key value (header (Writer c))) (Writer c)) c.

(** [w.WriteHeader(code)]: ignored once the header is out. *)
Definition WriteHeader (code : Z) (w : ResponseWriter) : ResponseWriter :=
  if (0 <? code) && negb (status w =? code) then
    if written w then w
    else mkWriter code (written w) (header w) (body w)
  else w.

(** [w.WriteHeaderNow()]. *)
Definition WriteHeaderNow (w : ResponseWriter) : ResponseWriter :=
  mkWriter (status w) true (header w) (body w).

(** [w.Write(data)]. *)
Definition Write (data : payload) (w : ResponseWriter) : ResponseWriter :=
  let w := WriteHeaderNow w in
  mkWriter (status w) (written w) (header w) (body w ++ [data])%list.

(** [c.Status(code)]. *)
Definition Status (code : Z) (c : Context) : Context :=
  set_Writer (WriteHeader code (Writer c)) c.

(** [c.Abort()]. *)
Definition Abort (c : Context) : Context := set_index abortIndex c.

Definition IsAborted (c : Context) : bool := abortIndex <=? index c.

(** [c.AbortWithStatus(code)]. *)
Definition AbortWithStatus (code : Z) (c : Context) : Context :=
  let c := Status code c in
  let c := set_Writer (WriteHeaderNow (Writer c)) c in
  Abort c.

Definition bodyAllowedForStatus (code : Z) : bool :=
  if (100 <=? code) && (code <=? 199) then false
  else if code =? 204 then false
  else if code =? 304 then false
  else true.

(** [writeContentType]: only when the header has none yet. *)
Definition writeContentType (value : string) (w : ResponseWriter) : ResponseWriter :=
  match header w !! "Content-Type" with
  | Some (_ :: _) => w
  | _ => set_header (Header_Set "Content-Type" value (header w)) w
  end.

(** [c.JSON(code, obj)]. *)
Definition JSON (code : Z) (obj : json) (c : Context) : Context :=
  let c := Status code c in
  let w := writeContentType "application/json; charset=utf-8" (Writer c) in
  if bodyAllowedForStatus code
  then set_Writer (Write (PJSON obj) w) c
  else set_Writer (WriteHeaderNow w) c.

(** What a handler leaves behind: it returned, or it panicked. *)
Inductive result :=
| Done (c : Context) (w : World)
| Panic (c : Context) (w : World).

Section Chain.
(** The handlers of a chain, and how one is called: its first argument
    is what [c.Next()] does inside it. *)
Context {H : Type}.
Variable call : H -> (Context -> World -> result) -> Context -> World -> result.

(** The loop of [c.Next()],
    [for c.index < int8(len(c.handlers)) { c.handlers[c.index](c); c.index++ }],
    where [next] is what [c.Next()] does inside the handler called; a panic
    leaves the loop.  The index grows with every turn, so [n] turns suffice
    for [n] above the number of handlers. *)
Fixpoint run_handlers (n : nat) (next : Context -> World -> result)
         (handlers : list H) (c : Context) (w : World) : result :=
  match n with
  | O => Done c w
  | S n' =>
    if index c <? int8 (Z.of_nat (length handlers)) then
      match handlers !! Z.to_nat (index c) with
      | Some h =>
        match call h next c w with
        | Done c' w' => run_handlers n' next handlers (set_index (int8 (index c' + 1)) c') w'
        | Panic c' w' => Panic c' w'
        end
      | None => Done c w
      end
    else Done c w
  end.

(** [c.Next()]: [c.index++], then the loop.  A [Next] called by a handler
    has one unit of [fuel] less; the handlers call it at most once each, so
    the number of handlers and one suffice. *)
Fixpoint Next (fuel : nat) (handlers : list H) (c : Context) (w : World) : result :=
  match fuel with
  | O => Done c w
  | S fuel' =>
    run_handlers (S (length handlers)) (Next fuel' handlers) handlers
                 (set_index (int8 (index c + 1)) c) w
  end.

(** A route: method, path, and the chain that serves it. *)
Record Engine := mkEngine {
  middleware : list H;
  routes : list (string * string * list H)
}.

(** [engine.Use(m)]. *)
Definition Use (m : H) (e : Engine) : Engine :=
  mkEngine (middleware e ++ [m])%list (routes e).

(** [engine.GET(path, h)]: the chain is the middleware in use, then [h]. *)
Definition GET (path : string) (h : H) (e : Engine) : Engine :=
  mkEngine (middleware e) (routes e ++ [("GET", path, middleware e ++ [h])])%list.

Definition getValue (e : Engine) (method path : string) : option (list H) :=
  snd <$> List.find (fun r => String.eqb r.1.1 method && String.eqb r.1.2 path)
                    (routes e).

(** Whether a route of this method differs from [path] by a trailing slash. *)
Definition tsr (e : Engine) (method path : string) : bool :=
  existsb (fun r => String.eqb r.1.1 method
                    && (String.eqb (r.1.2 ++ "/") path || String.eqb r.1.2 (path ++ "/")))
          (routes e).

Definition has_tree (e : Engine) (method : string) : bool :=
  existsb (fun r => String.eqb r.1.1 method) (routes e).

(** The context of a new request: [c.reset()]. *)
Definition reset (req : Request) : Context :=
  mkContext req (mkWriter 200 false ∅ []) (-1).

(** [serveError(c, 404, default404Body)] over [allNoRoute], which is
    the middleware. *)
Definition serveError (e : Engine) (code : Z) (defaultMessage : string)
           (c : Context) (w : World) : result :=
  let c := set_Writer (mkWriter code (written (Writer c)) (header (Writer c))
                                (body (Writer c))) c in
  match Next (S (length (middleware e))) (middleware e) c w with
  | Panic c w => Panic c w
  | Done c w =>
    if written (Writer c) then Done c w
    else if status (Writer c) =? code then
      Done (set_Writer (Write (PText defaultMessage)
                          (set_header (<["Content-Type" := ["text/plain"]]> (header (Writer c)))
                                      (Writer c))) c) w
    else Done (set_Writer (WriteHeaderNow (Writer c)) c) w
  end.

(** [redirectTrailingSlash]: 301 for GET, 307 otherwise, to the path
    with the slash added or removed; no handler runs. *)
Definition redirectTrailingSlash (c : Context) : Context :=
  let p := Path (Req c) in
  let n := String.length p in
  let target :=
    if (1 <? n)%nat && String.eqb (substring (n - 1) 1 p) "/"
    then substring 0 (n - 1) p else p ++ "/" in
  let code := if String.eqb (Method (Req c)) "GET" then 301 else 307 in
  let c := set_Writer (set_header (Header_Set "Location" target (header (Writer c))) (Writer c)) c in
  set_Writer (WriteHeaderNow (WriteHeader code (Writer c))) c.

(** [engine.handleHTTPRequest(c)], with the default settings
    ([RedirectTrailingSlash] on, [HandleMethodNotAllowed] off). *)
Definition handleHTTPRequest (e : Engine) (req : Request) (w : World) : result :=
  let c := reset req in
  if has_tree e (Method req) then
    match getValue e (Method req) (Path req) with
    | Some handlers =>
      match Next (S (length handlers)) handlers c w with
      | Done c w => Done (set_Writer (WriteHeaderNow (Writer c)) c) w
      | Panic c w => Panic c w
      end
    | None =>
      if negb (String.eqb (Method req) "CONNECT") && negb (String.eqb (Path req) "/")
         && tsr e (Method req) (Path req)
      then Done (redirectTrailingSlash c) w
      else serveError e 404 "404 page not found" c w
    end
  else serveError e 404 "404 page not found" c w.

End Chain.

End gin.

(** ** Package [handlers] *)

Module handlers.
Import gin.

Record HealthHandler := mkHealthHandler {
  startupTime : time.Time;
  version : string
}.

(** [NewHealthHandler]: reads the clock once. *)
Definition NewHealthHandler (version : string) (w : World) : HealthHandler * World :=
  let '(now, w) := Now w in
  (mkHealthHandler now version, w).

Record HealthCheckResponse := mkHealthCheckResponse {
  Status : string;
  Version : string;
  UptimeSeconds : Q;
  Timestamp : string
}.

(** The [json:] tags of [HealthCheckResponse]. *)
Definition to_json (r : HealthCheckResponse) : json :=
  [ ("status", JString (Status r));
    ("version", JString (Version r));
    ("uptime_seconds", JNumber (UptimeSeconds r));
    ("timestamp", JString (Timestamp r)) ].

(** [h.Check(c)]: the handler is read, never written. *)
Definition Check (h : HealthHandler) (c : Context) (w : World) : Context * World :=
  let '(currentTime, w) := Now w in
  let uptime := time.Seconds (time.Sub currentTime (startupTime h)) in
  let response :=
    mkHealthCheckResponse constants.HealthStatusHealthy
                          (version h)
                          uptime
                          (time.Format_RFC3339 (time.UTC currentTime)) in
  (JSON 200 (to_json response) c, w).

End handlers.

(** ** Package [middleware] *)

Module middleware.
Import gin.

(** The loop of [CORS] over the allow-list:
    [if origin == allowed { Header().Set(...); break }]. *)
Fixpoint allow_origin (origin : string) (allowed : list string) (c : Context)
  : Context :=
  match allowed with
  | [] => c
  | a :: rest =>
    if String.eqb origin a
    then Writer_Header_Set "Access-Control-Allow-Origin" origin c
    else allow_origin origin rest c
  end.

(** The handler [CORS()] returns; [next] is [c.Next()]. *)
Definition CORS (next : Context -> World -> result) (c : Context) (w : World)
  : result :=
  let origin := Get (ReqHeader (Req c)) "Origin" in
  let c := allow_origin origin constants.CORSAllowOrigins c in
  let c := Writer_Header_Set "Access-Control-Allow-Credentials" "true" c in
  let c := Writer_Header_Set "Access-Control-Allow-Methods"
                             "GET, POST, PUT, DELETE, PATCH, OPTIONS" c in
  let c := Writer_Header_Set "Access-Control-Allow-Headers" "*" c in
  if String.eqb (Method (Req c)) "OPTIONS" then
    Done (AbortWithStatus 204 c) w
  else
    next c w.

(** The handler [Logger(log)] returns. *)
Definition Logger (log : option logger.Logger)
           (next : Context -> World -> result) (c : Context) (w : World) : result :=
  let '(start, w) := Now w in
  match next c w with
  | Panic c w => Panic c w
  | Done c w =>
    let '(now, w) := Now w in
    let duration := time.Sub now start in
    match logger.Infow log "http_request"
            [ ("method", zapcore.String (Method (Req c)));
              ("path", zapcore.String (Path (Req c)));
              ("status", zapcore.Int (status (Writer c)));
              ("duration_ms", zapcore.Int (time.Milliseconds duration));
              ("ip", zapcore.String (ClientIP (Req c))) ] w with
    | Returned _ w => Done c w
    | Panicked w => Panic c w
    end
  end.

(** [gin.Recovery()]: a panic of a later handler becomes a 500. *)
Definition Recovery (next : Context -> World -> result) (c : Context) (w : World)
  : result :=
  match next c w with
  | Done c w => Done c w
  | Panic c w => Done (AbortWithStatus 500 c) w
  end.

End middleware.

(** ** Package [dependencies] *)

Module dependencies.

Record Transport := mkTransport {
  MaxIdleConns : Z;
  MaxIdleConnsPerHost : Z;
  IdleConnTimeout : Z
}.

Record Client := mkClient {
  Timeout : Z;
  Transport_ : option Transport
}.

(** The fields are pointers; [None] is nil. *)
Record Container := mkContainer {
  Config : option config.Config;
  Logger : option logger.Logger;
  HTTPClient : option Client
}.

Definition NewContainer (cfg : option config.Config) (log : option logger.Logger)
  : Container :=
  let httpClient :=
    mkClient (30 * time.Second)
             (Some (mkTransport 10 10 (90 * time.Second))) in
  mkContainer cfg log (Some httpClient).

(** [provideLogger] (wire.go): the logger of a settings record. *)
Definition provideLogger (cfg : config.Config) : zap.error + logger.Logger :=
  logger.New (logger.mkConfig (config.LogLevel cfg) (config.LogFormat cfg)).

(** [client.CloseIdleConnections()]: the transport drops its idle
    connections. *)
Definition CloseIdleConnections (client : option Client) (w : World) : outcome unit :=
  match client with
  | None => Panicked w
  | Some _ => Returned tt (close_idle w)
  end.

(** [c.Close()]: the error of [Sync], or nil. *)
Definition Close (c : Container) (w : World) : outcome (option string) :=
  match CloseIdleConnections (HTTPClient c) w with
  | Panicked w => Panicked w
  | Returned _ w =>
    match logger.Sync (Logger c) w with
    | Panicked w => Panicked w
    | Returned (Some err) w => Returned (Some err) w
    | Returned None w => Returned None w
    end
  end.

End dependencies.

(** ** Package [http] (internal/interfaces/http) *)

Module httpserver.
Import gin.

(** The handlers this server installs. *)
Inductive HandlerFunc :=
| Recovery
| CORS
| Logger (log : option logger.Logger)
| Check (h : handlers.HealthHandler).

Definition call (h : HandlerFunc) (next : Context -> World -> result)
           (c : Context) (w : World) : result :=
  match h with
  | Recovery => middleware.Recovery next c w
  | CORS => middleware.CORS next c w
  | Logger log => middleware.Logger log next c w
  | Check h => let '(c, w) := handlers.Check h c w in Done c w
  end.

Record Server := mkServer {
  router : Engine (H := HandlerFunc);
  container : dependencies.Container
}.

(** [New(container)]: panics on a container without configuration.  The
    gin mode it sets from [Debug] changes gin's own debug output only. *)
Definition New (container : dependencies.Container) (w : World) : outcome Server :=
  match dependencies.Config container with
  | None => Panicked w
  | Some cfg =>
    let router := mkEngine [] [] in
    let router := Use Recovery router in
    let router := Use CORS router in
    let router := Use (Logger (dependencies.Logger container)) router in
    let '(healthHandler, w) := handlers.NewHealthHandler (config.AppVersion cfg) w in
    let router := GET "/health" (Check healthHandler) router in
    Returned (mkServer router container) w
  end.

(** What the client receives. *)
Record Response := mkResponse {
  StatusCode : Z;
  RespHeader : Header;
  Body : list payload
}.

(** [s.Router().ServeHTTP(w, req)].  A panic that reaches the engine
    would end the connection; [Recovery] is the first handler of every
    chain, so none does. *)
Definition ServeHTTP (s : Server) (req : Request) (w : World) : option Response * World :=
  match handleHTTPRequest call (router s) req w with
  | Done c w =>
    (Some (mkResponse (status (Writer c)) (header (Writer c)) (body (Writer c))), w)
  | Panic c w => (None, w)
  end.

(** Requests served one after the other. *)
Fixpoint serve (s : Server) (reqs : list Request) (w : World)
  : list (option Response) * World :=
  match reqs with
  | [] => ([], w)
  | req :: rest =>
    let '(r, w) := ServeHTTP s req w in
    let '(rs, w) := serve s rest w in
    (r :: rs, w)
  end.

End httpserver.

(** ** Definitions for the statements *)

(** The cut-off of [ParseUint] in base 10 and the largest [uint64]. *)
Definition cutoff10 : Z := (2 ^ 64 - 1) / 10 + 1.
Definition maxVal64 : Z := 2 ^ 64 - 1.

(** The viper [config.Load] has set up when it unmarshals: the seven
    defaults, the file when there is one, the environment switched on. *)
Definition Load_viper (dotenv : option (gmap string string)) : viper.Viper :=
  let v := viper.New in
  let v := viper.SetDefault "APP_NAME" (viper.VString "CHANGE_ME") v in
  let v := viper.SetDefault "APP_VERSION" (viper.VString "0.1.0") v in
  let v := viper.SetDefault "DEBUG" (viper.VBool false) v in
  let v := viper.SetDefault "HOST" (viper.VString "0.0.0.0") v in
  let v := viper.SetDefault "PORT" (viper.VInt 8000) v in
  let v := viper.SetDefault "LOG_LEVEL" (viper.VString "INFO") v in
  let v := viper.SetDefault "LOG_FORMAT" (viper.VString "json") v in
  viper.AutomaticEnv (viper.ReadInConfig dotenv v).1.

(** The value [Load] works with for a key: what [v.Get(key)] finds. *)
Definition effective (environ : gmap string string)
           (dotenv : option (gmap string string)) (key : string)
  : option viper.value :=
  viper.find environ (Load_viper dotenv) key.

(** What [Load] does with the decoded struct: lines 67 to 75. *)
Definition normalize_validate (CaseRanges : list unicode.CaseRange)
           (cfg : config.Config) : config.LoadError + config.Config :=
  let cfg := config.set_LogLevel (strings.ToUpper CaseRanges (config.LogLevel cfg)) cfg in
  match config.Validate cfg with
  | [] => inr cfg
  | errs => inl (config.ErrValidation errs)
  end.

(** [c] is the letter [n] in upper or in lower case, for an upper-case
    ASCII letter [n]. *)
Definition either_case (c n : Z) : bool := (c =? n) || (c =? n + 32).

(** [s] spells [name] with each letter in either case. *)
Fixpoint case_combination_bytes (s name : list Z) : bool :=
  match s, name with
  | [], [] => true
  | c :: s', n :: name' => either_case c n && case_combination_bytes s' name'
  | _, _ => false
  end.

Definition case_combination (s name : string) : bool :=
  case_combination_bytes (bytes s) (bytes name).

(** Upper-case ASCII letters only. *)
Definition upper_letters (name : string) : bool :=
  forallb (fun n => (65 <=? n) && (n <=? 90)) (bytes name).

(** ["ınfo"], with U+0131 LATIN SMALL LETTER DOTLESS I (bytes C4 B1). *)
Definition dotless_info : string := String "196" (String "177" "nfo").

(** The row of [unicode.CaseRanges] for U+0131: 232 down to upper case. *)
Definition dotless_i_row : unicode.CaseRange :=
  unicode.mkCaseRange 305 305 (-232) 0 (-232).

(** The error of one field, when one of its rules fails. *)
Definition field_error (name : string) (v : validator.fieldval)
           (rules : list validator.rule) : list validator.FieldError :=
  match validator.first_failure rules v with
  | Some tag => [validator.mkFieldError name tag]
  | None => []
  end.

Definition Port_rules : list validator.rule :=
  [validator.required; validator.min 1; validator.max 65535].

Definition LogLevel_rules : list validator.rule :=
  [validator.required; validator.oneof config.LogLevel_names].

(** The settings [Load] returns when nothing is set. *)
Definition default_Config : config.Config :=
  config.mkConfig "CHANGE_ME" "0.1.0" false "0.0.0.0" 8000 "INFO" "json".

(** The level strings [logger.parseLevel] has a case for. *)
Definition logger_level_names : list string :=
  ["DEBUG"; "INFO"; "WARNING"; "WARN"; "ERROR"; "CRITICAL"; "FATAL"].

(** [n] calls of [Close] on the same container, one after the other: the
    errors they returned, or a panic. *)
Fixpoint Close_times (n : nat) (c : dependencies.Container) (w : World)
  : outcome (list (option string)) :=
  match n with
  | O => Returned [] w
  | S n' =>
    match dependencies.Close c w with
    | Panicked w => Panicked w
    | Returned err w =>
      match Close_times n' c w with
      | Panicked w => Panicked w
      | Returned errs w => Returned (err :: errs) w
      end
    end
  end.

(** A world to run examples in: the clock starts at 2024-01-15T10:30:00Z
    and each reading is a second and a half after the one before (the
    monotonic reading is an [int64] and stays at the largest one); flushing
    the log sink fails, as it does on a terminal; three connections idle. *)
Definition sample_clock (k : nat) : time.Time :=
  time.mkTime (1705314600 + Z.of_nat k * 3 / 2) 0
              (Some (Z.min (Z.of_nat k * 1500000000) time.maxDuration)) 3600.

Definition sample_World : World :=
  mkWorld sample_clock 0 [] (fun _ => Some "sync /dev/stderr: invalid argument")
          0 3 0.

(** The logger [logger.New] builds for INFO and json. *)
Definition sample_Logger : logger.Logger :=
  logger.mkLogger
    (Some (zap.mkSugaredLogger
             (zap.mkConfig zapcore.InfoLevel false "json" "timestamp"
                           zapcore.ISO8601TimeEncoder zapcore.LowercaseLevelEncoder))).

(** ** The two chains of the server, handler by handler

    What [Next] does from each position of the chain of [/health],
    [Recovery; CORS; Logger log; Check h], written with the handlers
    themselves: the index a handler sees and the index the loop leaves are
    spelled out. *)

Definition health_chain (log : option logger.Logger) (h : handlers.HealthHandler)
  : list httpserver.HandlerFunc :=
  [httpserver.Recovery; httpserver.CORS; httpserver.Logger log; httpserver.Check h].

(** The chain of a request no route matches: the middleware alone. *)
Definition noroute_chain (log : option logger.Logger) : list httpserver.HandlerFunc :=
  [httpserver.Recovery; httpserver.CORS; httpserver.Logger log].

(** What [CORS] does to the context before it decides: the headers. *)
Definition CORS_headers (c : gin.Context) : gin.Context :=
  gin.Writer_Header_Set "Access-Control-Allow-Headers" "*"
    (gin.Writer_Header_Set "Access-Control-Allow-Methods"
                           "GET, POST, PUT, DELETE, PATCH, OPTIONS"
       (gin.Writer_Header_Set "Access-Control-Allow-Credentials" "true"
          (middleware.allow_origin (gin.Get (gin.ReqHeader (gin.Req c)) "Origin")
                                   constants.CORSAllowOrigins c))).

(** The loop has run a handler and found nothing more to run: it leaves
    the index one further. *)
Definition leave (r : gin.result) : gin.result :=
  match r with
  | gin.Done c w => gin.Done (gin.set_index (gin.index c + 1) c) w
  | gin.Panic c w => gin.Panic c w
  end.

(** [Next] as [Logger] calls it in the chain of [/health]: [Check] runs. *)
Definition check_stage (h : handlers.HealthHandler) (c : gin.Context) (w : World)
  : gin.result :=
  let '(c1, w1) := handlers.Check h (gin.set_index 3 c) w in
  gin.Done (gin.set_index 4 c1) w1.

(** [Next] as [Logger] calls it when no route matched: nothing is left. *)
Definition nothing_stage (c : gin.Context) (w : World) : gin.result :=
  gin.Done (gin.set_index 3 c) w.

(** [Next] as [CORS] calls it: [Logger] runs, around [inner]. *)
Definition logger_stage (log : option logger.Logger)
           (inner : gin.Context -> World -> gin.result)
           (c : gin.Context) (w : World) : gin.result :=
  leave (middleware.Logger log inner (gin.set_index 2 c) w).

(** [Next] as [Recovery] calls it: [CORS] runs. *)
Definition cors_stage (log : option logger.Logger)
           (inner : gin.Context -> World -> gin.result)
           (c : gin.Context) (w : World) : gin.result :=
  leave (middleware.CORS (logger_stage log inner) (gin.set_index 1 c) w).

(** [Next] as the engine calls it: [Recovery] runs. *)
Definition recovery_stage (log : option logger.Logger)
           (inner : gin.Context -> World -> gin.result)
           (c : gin.Context) (w : World) : gin.result :=
  leave (middleware.Recovery (cors_stage log inner) (gin.set_index 0 c) w).

(** The index a stage leaves, unless it panics, lies between [lo] and [hi]. *)
Definition within (lo hi : Z) (r : gin.result) : Prop :=
  match r with
  | gin.Done c _ => lo <= gin.index c <= hi
  | gin.Panic _ _ => True
  end.

(** The response header after [CORS], from the one before it. *)
Definition CORS_header_map (origin : string) (h : gin.Header) : gin.Header :=
  gin.Header_Set "Access-Control-Allow-Headers" "*"
    (gin.Header_Set "Access-Control-Allow-Methods" "GET, POST, PUT, DELETE, PATCH, OPTIONS"
       (gin.Header_Set "Access-Control-Allow-Credentials" "true"
          (if string_in origin constants.CORSAllowOrigins
           then gin.Header_Set "Access-Control-Allow-Origin" origin h
           else h))).

(** The router [httpserver.New] builds. *)
Definition server_router (log : option logger.Logger) (h : handlers.HealthHandler)
  : gin.Engine :=
  gin.mkEngine (noroute_chain log) [("GET", "/health", health_chain log h)].

(** What the client receives from a context. *)
Definition response_of (c : gin.Context) : httpserver.Response :=
  httpserver.mkResponse (gin.status (gin.Writer c)) (gin.header (gin.Writer c))
                        (gin.body (gin.Writer c)).

(** A clock as Go's runtime gives it to [time.Now]: every reading carries
    a monotonic reading, an [int64], and a later reading is not smaller. *)
Definition monotonic_clock (clock : nat -> time.Time) : Prop :=
  exists m : nat -> Z,
    (forall k, time.mono (clock k) = Some (m k))
    /\ (forall k, - 2 ^ 63 <= m k < 2 ^ 63)
    /\ (forall j k, (j <= k)%nat -> m j <= m k).

(** A request for the health endpoint. *)
Definition is_health (req : gin.Request) : bool :=
  String.eqb (gin.Method req) "GET" && String.eqb (gin.Path req) "/health".

(** The members of the object a response carries. *)
Definition response_member (key : string) (r : httpserver.Response)
  : option gin.jvalue :=
  match httpserver.Body r with
  | [gin.PJSON obj] => gin.member key obj
  | _ => None
  end.

(** The body [Check] sends when the clock reads [now]. *)
Definition health_body (h : handlers.HealthHandler) (now : time.Time) : gin.json :=
  [ ("status", gin.JString "healthy");
    ("version", gin.JString (handlers.version h));
    ("uptime_seconds",
     gin.JNumber (time.Seconds (time.Sub now (handlers.startupTime h))));
    ("timestamp", gin.JString (time.Format_RFC3339 (time.UTC now))) ].

(** Requests to run examples on: a health check from an allow-listed
    origin, and a preflight from an origin that is not on the list. *)
Definition sample_request : gin.Request :=
  gin.mkRequest "GET" "/health" {[ "Origin" := ["http://localhost:3000"] ]} "127.0.0.1".

Definition sample_preflight : gin.Request :=
  gin.mkRequest "OPTIONS" "/health" {[ "Origin" := ["http://example.com"] ]} "127.0.0.1".

(** A handler that started at the first reading of the sample clock. *)
Definition sample_HealthHandler : handlers.HealthHandler :=
  handlers.mkHealthHandler (sample_clock 0) "0.1.0".

(** The sample world two clock readings later. *)
Definition sample_later : World := snd (Now (snd (Now sample_World))).

(** The container and the server of the default settings. *)
Definition sample_Container : dependencies.Container :=
  dependencies.NewContainer (Some default_Config) (Some sample_Logger).

Definition sample_Server : httpserver.Server :=
  httpserver.mkServer (server_router (Some sample_Logger) sample_HealthHandler)
                      sample_Container.

(** ** Definitions for further properties of the configuration *)

(** The keys [Load] sets defaults for. *)
Definition config_keys : list string :=
  ["APP_NAME"; "APP_VERSION"; "DEBUG"; "HOST"; "PORT"; "LOG_LEVEL"; "LOG_FORMAT"].

(** The precedence the comment of [Load] states: a variable of the
    environment (that is not empty), then the [.env] file, then the default. *)
Definition setting (environ : gmap string string) (dotenv : option (gmap string string))
           (key default : string) : string :=
  match viper.getEnv environ key with
  | Some s => s
  | None =>
    match dotenv with
    | Some file => match file !! key with Some s => s | None => default end
    | None => default
    end
  end.

(** A key written the way the settings' keys are: upper-case ASCII letters,
    digits and underscores.  viper folds the case of the keys of a file and
    splits them at dots, and the keys are named here by their upper-case
    spelling; a file whose keys are all written this way is one whose keys
    viper keeps apart, unsplit, and finds under these names. *)
Definition upper_key (k : string) : bool :=
  forallb (fun b => ((65 <=? b) && (b <=? 90)) || ((48 <=? b) && (b <=? 57)) || (b =? 95))
          (bytes k).

Definition upper_keys (dotenv : option (gmap string string)) : bool :=
  match dotenv with
  | Some file => forallb (fun kv => upper_key kv.1) (map_to_list file)
  | None => true
  end.

(** The value the decoded file has for a key. *)
Definition file_value (dotenv : option (gmap string string)) (key : string)
  : option string :=
  match dotenv with
  | Some file => file !! key
  | None => None
  end.

Definition set_LogFormat (f : string) (cfg : config.Config) : config.Config :=
  config.mkConfig (config.AppName cfg) (config.AppVersion cfg) (config.Debug cfg)
                  (config.Host cfg) (config.Port cfg) (config.LogLevel cfg) f.

Definition LogFormat_rules : list validator.rule :=
  [validator.required; validator.oneof ["json"; "text"]].

(** ** Definitions for further properties of the logger and the server *)

(** The entry [Logger] writes for a request that [c] has answered, started
    at [start] and finished at [now]. *)
Definition request_entry (c : gin.Context) (start now : time.Time) : zapcore.Entry :=
  zapcore.mkEntry zapcore.InfoLevel "http_request"
    [ ("method", zapcore.String (gin.Method (gin.Req c)));
      ("path", zapcore.String (gin.Path (gin.Req c)));
      ("status", zapcore.Int (gin.status (gin.Writer c)));
      ("duration_ms", zapcore.Int (time.Milliseconds (time.Sub now start)));
      ("ip", zapcore.String (gin.ClientIP (gin.Req c))) ].

(** The level strings at which a logger lets info entries pass: DEBUG, INFO
    and, by the default of [parseLevel], every string it does not know. *)
Definition logs_info (level : string) : bool :=
  negb (string_in level ["WARNING"; "WARN"; "ERROR"; "CRITICAL"; "FATAL"]).

(** The entry of the request log as the server writes it for [req], with
    the status answered and the readings of the clock around the chain. *)
Definition server_entry (req : gin.Request) (code : Z) (start now : time.Time)
  : zapcore.Entry :=
  zapcore.mkEntry zapcore.InfoLevel "http_request"
    [ ("method", zapcore.String (gin.Method req));
      ("path", zapcore.String (gin.Path req));
      ("status", zapcore.Int code);
      ("duration_ms", zapcore.Int (time.Milliseconds (time.Sub now start)));
      ("ip", zapcore.String (gin.ClientIP req)) ].

(** A request the router has no route for and does not redirect: not
    [GET /health], and not [GET /health/], which it redirects. *)
Definition no_route (req : gin.Request) : bool :=
  negb (String.eqb (gin.Method req) "GET"
        && (String.eqb (gin.Path req) "/health" || String.eqb (gin.Path req) "/health/")).

(** ** The injector and the test fixtures *)

(** [InitializeContainer] as wire generates it from the injector
    [wire.Build(config.Load, provideLogger, NewContainer)]: the providers in
    the order of their dependencies, the first error returned. *)
Inductive InitError :=
| ErrLoad (e : config.LoadError)
| ErrLogger (e : zap.error).

Definition InitializeContainer (CaseRanges : list unicode.CaseRange)
           (environ : gmap string string) (dotenv : option (gmap string string))
  : InitError + dependencies.Container :=
  match config.Load CaseRanges environ dotenv with
  | inl e => inl (ErrLoad e)
  | inr cfg =>
    match dependencies.provideLogger cfg with
    | inl e => inl (ErrLogger e)
    | inr lg => inr (dependencies.NewContainer (Some cfg) (Some lg))
    end
  end.

(** The zap level of a level name of the settings. *)
Definition level_of_name (name : string) : zapcore.Level :=
  if String.eqb name "DEBUG" then zapcore.DebugLevel
  else if String.eqb name "WARNING" then zapcore.WarnLevel
  else if String.eqb name "ERROR" then zapcore.ErrorLevel
  else if String.eqb name "CRITICAL" then zapcore.FatalLevel
  else zapcore.InfoLevel.

(** *** Package [mocks] (tests/mocks/fixtures.go) *)

Module mocks.

(** [NewTestConfig(opts...)]: the options are applied to the defaults in
    the order given; an option is what it does to the record. *)
Definition NewTestConfig (opts : list (config.Config -> config.Config))
  : config.Config :=
  fold_left (fun cfg opt => opt cfg) opts
            (config.mkConfig "TestApp" "0.1.0" true "127.0.0.1" 8080 "INFO" "json").

Definition WithAppName (name : string) (c : config.Config) : config.Config :=
  config.mkConfig name (config.AppVersion c) (config.Debug c) (config.Host c)
                  (config.Port c) (config.LogLevel c) (config.LogFormat c).

Definition WithPort (port : Z) (c : config.Config) : config.Config :=
  config.mkConfig (config.AppName c) (config.AppVersion c) (config.Debug c)
                  (config.Host c) port (config.LogLevel c) (config.LogFormat c).

Definition WithLogLevel (level : string) (c : config.Config) : config.Config :=
  config.mkConfig (config.AppName c) (config.AppVersion c) (config.Debug c)
                  (config.Host c) (config.Port c) level (config.LogFormat c).

Definition WithDebug (debug : bool) (c : config.Config) : config.Config :=
  config.mkConfig (config.AppName c) (config.AppVersion c) debug (config.Host c)
                  (config.Port c) (config.LogLevel c) (config.LogFormat c).

(** [NewTestLogger]. *)
Definition NewTestLogger : zap.error + logger.Logger :=
  logger.New (logger.mkConfig "INFO" "json").

End mocks.

(** An option of [NewTestConfig] that the package provides. *)
Inductive provided_option : (config.Config -> config.Config) -> Prop :=
| provided_AppName name : provided_option (mocks.WithAppName name)
| provided_Port port : provided_option (mocks.WithPort port)
| provided_LogLevel level : provided_option (mocks.WithLogLevel level)
| provided_Debug debug : provided_option (mocks.WithDebug debug).

(** An option that leaves the port alone. *)
Definition keeps_Port (opt : config.Config -> config.Config) : Prop :=
  forall c, config.Port (opt c) = config.Port c.

(** [w'] is [w] later in the same process, as far as serving requests
    goes: the same clock, read further; the log, extended; the log sink and
    the connections of the client untouched. *)
Definition later (w w' : World) : Prop :=
  clock w' = clock w /\ (ticks w <= ticks w')%nat
  /\ (exists entries, logged w' = (logged w ++ entries)%list)
  /\ sync_result w' = sync_result w /\ syncs w' = syncs w
  /\ idle_conns w' = idle_conns w /\ idle_closes w' = idle_closes w.

Definition result_later (w : World) (r : gin.result) : Prop :=
  match r with
  | gin.Done _ w' => later w w'
  | gin.Panic _ w' => later w w'
  end.

Definition set_Debug (d : bool) (cfg : config.Config) : config.Config :=
  config.mkConfig (config.AppName cfg) (config.AppVersion cfg) d (config.Host cfg)
                  (config.Port cfg) (config.LogLevel cfg) (config.LogFormat cfg).

(** * Properties *)

(** ** Bytes *)

Lemma byte_of_ascii_of (b : Z) : 0 <= b < 256 -> byte_of (ascii_of b) = b.
Proof.
  intros Hb. unfold byte_of, ascii_of.
  rewrite N_ascii_embedding by lia. lia.
Qed.

Lemma bytes_of_bytes (l : list Z) :
  Forall (fun b => 0 <= b < 256) l -> bytes (of_bytes l) = l.
Proof.
  induction 1 as [|b l Hb _ IH]; simpl; [reflexivity|].
  now rewrite byte_of_ascii_of, IH.
Qed.

Lemma of_bytes_bytes (s : string) : of_bytes (bytes s) = s.
Proof.
  induction s as [|c s IH]; simpl; [reflexivity|].
  rewrite IH. unfold ascii_of, byte_of. now rewrite N2Z.id, ascii_N_embedding.
Qed.

Lemma byte_of_range (c : ascii) : 0 <= byte_of c < 256.
Proof.
  unfold byte_of. pose proof (N_ascii_bounded c). lia.
Qed.

Lemma bytes_range (s : string) : Forall (fun b => 0 <= b < 256) (bytes s).
Proof.
  induction s; simpl; constructor; auto using byte_of_range.
Qed.

Lemma bytes_inj (s t : string) : bytes s = bytes t -> s = t.
Proof.
  intros H. rewrite <- (of_bytes_bytes s), <- (of_bytes_bytes t). now rewrite H.
Qed.

Lemma string_in_In (s : string) (l : list string) :
  string_in s l = true <-> In s l.
Proof.
  unfold string_in. rewrite existsb_exists. split.
  - intros (x & Hx & He). apply String.eqb_eq in He. now subst.
  - intros H. exists s. split; [assumption | apply String.eqb_refl].
Qed.

(** ** [strconv]: [ParseInt] reads back what [Itoa] prints *)

Import strconv.

Lemma formatBits_range (fuel : nat) (u : Z) (a : list Z) :
  0 <= u ->
  Forall (fun b => 0 <= b < 256) a ->
  Forall (fun b => 0 <= b < 256) (formatBits fuel u a).
Proof.
  revert u a. induction fuel as [|fuel IH]; intros u a Hu Ha; simpl; [assumption|].
  destruct (Z.ltb_spec u 10).
  - constructor; [lia | assumption].
  - apply IH.
    + apply Z.div_pos; lia.
    + constructor; [|assumption].
      pose proof (Z.mod_pos_bound u 10). lia.
Qed.

(** The first byte of the digits of a positive number is a digit from 1 to 9. *)
Lemma formatBits_head (fuel : nat) (u : Z) (a : list Z) :
  0 < u < 10 ^ Z.of_nat fuel ->
  exists d rest, formatBits fuel u a = (48 + d) :: rest /\ 1 <= d <= 9.
Proof.
  revert u a. induction fuel as [|fuel IH]; intros u a Hu.
  - simpl in Hu. lia.
  - simpl. destruct (Z.ltb_spec u 10).
    + exists u, a. split; [reflexivity | lia].
    + apply IH. rewrite Nat2Z.inj_succ, Z.pow_succ_r in Hu by lia.
      split.
      * apply Z.div_str_pos. lia.
      * apply Z.div_lt_upper_bound; lia.
Qed.


(** One decimal digit read with no overflow in sight. *)
Lemma parse_digits_step (d n : Z) (rest : list Z) (us : bool) :
  0 <= d <= 9 -> 0 <= n -> n * 10 + d < 2 ^ 63 ->
  parse_digits 10 cutoff10 maxVal64 ((48 + d) :: rest) n us
  = parse_digits 10 cutoff10 maxVal64 rest (n * 10 + d) us.
Proof.
  intros Hd Hn Hlt. cbn [parse_digits].
  replace (48 + d =? 95) with false by (symmetry; apply Z.eqb_neq; lia).
  unfold is_digit.
  replace ((48 <=? 48 + d) && (48 + d <=? 57)) with true
    by (symmetry; apply andb_true_iff; split; apply Z.leb_le; lia).
  replace (48 + d - 48) with d by lia.
  replace (10 <=? d) with false by (symmetry; apply Z.leb_gt; lia).
  assert (H63 : 2 ^ 63 = 9223372036854775808) by reflexivity.
  assert (H64 : 2 ^ 64 = 18446744073709551616) by reflexivity.
  assert (Hc : cutoff10 = 1844674407370955162) by reflexivity.
  assert (Hm : maxVal64 = 18446744073709551615) by reflexivity.
  replace (cutoff10 <=? n) with false by (symmetry; apply Z.leb_gt; lia).
  rewrite Z.mod_small by lia.
  replace (n * 10 + d <? n * 10) with false by (symmetry; apply Z.ltb_ge; lia).
  replace (maxVal64 <? n * 10 + d) with false by (symmetry; apply Z.ltb_ge; lia).
  reflexivity.
Qed.

(** Reading the digits [formatBits] wrote gives the number back. *)
Lemma parse_formatBits (fuel : nat) (u : Z) (a : list Z) (us : bool) :
  0 <= u < 10 ^ Z.of_nat fuel -> u < 2 ^ 63 ->
  parse_digits 10 cutoff10 maxVal64 (formatBits fuel u a) 0 us
  = parse_digits 10 cutoff10 maxVal64 a u us.
Proof.
  revert u a. induction fuel as [|fuel IH]; intros u a Hu Hlt.
  - assert (u = 0) as -> by (change (10 ^ Z.of_nat 0) with 1 in Hu; lia). reflexivity.
  - cbn [formatBits]. destruct (Z.ltb_spec u 10).
    + rewrite parse_digits_step by lia. f_equal; lia.
    + rewrite Nat2Z.inj_succ, Z.pow_succ_r in Hu by lia.
      pose proof (Z.div_mod u 10 ltac:(lia)) as Hdm.
      pose proof (Z.mod_pos_bound u 10 ltac:(lia)) as Hmod.
      assert (0 <= u / 10) by (apply Z.div_pos; lia).
      rewrite IH.
      * rewrite parse_digits_step by lia. f_equal; lia.
      * split; [assumption | apply Z.div_lt_upper_bound; lia].
      * lia.
Qed.

Lemma pow10_20 : 2 ^ 63 < 10 ^ Z.of_nat 20.
Proof. reflexivity. Qed.

(** [ParseInt(Itoa(p), 0, 64) = p] for the numbers an [int] holds, from 0 up. *)
Lemma ParseInt_Itoa (p : Z) :
  0 <= p < 2 ^ 63 -> ParseInt (Itoa p) 64 = inr p.
Proof.
  intros Hp. unfold ParseInt, Itoa.
  replace (p <? 0) with false by (symmetry; apply Z.ltb_ge; lia).
  rewrite bytes_of_bytes by (apply formatBits_range; [lia | constructor]).
  pose proof pow10_20 as H20.
  destruct (Z.eq_dec p 0) as [-> | Hne]; [reflexivity|].
  destruct (formatBits_head 20 p []) as (d & rest & Heq & Hd); [lia|].
  pose proof (parse_formatBits 20 p [] false ltac:(lia) ltac:(lia)) as Hparse.
  rewrite Heq in *.
  replace (48 + d =? 43) with false by (symmetry; apply Z.eqb_neq; lia).
  replace (48 + d =? 45) with false by (symmetry; apply Z.eqb_neq; lia).
  unfold ParseUint.
  replace (48 + d =? 48) with false by (symmetry; apply Z.eqb_neq; lia).
  change ((2 ^ 64 - 1) / 10 + 1) with cutoff10.
  change (2 ^ 64 - 1) with maxVal64.
  rewrite Hparse. cbn [parse_digits andb].
  replace (2 ^ (64 - 1) <=? p) with false by (symmetry; apply Z.leb_gt; simpl; lia).
  reflexivity.
Qed.

(** What [Itoa] prints is never the empty string. *)
Lemma Itoa_nonempty (p : Z) : 0 <= p < 2 ^ 63 -> Itoa p <> "".
Proof.
  intros Hp. unfold Itoa.
  replace (p <? 0) with false by (symmetry; apply Z.ltb_ge; lia).
  destruct (Z.eq_dec p 0) as [-> | Hne]; [discriminate|].
  pose proof pow10_20.
  destruct (formatBits_head 20 p []) as (d & rest & Heq & Hd); [lia|].
  rewrite Heq. discriminate.
Qed.


(** ** viper and [config.Load] *)

Lemma getEnv_insert_ne (environ : gmap string string) (k k' v : string) :
  k <> k' -> viper.getEnv (<[k := v]> environ) k' = viper.getEnv environ k'.
Proof. intros Hne. unfold viper.getEnv. now rewrite lookup_insert_ne. Qed.

Lemma getEnv_insert_eq (environ : gmap string string) (k v : string) :
  v <> "" -> viper.getEnv (<[k := v]> environ) k = Some v.
Proof.
  intros Hne. unfold viper.getEnv. rewrite lookup_insert_eq.
  destruct (String.eqb_spec v ""); [contradiction | reflexivity].
Qed.

Lemma getEnv_insert_empty (environ : gmap string string) (k : string) :
  viper.getEnv (<[k := ""]> environ) k = None.
Proof. unfold viper.getEnv. now rewrite lookup_insert_eq. Qed.

(** [AllSettings] holds, for every key of the file or of the defaults,
    the value [find] finds. *)
Lemma AllSettings_lookup (environ : gmap string string) (v : viper.Viper) (k : string) :
  viper.AllSettings environ v !! k
  = if decide (k ∈ dom (viper.defaults v) ∪ dom (viper.config v))
    then viper.find environ v k else None.
Proof.
  unfold viper.AllSettings.
  set (f := fun (k : string) (acc : gmap string viper.value) =>
              match viper.find environ v k with
              | Some val => <[k := val]> acc
              | None => acc
              end).
  assert (Hfold : forall X : gset string,
             forall k, (k ∈ X -> set_fold f ∅ X !! k = viper.find environ v k)
                       /\ (k ∉ X -> set_fold f ∅ X !! k = None)).
  { intros X.
    apply (set_fold_ind_L
             (fun (m : gmap string viper.value) (X : gset string) =>
                forall k, (k ∈ X -> m !! k = viper.find environ v k)
                          /\ (k ∉ X -> m !! k = None))).
    - intros k'. split; [set_solver | intros _; apply lookup_empty].
    - intros x Y r Hx IH k'. unfold f.
      destruct (decide (k' = x)) as [-> | Hne].
      + split; [intros _ | set_solver].
        destruct (viper.find environ v x) eqn:Hf.
        * apply lookup_insert_eq.
        * now apply IH.
      + destruct (IH k') as [IH1 IH2].
        assert (Hr : (match viper.find environ v x with
                      | Some val => <[x := val]> r
                      | None => r
                      end) !! k' = r !! k').
        { destruct (viper.find environ v x); [apply lookup_insert_ne; congruence | reflexivity]. }
        rewrite Hr. split; intros Hk; [apply IH1 | apply IH2]; set_solver. }
  destruct (Hfold (dom (viper.defaults v) ∪ dom (viper.config v)) k) as [H1 H2].
  destruct (decide _); auto.
Qed.

(** The seven keys have defaults, so [AllSettings] holds all of them. *)
Lemma Load_viper_key (dotenv : option (gmap string string)) (k : string) :
  In k ["APP_NAME"; "APP_VERSION"; "DEBUG"; "HOST"; "PORT"; "LOG_LEVEL"; "LOG_FORMAT"] ->
  k ∈ dom (viper.defaults (Load_viper dotenv)) ∪ dom (viper.config (Load_viper dotenv)).
Proof.
  intros Hk. apply elem_of_union_l.
  assert (Hd : viper.defaults (Load_viper dotenv)
               = <["LOG_FORMAT" := viper.VString "json"]>
                 (<["LOG_LEVEL" := viper.VString "INFO"]>
                 (<["PORT" := viper.VInt 8000]>
                 (<["HOST" := viper.VString "0.0.0.0"]>
                 (<["DEBUG" := viper.VBool false]>
                 (<["APP_VERSION" := viper.VString "0.1.0"]>
                 (<["APP_NAME" := viper.VString "CHANGE_ME"]> ∅))))))).
  { destruct dotenv; reflexivity. }
  rewrite Hd. rewrite !dom_insert_L.
  simpl in Hk. set_solver.
Qed.

Lemma Load_settings (environ : gmap string string)
      (dotenv : option (gmap string string)) (k : string) :
  In k ["APP_NAME"; "APP_VERSION"; "DEBUG"; "HOST"; "PORT"; "LOG_LEVEL"; "LOG_FORMAT"] ->
  viper.AllSettings environ (Load_viper dotenv) !! k = effective environ dotenv k.
Proof.
  intros Hk. rewrite AllSettings_lookup.
  destruct (decide _) as [|Hn]; [reflexivity|].
  exfalso. apply Hn. now apply Load_viper_key.
Qed.

(** [Load] is [Unmarshal] on [Load_viper], then normalisation and validation. *)
Lemma Load_eq (CaseRanges : list unicode.CaseRange) (environ : gmap string string)
      (dotenv : option (gmap string string)) :
  config.Load CaseRanges environ dotenv
  = match config.Unmarshal environ (Load_viper dotenv) with
    | inl keys => inl (config.ErrUnmarshal keys)
    | inr cfg => normalize_validate CaseRanges cfg
    end.
Proof. destruct dotenv; reflexivity. Qed.

(** The value of every key but [k] is the same whatever the environment
    holds for [k]. *)
Lemma effective_insert_ne (environ : gmap string string)
      (dotenv : option (gmap string string)) (k k' v : string) :
  k <> k' -> effective (<[k := v]> environ) dotenv k' = effective environ dotenv k'.
Proof.
  intros Hne. unfold effective, viper.find.
  destruct dotenv; cbn [Load_viper viper.automaticEnvApplied viper.AutomaticEnv
                        viper.ReadInConfig fst];
    now rewrite getEnv_insert_ne.
Qed.

(** A variable of the environment that is not empty wins. *)
Lemma effective_insert_eq (environ : gmap string string)
      (dotenv : option (gmap string string)) (k v : string) :
  v <> "" -> effective (<[k := v]> environ) dotenv k = Some (viper.VString v).
Proof.
  intros Hne. unfold effective, viper.find.
  destruct dotenv; cbn [Load_viper viper.automaticEnvApplied viper.AutomaticEnv
                        viper.ReadInConfig fst];
    now rewrite getEnv_insert_eq.
Qed.

(** ** Validation, field by field *)

Lemma Struct_cons (name : string) (v : validator.fieldval) (rules : list validator.rule)
      (rest : list (string * validator.fieldval * list validator.rule)) :
  validator.Struct ((name, v, rules) :: rest)
  = (field_error name v rules ++ validator.Struct rest)%list.
Proof.
  unfold field_error. cbn [validator.Struct].
  destruct (validator.first_failure rules v); reflexivity.
Qed.

Lemma Validate_fields (cfg : config.Config) :
  config.Validate cfg
  = (field_error "AppName" (validator.FString (config.AppName cfg)) [validator.required]
     ++ field_error "AppVersion" (validator.FString (config.AppVersion cfg)) [validator.required]
     ++ field_error "Host" (validator.FString (config.Host cfg)) [validator.required]
     ++ field_error "Port" (validator.FInt (config.Port cfg)) Port_rules
     ++ field_error "LogLevel" (validator.FString (config.LogLevel cfg)) LogLevel_rules
     ++ field_error "LogFormat" (validator.FString (config.LogFormat cfg))
          [validator.required; validator.oneof ["json"; "text"]])%list.
Proof.
  unfold config.Validate, config.tags. rewrite !Struct_cons.
  cbn [validator.Struct]. rewrite app_nil_r. reflexivity.
Qed.

(** With the other fields valid, the port decides. *)
Lemma normalize_validate_port (CaseRanges : list unicode.CaseRange)
      (cfg cfg0 : config.Config) (p : Z) :
  normalize_validate CaseRanges cfg = inr cfg0 ->
  normalize_validate CaseRanges (config.set_Port p cfg)
  = match validator.first_failure Port_rules (validator.FInt p) with
    | None => inr (config.set_Port p cfg0)
    | Some tag => inl (config.ErrValidation [validator.mkFieldError "Port" tag])
    end.
Proof.
  unfold normalize_validate. rewrite !Validate_fields. cbn [config.set_LogLevel config.set_Port
    config.AppName config.AppVersion config.Host config.Port config.LogLevel config.LogFormat].
  destruct (field_error "AppName" _ _); [|discriminate].
  destruct (field_error "AppVersion" _ _); [|discriminate].
  destruct (field_error "Host" _ _); [|discriminate].
  destruct (field_error "Port" (validator.FInt (config.Port cfg)) _); [|discriminate].
  destruct (field_error "LogLevel" _ _); [|discriminate].
  destruct (field_error "LogFormat" _ _); [|discriminate].
  cbn [app]. intros [= <-]. unfold field_error.
  destruct (validator.first_failure Port_rules (validator.FInt p)); reflexivity.
Qed.

(** With the other fields valid, the upper-cased level decides. *)
Lemma normalize_validate_level (CaseRanges : list unicode.CaseRange)
      (cfg cfg0 : config.Config) (l0 s : string) :
  normalize_validate CaseRanges (config.set_LogLevel l0 cfg) = inr cfg0 ->
  normalize_validate CaseRanges (config.set_LogLevel s cfg)
  = match validator.first_failure LogLevel_rules
            (validator.FString (strings.ToUpper CaseRanges s)) with
    | None => inr (config.set_LogLevel (strings.ToUpper CaseRanges s) cfg0)
    | Some tag => inl (config.ErrValidation [validator.mkFieldError "LogLevel" tag])
    end.
Proof.
  unfold normalize_validate. rewrite !Validate_fields. cbn [config.set_LogLevel config.set_Port
    config.AppName config.AppVersion config.Host config.Port config.LogLevel config.LogFormat].
  destruct (field_error "AppName" _ _); [|discriminate].
  destruct (field_error "AppVersion" _ _); [|discriminate].
  destruct (field_error "Host" _ _); [|discriminate].
  destruct (field_error "Port" _ _); [|discriminate].
  destruct (field_error "LogLevel" (validator.FString (strings.ToUpper CaseRanges l0)) _);
    [|discriminate].
  destruct (field_error "LogFormat" _ _) eqn:Hfmt; [|discriminate].
  cbn [app]. intros [= <-]. unfold field_error. cbn [config.set_LogLevel config.set_Port
    config.AppName config.AppVersion config.Host config.Port config.LogLevel config.LogFormat].
  destruct (validator.first_failure LogLevel_rules _); reflexivity.
Qed.

(** ** [Unmarshal] under a change of one variable of the environment *)

Lemma Unmarshal_insert_port (environ : gmap string string)
      (dotenv : option (gmap string string)) (s0 s : string) (cfg : config.Config) (p : Z) :
  s0 <> "" -> s <> "" ->
  config.Unmarshal (<["PORT" := s0]> environ) (Load_viper dotenv) = inr cfg ->
  mapstructure.decodeInt (viper.VString s) = Some p ->
  config.Unmarshal (<["PORT" := s]> environ) (Load_viper dotenv) = inr (config.set_Port p cfg).
Proof.
  intros Hs0 Hs. unfold config.Unmarshal, config.field_bool, config.field_int, config.field_string.
  rewrite !Load_settings by (simpl; tauto).
  rewrite !effective_insert_eq by assumption.
  rewrite !(effective_insert_ne _ _ "PORT") by discriminate.
  intros Hu Hdec. rewrite Hdec.
  destruct (match effective environ dotenv "DEBUG" with
            | Some data => mapstructure.decodeBool data
            | None => Some false
            end) as [debug|];
    destruct (mapstructure.decodeInt (viper.VString s0)); try discriminate.
  injection Hu as <-. reflexivity.
Qed.

Lemma Unmarshal_insert_level (environ : gmap string string)
      (dotenv : option (gmap string string)) (s : string) :
  s <> "" ->
  config.Unmarshal (<["LOG_LEVEL" := s]> environ) (Load_viper dotenv)
  = match config.Unmarshal environ (Load_viper dotenv) with
    | inl keys => inl keys
    | inr cfg => inr (config.set_LogLevel s cfg)
    end.
Proof.
  intros Hs. unfold config.Unmarshal, config.field_bool, config.field_int, config.field_string.
  rewrite !Load_settings by (simpl; tauto).
  rewrite !effective_insert_eq by assumption.
  rewrite !(effective_insert_ne _ _ "LOG_LEVEL") by discriminate.
  destruct (match effective environ dotenv "DEBUG" with
            | Some data => mapstructure.decodeBool data
            | None => Some false
            end) as [debug|];
    destruct (match effective environ dotenv "PORT" with
              | Some data => mapstructure.decodeInt data
              | None => Some 0
              end) as [port|]; reflexivity.
Qed.

(** The level [Unmarshal] decodes is the value [Load] works with. *)
Lemma Unmarshal_LogLevel (environ : gmap string string)
      (dotenv : option (gmap string string)) (cfg : config.Config) (s : string) :
  config.Unmarshal environ (Load_viper dotenv) = inr cfg ->
  effective environ dotenv "LOG_LEVEL" = Some (viper.VString s) ->
  config.LogLevel cfg = s.
Proof.
  unfold config.Unmarshal, config.field_bool, config.field_int, config.field_string.
  rewrite !Load_settings by (simpl; tauto).
  intros Hu He. rewrite He in Hu.
  destruct (match effective environ dotenv "DEBUG" with
            | Some data => mapstructure.decodeBool data
            | None => Some false
            end) as [debug|];
    destruct (match effective environ dotenv "PORT" with
              | Some data => mapstructure.decodeInt data
              | None => Some 0
              end) as [port|]; try discriminate.
  injection Hu as <-. reflexivity.
Qed.

(** ** [strings.ToUpper] on ASCII *)

Lemma ToUpper_ascii (CaseRanges : list unicode.CaseRange) (s : string) :
  strings.isASCII (bytes s) = true ->
  strings.ToUpper CaseRanges s = of_bytes (map strings.upper_byte (bytes s)).
Proof. intros H. unfold strings.ToUpper. now rewrite H. Qed.

Lemma upper_byte_range (c : Z) : 0 <= c < 256 -> 0 <= strings.upper_byte c < 256.
Proof.
  intros Hc. unfold strings.upper_byte.
  destruct (Z.leb_spec 97 c), (Z.leb_spec c 122); simpl; lia.
Qed.

(** A case combination of upper-case letters is ASCII and upper-cases to them. *)
Lemma case_combination_upper (s name : list Z) :
  forallb (fun n => (65 <=? n) && (n <=? 90)) name = true ->
  case_combination_bytes s name = true ->
  strings.isASCII s = true /\ map strings.upper_byte s = name.
Proof.
  revert name. induction s as [|c s IH]; intros [|n name] Hn Hc; simpl in *;
    try discriminate; [split; reflexivity|].
  apply andb_true_iff in Hn as [Hn1 Hn]. apply andb_true_iff in Hc as [Hc1 Hc].
  destruct (IH name Hn Hc) as [Ha Hm].
  apply andb_true_iff in Hn1 as [Hlo Hhi]. apply Z.leb_le in Hlo, Hhi.
  unfold either_case in Hc1. apply orb_true_iff in Hc1.
  rewrite Ha, Hm. unfold strings.upper_byte, utf8.RuneSelf.
  destruct Hc1 as [He | He]; apply Z.eqb_eq in He; subst c.
  - replace (n <? 128) with true by (symmetry; apply Z.ltb_lt; lia).
    replace (97 <=? n) with false by (symmetry; apply Z.leb_gt; lia).
    split; reflexivity.
  - replace (n + 32 <? 128) with true by (symmetry; apply Z.ltb_lt; lia).
    replace (97 <=? n + 32) with true by (symmetry; apply Z.leb_le; lia).
    replace (n + 32 <=? 122) with true by (symmetry; apply Z.leb_le; lia).
    cbn [andb]. split; [reflexivity | f_equal; lia].
Qed.

(** And an ASCII string that upper-cases to upper-case letters is a case
    combination of them. *)
Lemma upper_case_combination (s name : list Z) :
  forallb (fun n => (65 <=? n) && (n <=? 90)) name = true ->
  map strings.upper_byte s = name ->
  case_combination_bytes s name = true.
Proof.
  revert name. induction s as [|c s IH]; intros [|n name] Hn Hm; simpl in *;
    try discriminate; [reflexivity|].
  injection Hm as Hc Hm.
  apply andb_true_iff in Hn as [Hn1 Hn].
  rewrite (IH name Hn Hm), andb_true_r.
  apply andb_true_iff in Hn1 as [Hlo Hhi]. apply Z.leb_le in Hlo, Hhi.
  unfold strings.upper_byte in Hc. unfold either_case. apply orb_true_iff.
  destruct (Z.leb_spec 97 c), (Z.leb_spec c 122); simpl in Hc;
    [right | left | left | left]; apply Z.eqb_eq; lia.
Qed.

Lemma LogLevel_names_upper (name : string) :
  In name config.LogLevel_names -> upper_letters name = true.
Proof.
  intros H. simpl in H.
  repeat (destruct H as [<- | H]; [reflexivity|]). contradiction.
Qed.

(** The upper-cased form of a case combination of a name is the name. *)
Lemma ToUpper_case_combination (CaseRanges : list unicode.CaseRange) (s name : string) :
  upper_letters name = true ->
  case_combination s name = true ->
  strings.ToUpper CaseRanges s = name.
Proof.
  intros Hn Hc.
  destruct (case_combination_upper _ _ Hn Hc) as [Ha Hm].
  rewrite ToUpper_ascii by assumption. rewrite Hm. apply of_bytes_bytes.
Qed.

(** On ASCII input, upper-casing to a recognised name and being a case
    combination of one are the same. *)
Lemma ToUpper_recognised_ascii (CaseRanges : list unicode.CaseRange) (s : string) :
  strings.isASCII (bytes s) = true ->
  string_in (strings.ToUpper CaseRanges s) config.LogLevel_names = true
  <-> exists name, In name config.LogLevel_names /\ case_combination s name = true.
Proof.
  intros Ha. rewrite string_in_In. split.
  - intros Hin. exists (strings.ToUpper CaseRanges s). split; [assumption|].
    unfold case_combination. apply upper_case_combination.
    + now apply LogLevel_names_upper.
    + rewrite ToUpper_ascii by assumption.
      rewrite bytes_of_bytes; [reflexivity|].
      apply List.Forall_forall. intros b Hb. apply in_map_iff in Hb as (c & <- & Hc).
      apply upper_byte_range.
      pose proof (bytes_range s) as Hr. rewrite List.Forall_forall in Hr. now apply Hr.
  - intros (name & Hin & Hc).
    rewrite (ToUpper_case_combination CaseRanges s name);
      auto using LogLevel_names_upper.
Qed.

Lemma LogLevel_first_failure (u : string) :
  validator.first_failure LogLevel_rules (validator.FString u)
  = if String.eqb u "" then Some "required"
    else if string_in u config.LogLevel_names then None else Some "oneof".
Proof.
  unfold LogLevel_rules. cbn [validator.first_failure validator.holds validator.tag_of].
  destruct (String.eqb u ""); cbn [negb]; [reflexivity|].
  destruct (string_in u config.LogLevel_names); reflexivity.
Qed.

Lemma LogLevel_recognised_valid (u : string) :
  string_in u config.LogLevel_names = true ->
  validator.first_failure LogLevel_rules (validator.FString u) = None.
Proof.
  intros Hin. rewrite LogLevel_first_failure, Hin.
  destruct (String.eqb_spec u "") as [-> | _]; [discriminate | reflexivity].
Qed.

(** ** The claims about [config.Load] *)

(** C6.  With no variable set in the environment and no [.env] file,
    [Load] succeeds and returns AppName "CHANGE_ME", AppVersion "0.1.0",
    Debug false, Host "0.0.0.0", Port 8000, LogLevel "INFO", LogFormat
    "json" (whatever the Unicode case table is). *)
Theorem Load_defaults (CaseRanges : list unicode.CaseRange) :
  config.Load CaseRanges ∅ None = inr default_Config.
Proof. vm_compute. reflexivity. Qed.

(** C2.  Other settings being valid (here: [Load] succeeds with PORT set
    to 8000), for every port from 1 to 65535 written in decimal into PORT,
    [Load] succeeds and returns the same settings with exactly that port;
    for 0 and for 65536 it returns a validation error, on the field Port. *)
Theorem Load_port (CaseRanges : list unicode.CaseRange)
        (environ : gmap string string) (dotenv : option (gmap string string))
        (cfg0 : config.Config) :
  config.Load CaseRanges (<["PORT" := "8000"]> environ) dotenv = inr cfg0 ->
  forall p : Z,
    (1 <= p <= 65535 ->
     config.Load CaseRanges (<["PORT" := strconv.Itoa p]> environ) dotenv
     = inr (config.set_Port p cfg0))
    /\ (p = 0 \/ p = 65536 ->
        exists tag,
          config.Load CaseRanges (<["PORT" := strconv.Itoa p]> environ) dotenv
          = inl (config.ErrValidation [validator.mkFieldError "Port" tag])).
Proof.
  intros H0 p. rewrite Load_eq in H0.
  destruct (config.Unmarshal (<["PORT" := "8000"]> environ) (Load_viper dotenv))
    as [keys | cfg] eqn:Hu; [discriminate|].
  assert (Hload : 0 <= p < 2 ^ 63 ->
            config.Load CaseRanges (<["PORT" := strconv.Itoa p]> environ) dotenv
            = match validator.first_failure Port_rules (validator.FInt p) with
              | None => inr (config.set_Port p cfg0)
              | Some tag => inl (config.ErrValidation [validator.mkFieldError "Port" tag])
              end).
  { intros Hp. rewrite Load_eq.
    rewrite (Unmarshal_insert_port environ dotenv "8000" (strconv.Itoa p) cfg p);
      [ now apply normalize_validate_port
      | discriminate
      | now apply Itoa_nonempty
      | assumption
      | ].
    cbn [mapstructure.decodeInt].
    destruct (String.eqb_spec (strconv.Itoa p) "") as [He | _];
      [now apply Itoa_nonempty in He|].
    now rewrite ParseInt_Itoa. }
  assert (H63 : 2 ^ 63 = 9223372036854775808) by reflexivity.
  split.
  - intros Hp. rewrite Hload by lia.
    unfold Port_rules. cbn [validator.first_failure validator.holds].
    replace (p =? 0) with false by (symmetry; apply Z.eqb_neq; lia).
    replace (1 <=? p) with true by (symmetry; apply Z.leb_le; lia).
    replace (p <=? 65535) with true by (symmetry; apply Z.leb_le; lia).
    reflexivity.
  - intros [-> | ->]; rewrite Hload by lia; eexists; reflexivity.
Qed.

Lemma Load_port_witness :
  config.Load [] (<["PORT" := strconv.Itoa 8080]> ∅) None
  = inr (config.set_Port 8080 default_Config).
Proof.
  refine (proj1 (Load_port [] ∅ None default_Config _ 8080) _);
    [vm_compute; reflexivity | lia].
Defined.

(** C3, as amended.  Other settings being valid (here: [Load] succeeds
    with LOG_LEVEL set to INFO), let [s] be the log level [Load] works with.
    If [s] is a case combination of a recognised name, [Load] succeeds and
    the loaded level is that name.  If the upper-cased [s] is not a
    recognised name, [Load] returns a validation error on LogLevel.  For
    ASCII [s], upper-casing to a recognised name is the same as being a
    case combination of one. *)
Theorem Load_log_level (CaseRanges : list unicode.CaseRange)
        (environ : gmap string string) (dotenv : option (gmap string string))
        (s : string) (cfg0 : config.Config) :
  effective environ dotenv "LOG_LEVEL" = Some (viper.VString s) ->
  config.Load CaseRanges (<["LOG_LEVEL" := "INFO"]> environ) dotenv = inr cfg0 ->
  (forall name, In name config.LogLevel_names -> case_combination s name = true ->
     config.Load CaseRanges environ dotenv = inr (config.set_LogLevel name cfg0))
  /\ (string_in (strings.ToUpper CaseRanges s) config.LogLevel_names = false ->
      exists tag,
        config.Load CaseRanges environ dotenv
        = inl (config.ErrValidation [validator.mkFieldError "LogLevel" tag]))
  /\ (strings.isASCII (bytes s) = true ->
      (string_in (strings.ToUpper CaseRanges s) config.LogLevel_names = true
       <-> exists name, In name config.LogLevel_names /\ case_combination s name = true)).
Proof.
  intros He H0. rewrite Load_eq, Unmarshal_insert_level in H0 by discriminate.
  destruct (config.Unmarshal environ (Load_viper dotenv)) as [keys | cfg] eqn:Hu;
    [discriminate|].
  pose proof (Unmarshal_LogLevel _ _ _ _ Hu He) as Hs.
  assert (Hcfg : cfg = config.set_LogLevel s cfg) by (destruct cfg; simpl in *; now subst).
  assert (Hload : config.Load CaseRanges environ dotenv
            = match validator.first_failure LogLevel_rules
                      (validator.FString (strings.ToUpper CaseRanges s)) with
              | None => inr (config.set_LogLevel (strings.ToUpper CaseRanges s) cfg0)
              | Some tag => inl (config.ErrValidation [validator.mkFieldError "LogLevel" tag])
              end).
  { rewrite Load_eq, Hu, Hcfg. now apply (normalize_validate_level _ _ _ "INFO"). }
  split; [|split].
  - intros name Hin Hc. rewrite Hload.
    rewrite (ToUpper_case_combination CaseRanges s name)
      by auto using LogLevel_names_upper.
    rewrite LogLevel_recognised_valid; [reflexivity | now apply string_in_In].
  - intros Hout. rewrite Hload, LogLevel_first_failure, Hout.
    destruct (String.eqb _ ""); eexists; reflexivity.
  - apply ToUpper_recognised_ascii.
Qed.

Lemma Load_log_level_witness :
  config.Load [] {[ "LOG_LEVEL" := "Error" ]} None
  = inr (config.set_LogLevel "ERROR" default_Config).
Proof.
  refine (proj1 (Load_log_level [] {[ "LOG_LEVEL" := "Error" ]} None "Error"
                                default_Config _ _) "ERROR" _ _);
    [vm_compute; reflexivity | vm_compute; reflexivity | simpl; tauto | reflexivity].
Defined.

(** C3, as stated, fails: the input "ınfo", written with U+0131 (dotless
    i), is not a case combination of any recognised name (of not one of the
    five), and [Load] accepts it as INFO, because [strings.ToUpper] maps
    U+0131 to "I". *)
Lemma Load_log_level_dotless_i :
  existsb (case_combination dotless_info) config.LogLevel_names = false
  /\ config.Load [dotless_i_row] {[ "LOG_LEVEL" := dotless_info ]} None
     = inr default_Config.
Proof. split; vm_compute; reflexivity. Qed.

(** ** The logger *)

Lemma string_in_cons_false (s a : string) (l : list string) :
  string_in s (a :: l) = false -> String.eqb s a = false /\ string_in s l = false.
Proof. unfold string_in. simpl. apply orb_false_iff. Qed.

(** [parseLevel] never returns an error. *)
Lemma parseLevel_total (level : string) :
  exists l, logger.parseLevel level = (l, None).
Proof.
  unfold logger.parseLevel.
  repeat match goal with
         | |- context [if ?b then _ else _] => destruct b
         end; eexists; reflexivity.
Qed.

(** [New] fails for no level and no format: the encoders it asks for exist. *)
Lemma New_level (level format : string) (l : zapcore.Level) :
  logger.parseLevel level = (l, None) ->
  exists lg, logger.New (logger.mkConfig level format) = inr lg
             /\ logger.level_of lg = Some l.
Proof.
  intros Hp. unfold logger.New. cbn [logger.Level logger.Format]. rewrite Hp.
  destruct (String.eqb format "json"); eexists; split; reflexivity.
Qed.

(** The logger depends on the level string through [parseLevel] only. *)
Lemma New_same_level (level level' format : string) :
  logger.parseLevel level = logger.parseLevel level' ->
  logger.New (logger.mkConfig level format) = logger.New (logger.mkConfig level' format).
Proof.
  intros Hp. unfold logger.New. cbn [logger.Level logger.Format]. now rewrite Hp.
Qed.

(** C7.  For every level string the logger does not recognise,
    [parseLevel] returns the info level and no error, and [New] builds the
    logger it builds for "INFO": it succeeds, and the logger runs at the info
    level. *)
Theorem parseLevel_fallback (level : string) :
  string_in level logger_level_names = false ->
  logger.parseLevel level = (zapcore.InfoLevel, None)
  /\ forall format,
       logger.New (logger.mkConfig level format)
       = logger.New (logger.mkConfig "INFO" format)
       /\ exists lg, logger.New (logger.mkConfig level format) = inr lg
                     /\ logger.level_of lg = Some zapcore.InfoLevel.
Proof.
  intros Hout. unfold logger_level_names in Hout.
  repeat (apply string_in_cons_false in Hout as [? Hout]).
  assert (Hp : logger.parseLevel level = (zapcore.InfoLevel, None)).
  { unfold logger.parseLevel.
    repeat match goal with
           | H : String.eqb level _ = false |- _ => rewrite H; clear H
           end.
    reflexivity. }
  split; [exact Hp|]. intros format. split.
  - now apply New_same_level.
  - now apply New_level.
Qed.

Lemma parseLevel_fallback_witness :
  logger.parseLevel "TRACE" = (zapcore.InfoLevel, None).
Proof. exact (proj1 (parseLevel_fallback "TRACE" eq_refl)). Defined.

(** Validation rejects a level outside its list. *)
Lemma Validate_rejects_level (cfg : config.Config) :
  string_in (config.LogLevel cfg) config.LogLevel_names = false ->
  config.Validate cfg <> [].
Proof.
  intros Hout Hnil. rewrite Validate_fields in Hnil.
  repeat (apply app_eq_nil in Hnil as [? Hnil]).
  match goal with
  | H : field_error "LogLevel" _ _ = [] |- _ =>
    unfold field_error in H; rewrite LogLevel_first_failure, Hout in H;
    destruct (String.eqb (config.LogLevel cfg) ""); discriminate
  end.
Qed.

(** What [Load] returns is valid. *)
Lemma Load_valid (CaseRanges : list unicode.CaseRange) (environ : gmap string string)
      (dotenv : option (gmap string string)) (cfg : config.Config) :
  config.Load CaseRanges environ dotenv = inr cfg -> config.Validate cfg = [].
Proof.
  rewrite Load_eq. destruct (config.Unmarshal _ _) as [|c]; [discriminate|].
  unfold normalize_validate.
  destruct (config.Validate _) eqn:Hv; [|discriminate].
  intros [= <-]. exact Hv.
Qed.

(** Every level a logger can be built at is the level of the logger of a
    settings record that [Load] returns. *)
Lemma logger_level_from_settings (level format : string) (lg : logger.Logger) :
  logger.New (logger.mkConfig level format) = inr lg ->
  exists name cfg lg',
    config.Load [] {[ "LOG_LEVEL" := name ]} None = inr cfg
    /\ dependencies.provideLogger cfg = inr lg'
    /\ logger.level_of lg' = logger.level_of lg.
Proof.
  intros HN.
  assert (Hl : exists l, logger.parseLevel level = (l, None) /\ logger.level_of lg = Some l).
  { destruct (parseLevel_total level) as [l Hp]. exists l. split; [exact Hp|].
    destruct (New_level level format l Hp) as (lg0 & H0 & Hl0). congruence. }
  destruct Hl as (l & Hp & ->).
  assert (Hcases : l = zapcore.DebugLevel \/ l = zapcore.InfoLevel \/ l = zapcore.WarnLevel
                   \/ l = zapcore.ErrorLevel \/ l = zapcore.FatalLevel).
  { revert Hp. unfold logger.parseLevel.
    repeat match goal with
           | |- context [if ?b then _ else _] => destruct b
           end; intros [= <-]; tauto. }
  destruct Hcases as [-> | [-> | [-> | [-> | ->]]]];
    [ exists "DEBUG" | exists "INFO" | exists "WARNING" | exists "ERROR" | exists "CRITICAL" ];
    eexists; eexists; (split; [vm_compute; reflexivity | split; reflexivity]).
Qed.

(** C9, as amended.  [parseLevel] maps "WARN" to the warning level and
    "FATAL" to the fatal level; validation rejects both strings, so no
    settings record that [Load] returns carries them; the levels themselves
    are not out of reach of the settings: every level a logger is built at is
    the level of the logger of some record [Load] returns; and [parseLevel]
    returns a level and no error for every string. *)
Theorem parseLevel_aliases :
  logger.parseLevel "WARN" = (zapcore.WarnLevel, None)
  /\ logger.parseLevel "FATAL" = (zapcore.FatalLevel, None)
  /\ (forall cfg, In (config.LogLevel cfg) ["WARN"; "FATAL"] -> config.Validate cfg <> [])
  /\ (forall CaseRanges environ dotenv cfg,
        config.Load CaseRanges environ dotenv = inr cfg ->
        ~ In (config.LogLevel cfg) ["WARN"; "FATAL"])
  /\ (forall level format lg,
        logger.New (logger.mkConfig level format) = inr lg ->
        exists name cfg lg',
          config.Load [] {[ "LOG_LEVEL" := name ]} None = inr cfg
          /\ dependencies.provideLogger cfg = inr lg'
          /\ logger.level_of lg' = logger.level_of lg)
  /\ (forall level, exists l, logger.parseLevel level = (l, None)).
Proof.
  assert (Hrej : forall cfg, In (config.LogLevel cfg) ["WARN"; "FATAL"] ->
                             config.Validate cfg <> []).
  { intros cfg Hin. apply Validate_rejects_level.
    simpl in Hin. destruct Hin as [<- | [<- | []]]; reflexivity. }
  split; [reflexivity|]. split; [reflexivity|]. split; [exact Hrej|].
  split; [|split].
  - intros CaseRanges environ dotenv cfg HL Hin.
    apply (Hrej cfg Hin). now apply Load_valid in HL.
  - exact logger_level_from_settings.
  - exact parseLevel_total.
Qed.

Lemma parseLevel_aliases_witness :
  exists name cfg lg',
    config.Load [] {[ "LOG_LEVEL" := name ]} None = inr cfg
    /\ dependencies.provideLogger cfg = inr lg'
    /\ logger.level_of lg' = Some zapcore.WarnLevel.
Proof.
  exact (proj1 (proj2 (proj2 (proj2 (proj2 parseLevel_aliases))))
               "WARN" "text" _ eq_refl).
Defined.

(** C9, as stated, fails: the loggers built directly with "WARN" and with
    "FATAL" are the loggers of the settings [Load] returns for WARNING and
    for CRITICAL, so they run at levels that do originate from validated
    settings; and so does every logger [New] builds. *)
Lemma alias_levels_from_validated_settings :
  (config.Load [] {[ "LOG_LEVEL" := "WARNING" ]} None
   = inr (config.set_LogLevel "WARNING" default_Config)
   /\ dependencies.provideLogger (config.set_LogLevel "WARNING" default_Config)
      = logger.New (logger.mkConfig "WARN" "json"))
  /\ (config.Load [] {[ "LOG_LEVEL" := "CRITICAL" ]} None
      = inr (config.set_LogLevel "CRITICAL" default_Config)
      /\ dependencies.provideLogger (config.set_LogLevel "CRITICAL" default_Config)
         = logger.New (logger.mkConfig "FATAL" "json"))
  /\ (forall level format lg,
        logger.New (logger.mkConfig level format) = inr lg ->
        exists name cfg lg',
          config.Load [] {[ "LOG_LEVEL" := name ]} None = inr cfg
          /\ dependencies.provideLogger cfg = inr lg'
          /\ logger.level_of lg' = logger.level_of lg).
Proof.
  split; [split; vm_compute; reflexivity|].
  split; [split; vm_compute; reflexivity|].
  exact logger_level_from_settings.
Qed.

(** ** The dependency container *)

Lemma Close_returns (cfg : option config.Config) (lcfg : logger.Config)
      (lg : logger.Logger) (w : World) :
  logger.New lcfg = inr lg ->
  dependencies.Close (dependencies.NewContainer cfg (Some lg)) w
  = Returned (sync_result w (syncs w))
             (mkWorld (clock w) (ticks w) (logged w) (sync_result w) (S (syncs w))
                      0%nat (S (idle_closes w))).
Proof.
  intros HN.
  assert (Hs : exists z, lg = logger.mkLogger (Some z)).
  { unfold logger.New in HN.
    destruct (logger.parseLevel _) as [l [e|]]; [discriminate|].
    destruct (zap.Build _) as [|z]; [discriminate|].
    injection HN as <-. now exists z. }
  destruct Hs as [z ->].
  unfold dependencies.Close, dependencies.NewContainer, dependencies.CloseIdleConnections.
  cbn. destruct (sync_result w (syncs w)); reflexivity.
Qed.

(** C8.  On a container built by [NewContainer] around a logger that [New]
    returned, [Close] returns, and a second [Close] returns as well: neither
    panics.  Each of the two closes the idle connections of the client and
    flushes the logger once, and returns what that flush returned. *)
Theorem Close_twice (cfg : option config.Config) (lcfg : logger.Config)
        (lg : logger.Logger) (w : World) :
  logger.New lcfg = inr lg ->
  exists w1 w2,
    dependencies.Close (dependencies.NewContainer cfg (Some lg)) w
    = Returned (sync_result w (syncs w)) w1
    /\ dependencies.Close (dependencies.NewContainer cfg (Some lg)) w1
       = Returned (sync_result w (S (syncs w))) w2
    /\ idle_conns w1 = 0%nat /\ idle_conns w2 = 0%nat
    /\ idle_closes w1 = S (idle_closes w) /\ idle_closes w2 = S (S (idle_closes w))
    /\ syncs w1 = S (syncs w) /\ syncs w2 = S (S (syncs w)).
Proof.
  intros HN. eexists. eexists.
  split; [apply (Close_returns cfg lcfg lg w HN)|].
  split; [rewrite (Close_returns cfg lcfg lg _ HN); reflexivity|].
  cbn. repeat split; reflexivity.
Qed.

(** Any number of calls of [Close] returns: the [k]-th returns what the
    [k]-th flush returned. *)
Lemma Close_times_returns (n : nat) (cfg : option config.Config) (lcfg : logger.Config)
      (lg : logger.Logger) (w : World) :
  logger.New lcfg = inr lg ->
  exists w',
    Close_times n (dependencies.NewContainer cfg (Some lg)) w
    = Returned (map (fun k => sync_result w (syncs w + k)%nat) (seq 0 n)) w'
    /\ syncs w' = (syncs w + n)%nat
    /\ idle_closes w' = (idle_closes w + n)%nat
    /\ sync_result w' = sync_result w.
Proof.
  intros HN. revert w. induction n as [|n IH]; intros w.
  - exists w. cbn. repeat split; lia.
  - cbn [Close_times]. rewrite (Close_returns cfg lcfg lg w HN).
    destruct (IH (mkWorld (clock w) (ticks w) (logged w) (sync_result w) (S (syncs w))
                          0%nat (S (idle_closes w)))) as (w' & -> & Hs & Hc & Hr).
    exists w'. cbn in *. split; [|repeat split; [lia | lia | assumption]].
    f_equal. f_equal; [f_equal; lia|].
    rewrite <- seq_shift, map_map.
    apply map_ext. intros k. f_equal. lia.
Qed.

Lemma Close_twice_witness :
  exists w1 w2,
    dependencies.Close (dependencies.NewContainer None (Some sample_Logger)) sample_World
    = Returned (sync_result sample_World (syncs sample_World)) w1
    /\ dependencies.Close (dependencies.NewContainer None (Some sample_Logger)) w1
       = Returned (sync_result sample_World (S (syncs sample_World))) w2
    /\ idle_conns w1 = 0%nat /\ idle_conns w2 = 0%nat
    /\ idle_closes w1 = S (idle_closes sample_World)
    /\ idle_closes w2 = S (S (idle_closes sample_World))
    /\ syncs w1 = S (syncs sample_World) /\ syncs w2 = S (S (syncs sample_World)).
Proof.
  exact (Close_twice None (logger.mkConfig "INFO" "json") sample_Logger sample_World
                     eq_refl).
Defined.

(** ** gin's handler chain *)

Section ChainFacts.
Context {H : Type}.
Variable call : H -> (gin.Context -> World -> gin.result) -> gin.Context -> World -> gin.result.

Lemma int8_small (z : Z) : -128 <= z < 128 -> gin.int8 z = z.
Proof. intros Hz. unfold gin.int8. rewrite Z.mod_small; lia. Qed.

(** One turn of the loop: the handler at the index is called. *)
Lemma run_handlers_step (n : nat) (next : gin.Context -> World -> gin.result)
      (handlers : list H) (c : gin.Context) (w : World) (i : nat) (h : H) :
  gin.index c = Z.of_nat i -> handlers !! i = Some h ->
  Z.of_nat (length handlers) < 128 ->
  gin.run_handlers call (S n) next handlers c w
  = match call h next c w with
    | gin.Done c' w' =>
      gin.run_handlers call n next handlers
                       (gin.set_index (gin.int8 (gin.index c' + 1)) c') w'
    | gin.Panic c' w' => gin.Panic c' w'
    end.
Proof.
  intros Hi Hh Hlen. cbn [gin.run_handlers].
  rewrite int8_small by lia.
  apply lookup_lt_Some in Hh as Hlt.
  replace (gin.index c <? Z.of_nat (length handlers)) with true
    by (symmetry; apply Z.ltb_lt; lia).
  rewrite Hi, Nat2Z.id, Hh. reflexivity.
Qed.

(** The loop ends when the index is past the handlers. *)
Lemma run_handlers_exit (n : nat) (next : gin.Context -> World -> gin.result)
      (handlers : list H) (c : gin.Context) (w : World) :
  Z.of_nat (length handlers) < 128 ->
  Z.of_nat (length handlers) <= gin.index c ->
  gin.run_handlers call n next handlers c w = gin.Done c w.
Proof.
  intros Hlen Hi. destruct n; cbn [gin.run_handlers]; [reflexivity|].
  rewrite int8_small by lia.
  replace (gin.index c <? Z.of_nat (length handlers)) with false
    by (symmetry; apply Z.ltb_ge; lia).
  reflexivity.
Qed.

(** A handler called last in its turn of the loop: when what it leaves is
    past the handlers before it, the loop ends after it. *)
Lemma run_handlers_last (n : nat) (next : gin.Context -> World -> gin.result)
      (handlers : list H) (c : gin.Context) (w : World) (i : nat) (h : H) (hi : Z) :
  gin.index c = Z.of_nat i -> handlers !! i = Some h ->
  Z.of_nat (length handlers) < 127 -> hi < 127 ->
  within (Z.of_nat (length handlers) - 1) hi (call h next c w) ->
  gin.run_handlers call (S n) next handlers c w = leave (call h next c w).
Proof.
  intros Hi Hh Hlen Hhi Hin.
  rewrite (run_handlers_step n next handlers c w i h) by (assumption || lia).
  destruct (call h next c w) as [c' w' | c' w']; [|reflexivity].
  cbn [within] in Hin. cbn [leave].
  rewrite int8_small by lia.
  apply run_handlers_exit; cbn [gin.index gin.set_index]; lia.
Qed.

(** [Next] from the position before the handler [i], when that handler
    leaves the index past the handlers. *)
Lemma Next_last (fuel : nat) (handlers : list H) (c : gin.Context) (w : World)
      (i : nat) (h : H) (hi : Z) :
  gin.index c = Z.of_nat i - 1 -> handlers !! i = Some h ->
  Z.of_nat (length handlers) < 127 -> hi < 127 ->
  within (Z.of_nat (length handlers) - 1) hi
         (call h (gin.Next call fuel handlers) (gin.set_index (Z.of_nat i) c) w) ->
  gin.Next call (S fuel) handlers c w
  = leave (call h (gin.Next call fuel handlers) (gin.set_index (Z.of_nat i) c) w).
Proof.
  intros Hi Hh Hlen Hhi Hin. cbn [gin.Next].
  apply lookup_lt_Some in Hh as Hlt.
  rewrite Hi, int8_small by lia.
  replace (Z.of_nat i - 1 + 1) with (Z.of_nat i) by lia.
  now apply (run_handlers_last _ _ _ _ _ i h hi).
Qed.

End ChainFacts.

(** ** The handlers and the index *)

Lemma JSON_index (code : Z) (obj : gin.json) (c : gin.Context) :
  gin.index (gin.JSON code obj c) = gin.index c.
Proof. unfold gin.JSON. destruct (gin.bodyAllowedForStatus code); reflexivity. Qed.

Lemma Check_index (h : handlers.HealthHandler) (c : gin.Context) (w : World) :
  gin.index (handlers.Check h c w).1 = gin.index c.
Proof. unfold handlers.Check. cbn [Now fst]. apply JSON_index. Qed.

Lemma allow_origin_index (origin : string) (allowed : list string) (c : gin.Context) :
  gin.index (middleware.allow_origin origin allowed c) = gin.index c.
Proof.
  induction allowed as [|a l IH]; cbn [middleware.allow_origin]; [reflexivity|].
  destruct (String.eqb origin a); [reflexivity | exact IH].
Qed.

Lemma allow_origin_Req (origin : string) (allowed : list string) (c : gin.Context) :
  gin.Req (middleware.allow_origin origin allowed c) = gin.Req c.
Proof.
  induction allowed as [|a l IH]; cbn [middleware.allow_origin]; [reflexivity|].
  destruct (String.eqb origin a); [reflexivity | exact IH].
Qed.

(** [Logger] calls [next] on the context it was called on. *)
Lemma Logger_ext (log : option logger.Logger)
      (inner inner' : gin.Context -> World -> gin.result) (c : gin.Context) (w : World) :
  (forall w', inner c w' = inner' c w') ->
  middleware.Logger log inner c w = middleware.Logger log inner' c w.
Proof. intros He. unfold middleware.Logger. cbn [Now]. now rewrite He. Qed.

Lemma Logger_within (log : option logger.Logger)
      (inner : gin.Context -> World -> gin.result) (c : gin.Context) (w : World)
      (lo hi : Z) :
  (forall w', within lo hi (inner c w')) ->
  within lo hi (middleware.Logger log inner c w).
Proof.
  intros Hin. unfold middleware.Logger. cbn [Now].
  match goal with
  | |- context [inner c ?w'] => specialize (Hin w'); destruct (inner c w')
  end; [|exact I].
  destruct (logger.Infow _ _ _ _); [exact Hin | exact I].
Qed.

(** The context [CORS] hands on: the one it was called on, with its headers set. *)
Lemma CORS_eq (next : gin.Context -> World -> gin.result) (c : gin.Context) (w : World) :
  middleware.CORS next c w
  = let c' := CORS_headers c in
    if String.eqb (gin.Method (gin.Req c)) "OPTIONS"
    then gin.Done (gin.AbortWithStatus 204 c') w
    else next c' w.
Proof.
  unfold middleware.CORS, CORS_headers. cbn [gin.Writer_Header_Set gin.set_Writer gin.Req].
  rewrite allow_origin_Req. reflexivity.
Qed.

Lemma CORS_headers_index (c : gin.Context) : gin.index (CORS_headers c) = gin.index c.
Proof.
  unfold CORS_headers. cbn [gin.Writer_Header_Set gin.set_Writer gin.index].
  apply allow_origin_index.
Qed.

Lemma CORS_headers_Req (c : gin.Context) : gin.Req (CORS_headers c) = gin.Req c.
Proof.
  unfold CORS_headers. cbn [gin.Writer_Header_Set gin.set_Writer gin.Req].
  apply allow_origin_Req.
Qed.

Lemma leave_within (lo hi : Z) (r : gin.result) :
  within lo hi r -> within (lo + 1) (hi + 1) (leave r).
Proof. destruct r; cbn; [lia | trivial]. Qed.

Lemma within_weaken (lo hi lo' hi' : Z) (r : gin.result) :
  lo' <= lo -> hi <= hi' -> within lo hi r -> within lo' hi' r.
Proof. destruct r; cbn; [lia | trivial]. Qed.

(** ** [Next] on the chains of this server *)

Section Stages.
Variable log : option logger.Logger.
Variable handlers : list httpserver.HandlerFunc.
Variable inner : gin.Context -> World -> gin.result.
Variable fuel : nat.
Hypothesis handlers_0 : handlers !! 0%nat = Some httpserver.Recovery.
Hypothesis handlers_1 : handlers !! 1%nat = Some httpserver.CORS.
Hypothesis handlers_2 : handlers !! 2%nat = Some (httpserver.Logger log).
Hypothesis handlers_length : Z.of_nat (length handlers) <= 4.
(** What [Next] does when [Logger] calls it. *)
Hypothesis inner_Next :
  forall c w, gin.index c = 2 -> gin.Next httpserver.call fuel handlers c w = inner c w.
Hypothesis inner_within :
  forall c w, within (Z.of_nat (length handlers) - 1) 100 (inner c w).

Lemma logger_stage_within (c : gin.Context) (w : World) :
  within (Z.of_nat (length handlers)) 101 (logger_stage log inner c w).
Proof.
  unfold logger_stage.
  eapply within_weaken; [| | apply leave_within, Logger_within; intros; apply inner_within]; lia.
Qed.

Lemma logger_stage_eq (c : gin.Context) (w : World) :
  gin.index c = 1 ->
  gin.Next httpserver.call (S fuel) handlers c w = logger_stage log inner c w.
Proof.
  intros Hi.
  assert (He : middleware.Logger log (gin.Next httpserver.call fuel handlers)
                                 (gin.set_index 2 c) w
               = middleware.Logger log inner (gin.set_index 2 c) w).
  { apply Logger_ext. intros w'. now apply inner_Next. }
  rewrite (Next_last httpserver.call fuel handlers c w 2 (httpserver.Logger log) 100);
    try assumption; try lia; cbn [httpserver.call]; change (Z.of_nat 2) with 2;
    rewrite He.
  - reflexivity.
  - apply Logger_within. intros. apply inner_within.
Qed.

Lemma cors_stage_within (c : gin.Context) (w : World) :
  within (Z.of_nat (length handlers)) 102 (cors_stage log inner c w).
Proof.
  unfold cors_stage. rewrite CORS_eq. cbn zeta.
  destruct (String.eqb _ "OPTIONS").
  - pose proof handlers_length. cbn -[Z.of_nat length]. unfold gin.abortIndex. lia.
  - eapply within_weaken; [| | apply leave_within, logger_stage_within]; lia.
Qed.

Lemma cors_stage_eq (c : gin.Context) (w : World) :
  gin.index c = 0 ->
  gin.Next httpserver.call (S (S fuel)) handlers c w = cors_stage log inner c w.
Proof.
  intros Hi.
  assert (He : middleware.CORS (gin.Next httpserver.call (S fuel) handlers)
                               (gin.set_index 1 c) w
               = middleware.CORS (logger_stage log inner) (gin.set_index 1 c) w).
  { rewrite !CORS_eq. cbn zeta. destruct (String.eqb _ "OPTIONS"); [reflexivity|].
    apply logger_stage_eq. now rewrite CORS_headers_index. }
  rewrite (Next_last httpserver.call (S fuel) handlers c w 1 httpserver.CORS 101);
    try assumption; try lia; cbn [httpserver.call]; change (Z.of_nat 1) with 1;
    rewrite He.
  - reflexivity.
  - rewrite CORS_eq. cbn zeta. destruct (String.eqb _ "OPTIONS").
    + pose proof handlers_length. cbn -[Z.of_nat length]. unfold gin.abortIndex. lia.
    + eapply within_weaken; [| | apply logger_stage_within]; lia.
Qed.

Lemma recovery_stage_eq (c : gin.Context) (w : World) :
  gin.index c = -1 ->
  gin.Next httpserver.call (S (S (S fuel))) handlers c w = recovery_stage log inner c w.
Proof.
  intros Hi.
  assert (He : middleware.Recovery (gin.Next httpserver.call (S (S fuel)) handlers)
                                   (gin.set_index 0 c) w
               = middleware.Recovery (cors_stage log inner) (gin.set_index 0 c) w).
  { unfold middleware.Recovery. now rewrite cors_stage_eq. }
  rewrite (Next_last httpserver.call (S (S fuel)) handlers c w 0 httpserver.Recovery 102);
    try assumption; try lia; cbn [httpserver.call]; change (Z.of_nat 0) with 0;
    rewrite He.
  - reflexivity.
  - unfold middleware.Recovery.
    pose proof (cors_stage_within (gin.set_index 0 c) w) as Hw.
    pose proof handlers_length.
    destruct (cors_stage log inner _ _); cbn -[Z.of_nat length] in *;
      unfold gin.abortIndex; lia.
Qed.

End Stages.

(** The chain of [/health]. *)
Lemma health_chain_Next (log : option logger.Logger) (h : handlers.HealthHandler)
      (c : gin.Context) (w : World) :
  gin.index c = -1 ->
  gin.Next httpserver.call 5 (health_chain log h) c w
  = recovery_stage log (check_stage h) c w.
Proof.
  assert (Hcheck : forall c' w', gin.index c' = 2 ->
            gin.Next httpserver.call 2 (health_chain log h) c' w' = check_stage h c' w').
  { intros c' w' Hi.
    pose proof (Check_index h (gin.set_index 3 c') w') as Hc.
    rewrite (Next_last httpserver.call 1 (health_chain log h) c' w' 3
                       (httpserver.Check h) 100);
      [ | rewrite Hi; reflexivity | reflexivity | cbn; lia | lia | ];
      cbn [httpserver.call]; change (Z.of_nat 3) with 3; unfold check_stage;
      destruct (handlers.Check h (gin.set_index 3 c') w') as [c1 w1];
      cbn [leave within fst gin.index gin.set_index length health_chain] in *.
    - now rewrite Hc.
    - rewrite Hc. cbn. lia. }
  assert (Hwithin : forall c' w',
            within (Z.of_nat (length (health_chain log h)) - 1) 100 (check_stage h c' w')).
  { intros c' w'. unfold check_stage.
    destruct (handlers.Check h (gin.set_index 3 c') w') as [c1 w1]. cbn. lia. }
  intros Hi.
  apply (recovery_stage_eq log (health_chain log h) (check_stage h) 2);
    first [reflexivity | assumption | cbn; lia].
Qed.

(** The chain of a request that no route matches. *)
Lemma noroute_chain_Next (log : option logger.Logger) (c : gin.Context) (w : World) :
  gin.index c = -1 ->
  gin.Next httpserver.call 4 (noroute_chain log) c w
  = recovery_stage log nothing_stage c w.
Proof.
  assert (Hnothing : forall c' w', gin.index c' = 2 ->
            gin.Next httpserver.call 1 (noroute_chain log) c' w' = nothing_stage c' w').
  { intros c' w' Hi. cbn [gin.Next]. rewrite Hi.
    change (gin.int8 (2 + 1)) with 3. unfold nothing_stage.
    apply run_handlers_exit; simpl; lia. }
  assert (Hwithin : forall c' w',
            within (Z.of_nat (length (noroute_chain log)) - 1) 100 (nothing_stage c' w')).
  { intros c' w'. cbn. lia. }
  intros Hi.
  apply (recovery_stage_eq log (noroute_chain log) nothing_stage 1);
    first [reflexivity | assumption | cbn; lia].
Qed.

(** ** The CORS headers *)

Lemma allow_origin_spec (origin : string) (allowed : list string) (c : gin.Context) :
  middleware.allow_origin origin allowed c
  = if string_in origin allowed
    then gin.Writer_Header_Set "Access-Control-Allow-Origin" origin c
    else c.
Proof.
  induction allowed as [|a l IH]; [reflexivity|].
  cbn [middleware.allow_origin]. unfold string_in. cbn [existsb].
  destruct (String.eqb origin a); [reflexivity | exact IH].
Qed.

Lemma CORS_headers_Writer (c : gin.Context) :
  gin.Writer (CORS_headers c)
  = gin.mkWriter (gin.status (gin.Writer c)) (gin.written (gin.Writer c))
                 (CORS_header_map (gin.Get (gin.ReqHeader (gin.Req c)) "Origin")
                                  (gin.header (gin.Writer c)))
                 (gin.body (gin.Writer c)).
Proof.
  unfold CORS_headers, CORS_header_map. rewrite allow_origin_spec.
  destruct (string_in _ constants.CORSAllowOrigins); reflexivity.
Qed.

Lemma CORS_headers_eq (c : gin.Context) :
  CORS_headers c
  = gin.mkContext (gin.Req c)
      (gin.mkWriter (gin.status (gin.Writer c)) (gin.written (gin.Writer c))
                    (CORS_header_map (gin.Get (gin.ReqHeader (gin.Req c)) "Origin")
                                     (gin.header (gin.Writer c)))
                    (gin.body (gin.Writer c)))
      (gin.index c).
Proof.
  rewrite <- CORS_headers_Writer, <- CORS_headers_Req, <- CORS_headers_index.
  now destruct (CORS_headers c).
Qed.

(** The four headers of the policy in the map [CORS] leaves. *)
Lemma CORS_header_map_fixed (origin : string) (h : gin.Header) :
  CORS_header_map origin h !! "Access-Control-Allow-Credentials" = Some ["true"]
  /\ CORS_header_map origin h !! "Access-Control-Allow-Methods"
     = Some ["GET, POST, PUT, DELETE, PATCH, OPTIONS"]
  /\ CORS_header_map origin h !! "Access-Control-Allow-Headers" = Some ["*"].
Proof.
  unfold CORS_header_map, gin.Header_Set.
  repeat split;
    repeat first [ rewrite lookup_insert_eq; reflexivity
                 | rewrite lookup_insert_ne by discriminate ].
Qed.

Lemma CORS_header_map_origin (origin : string) (h : gin.Header) :
  CORS_header_map origin h !! "Access-Control-Allow-Origin"
  = if string_in origin constants.CORSAllowOrigins then Some [origin]
    else h !! "Access-Control-Allow-Origin".
Proof.
  unfold CORS_header_map, gin.Header_Set.
  rewrite !lookup_insert_ne by discriminate.
  destruct (string_in origin constants.CORSAllowOrigins);
    [apply lookup_insert_eq | reflexivity].
Qed.

Lemma CORS_header_map_other (origin key : string) (h : gin.Header) :
  ~ In key ["Access-Control-Allow-Origin"; "Access-Control-Allow-Credentials";
            "Access-Control-Allow-Methods"; "Access-Control-Allow-Headers"] ->
  CORS_header_map origin h !! key = h !! key.
Proof.
  intros Hk. unfold CORS_header_map, gin.Header_Set.
  rewrite !lookup_insert_ne by (intros <-; apply Hk; simpl; tauto).
  destruct (string_in origin constants.CORSAllowOrigins); [|reflexivity].
  apply lookup_insert_ne. intros <-. apply Hk. simpl. tauto.
Qed.

(** ** Durations *)

Lemma subMono_clamp (t u : Z) :
  - 2 ^ 63 <= t < 2 ^ 63 -> - 2 ^ 63 <= u < 2 ^ 63 ->
  time.subMono t u = Z.max time.minDuration (Z.min time.maxDuration (t - u)).
Proof.
  intros Ht Hu. unfold time.subMono, time.wrap64, time.minDuration, time.maxDuration.
  change (2 ^ 63) with 9223372036854775808 in *.
  change (2 ^ 64) with 18446744073709551616.
  pose proof (Z.mod_pos_bound (t - u + 9223372036854775808) 18446744073709551616
                              eq_refl) as Hb.
  pose proof (Z.div_mod (t - u + 9223372036854775808) 18446744073709551616) as Hd.
  specialize (Hd ltac:(discriminate)).
  set (q := (t - u + 9223372036854775808) / 18446744073709551616) in *.
  set (r := (t - u + 9223372036854775808) mod 18446744073709551616) in *.
  assert (q = -1 \/ q = 0 \/ q = 1) as Hq by lia.
  destruct (r - 9223372036854775808 <? 0) eqn:E1;
    destruct (u <? t) eqn:E2;
    destruct (0 <? r - 9223372036854775808) eqn:E3;
    destruct (t <? u) eqn:E4; cbn [andb]; lia.
Qed.

Lemma Sub_monotone (t1 t2 u : time.Time) (m1 m2 mu : Z) :
  time.mono t1 = Some m1 -> time.mono t2 = Some m2 -> time.mono u = Some mu ->
  - 2 ^ 63 <= m1 < 2 ^ 63 -> - 2 ^ 63 <= m2 < 2 ^ 63 -> - 2 ^ 63 <= mu < 2 ^ 63 ->
  m1 <= m2 ->
  time.Sub t1 u <= time.Sub t2 u.
Proof.
  intros H1 H2 Hu R1 R2 Ru Hle. unfold time.Sub. rewrite H1, H2, Hu.
  rewrite !subMono_clamp by assumption. lia.
Qed.

Lemma Sub_nonneg (t u : time.Time) (mt mu : Z) :
  time.mono t = Some mt -> time.mono u = Some mu ->
  - 2 ^ 63 <= mt < 2 ^ 63 -> - 2 ^ 63 <= mu < 2 ^ 63 ->
  mu <= mt ->
  0 <= time.Sub t u.
Proof.
  intros Ht Hu Rt Ru Hle. unfold time.Sub. rewrite Ht, Hu.
  rewrite subMono_clamp by assumption.
  unfold time.minDuration, time.maxDuration. lia.
Qed.

(** [Seconds] is the duration over a second. *)
Lemma Seconds_eq (d : Z) : (time.Seconds d == d # 1000000000)%Q.
Proof.
  unfold time.Seconds, time.Second, Qeq, Qplus, inject_Z. cbn [Qnum Qden].
  pose proof (Z.quot_rem' d 1000000000). lia.
Qed.

Lemma Seconds_monotone (d1 d2 : Z) :
  d1 <= d2 -> (time.Seconds d1 <= time.Seconds d2)%Q.
Proof.
  intros H. rewrite !Seconds_eq. unfold Qle. cbn [Qnum Qden]. lia.
Qed.

Lemma sample_clock_monotonic : monotonic_clock sample_clock.
Proof.
  exists (fun k => Z.min (Z.of_nat k * 1500000000) time.maxDuration).
  unfold time.maxDuration. repeat split; try lia.
Qed.

(** ** The server *)

Lemma New_eq (container : dependencies.Container) (w : World) :
  httpserver.New container w
  = match dependencies.Config container with
    | None => Panicked w
    | Some cfg =>
      Returned
        (httpserver.mkServer
           (server_router (dependencies.Logger container)
                          (handlers.mkHealthHandler (clock w (ticks w))
                                                    (config.AppVersion cfg)))
           container)
        (snd (Now w))
    end.
Proof.
  unfold httpserver.New. destruct (dependencies.Config container); reflexivity.
Qed.

Lemma server_router_has_tree (log : option logger.Logger)
      (h : handlers.HealthHandler) (method : string) :
  gin.has_tree (server_router log h) method = String.eqb "GET" method.
Proof. unfold gin.has_tree. cbn [server_router gin.routes existsb fst]. apply orb_false_r. Qed.

Lemma server_router_getValue (log : option logger.Logger)
      (h : handlers.HealthHandler) (method path : string) :
  gin.getValue (server_router log h) method path
  = if String.eqb "GET" method && String.eqb "/health" path
    then Some (health_chain log h) else None.
Proof.
  unfold gin.getValue. cbn [server_router gin.routes List.find fst snd].
  destruct (String.eqb "GET" method && String.eqb "/health" path); reflexivity.
Qed.

Lemma Infow_world (log : option logger.Logger) (msg : string)
      (fields : list (string * zapcore.Field)) (w : World) :
  match logger.Infow log msg fields w with
  | Returned _ w' | Panicked w' => clock w' = clock w /\ ticks w' = ticks w
  end.
Proof.
  destruct log as [[[z|]]|]; cbn; try (split; reflexivity).
  destruct (zapcore.Enabled _ _); cbn; split; reflexivity.
Qed.

(** [GET /health] on the router of the server: status 200, the headers
    of [CORS] and the content type, and the body of [Check] for the second
    clock reading of the request (the first is [Logger]'s). *)
Lemma ServeHTTP_health (log : option logger.Logger) (h : handlers.HealthHandler)
      (container : dependencies.Container) (req : gin.Request) (w : World) :
  is_health req = true ->
  exists w',
    httpserver.ServeHTTP (httpserver.mkServer (server_router log h) container) req w
    = (Some (httpserver.mkResponse 200
               (gin.Header_Set "Content-Type" "application/json; charset=utf-8"
                  (CORS_header_map (gin.Get (gin.ReqHeader req) "Origin") ∅))
               [gin.PJSON (health_body h (clock w (S (ticks w))))]),
       w')
    /\ clock w' = clock w /\ ticks w' = (3 + ticks w)%nat.
Proof.
  unfold is_health. intros Hreq. apply andb_true_iff in Hreq as [HM HP].
  apply String.eqb_eq in HM, HP.
  unfold httpserver.ServeHTTP, gin.handleHTTPRequest.
  cbn [httpserver.router].
  rewrite server_router_has_tree, server_router_getValue, HM, HP.
  change ("GET" =? "GET")%string with true.
  change ("/health" =? "/health")%string with true. cbv iota beta. cbn [andb].
  change (length (health_chain log h)) with 4%nat.
  rewrite health_chain_Next by reflexivity.
  unfold recovery_stage, middleware.Recovery, cors_stage.
  rewrite CORS_eq. cbn zeta. cbn [gin.Req gin.set_index gin.reset]. rewrite HM.
  change ("GET" =? "OPTIONS")%string with false. cbv iota.
  rewrite CORS_headers_eq.
  unfold logger_stage, middleware.Logger, check_stage, handlers.Check.
  cbn [Now fst snd gin.Req gin.Writer gin.index gin.set_index gin.status gin.written
       gin.header gin.body gin.reset clock ticks].
  unfold gin.JSON, gin.Status. cbn [gin.bodyAllowedForStatus Z.leb Z.eqb Z.compare
       Pos.compare Pos.compare_cont andb Pos.eqb].
  unfold gin.writeContentType.
  cbn [gin.Writer gin.set_Writer gin.WriteHeader gin.status gin.written gin.header
       gin.body gin.Req gin.index gin.set_index Z.ltb Z.eqb Z.compare Pos.eqb andb negb].
  rewrite CORS_header_map_other
    by (cbn; intros [?|[?|[?|[?|[]]]]]; discriminate).
  rewrite lookup_empty.
  pose proof (Infow_world log) as HI.
  match goal with
  | |- context [logger.Infow log ?m ?f ?w0] =>
    specialize (HI m f w0); destruct (logger.Infow log m f w0) as [[] w'|w']
  end; cbn in HI; destruct HI as [Hc Ht];
    (eexists; split; [reflexivity | split; [exact Hc | exact Ht]]).
Qed.

(** A preflight on the server: [CORS] answers 204 with its headers and
    an empty body; neither [Logger] nor any handler runs, so the clock is
    not read and nothing is logged. *)
Lemma ServeHTTP_OPTIONS (log : option logger.Logger) (h : handlers.HealthHandler)
      (container : dependencies.Container) (req : gin.Request) (w : World) :
  gin.Method req = "OPTIONS" ->
  httpserver.ServeHTTP (httpserver.mkServer (server_router log h) container) req w
  = (Some (httpserver.mkResponse 204
             (CORS_header_map (gin.Get (gin.ReqHeader req) "Origin") ∅) []),
     w).
Proof.
  intros HM.
  unfold httpserver.ServeHTTP, gin.handleHTTPRequest.
  cbn [httpserver.router].
  rewrite server_router_has_tree, HM.
  change ("GET" =? "OPTIONS")%string with false. cbv iota.
  unfold gin.serveError. cbn [server_router gin.middleware].
  change (length (noroute_chain log)) with 3%nat.
  rewrite noroute_chain_Next by reflexivity.
  unfold recovery_stage, middleware.Recovery, cors_stage.
  rewrite CORS_eq. cbn zeta. cbn [gin.Req gin.set_index gin.set_Writer gin.reset].
  rewrite HM.
  change ("OPTIONS" =? "OPTIONS")%string with true. cbv iota.
  rewrite CORS_headers_eq.
  reflexivity.
Qed.

(** ** The health handler *)

(** Without saturation [Sub] is the difference of the monotonic readings. *)
Lemma Sub_exact (t u : time.Time) (mt mu : Z) :
  time.mono t = Some mt -> time.mono u = Some mu ->
  - 2 ^ 63 <= mt < 2 ^ 63 -> - 2 ^ 63 <= mu < 2 ^ 63 ->
  time.minDuration <= mt - mu <= time.maxDuration ->
  time.Sub t u = mt - mu.
Proof.
  intros Ht Hu Rt Ru Hd. unfold time.Sub. rewrite Ht, Hu.
  rewrite subMono_clamp by assumption. lia.
Qed.

(** Two digits for a number below a hundred. *)
Lemma appendInt_2 (x : Z) :
  0 <= x < 100 -> time.appendInt x 2 = [48 + x / 10; 48 + x mod 10].
Proof.
  intros Hx. unfold time.appendInt.
  destruct (Z.ltb_spec x 0); [lia|].
  rewrite Z.abs_eq by lia.
  change 20%nat with (S (S 18)). cbn [strconv.formatBits].
  destruct (Z.ltb_spec x 10).
  - cbn [length Nat.sub repeat app].
    rewrite Z.div_small, Z.mod_small by lia. reflexivity.
  - destruct (Z.ltb_spec (x / 10) 10); [reflexivity|].
    pose proof (Z.div_lt_upper_bound x 10 10). lia.
Qed.

Lemma appendInt_range (x : Z) (width : nat) :
  Forall (fun b => 0 <= b < 256) (time.appendInt x width).
Proof.
  unfold time.appendInt.
  assert (Forall (fun b => 0 <= b < 256)
                 (repeat 48 (width - length (strconv.formatBits 20 (Z.abs x) []))
                  ++ strconv.formatBits 20 (Z.abs x) [])%list) as H.
  { apply Forall_app. split.
    - apply List.Forall_forall. intros b Hb. apply repeat_spec in Hb. lia.
    - apply formatBits_range; [lia | constructor]. }
  destruct (x <? 0); [constructor; [lia | exact H] | exact H].
Qed.

(** The layout of a time in UTC: the date, [T], the time of day in two
    digits each, and [Z] for the zone. *)
Lemma Format_RFC3339_UTC (t : time.Time) :
  exists year month day,
    time.civil (time.unix t / 86400) = (year, month, day)
    /\ bytes (time.Format_RFC3339 (time.UTC t))
       = (time.appendInt year 4 ++ [45] ++ time.appendInt month 2 ++ [45]
          ++ time.appendInt day 2 ++ [84]
          ++ [48 + time.unix t mod 86400 / 3600 / 10;
              48 + time.unix t mod 86400 / 3600 mod 10; 58;
              48 + time.unix t mod 86400 mod 3600 / 60 / 10;
              48 + time.unix t mod 86400 mod 3600 / 60 mod 10; 58;
              48 + time.unix t mod 86400 mod 60 / 10;
              48 + time.unix t mod 86400 mod 60 mod 10; 90])%list.
Proof.
  unfold time.Format_RFC3339. cbn [time.UTC time.unix time.offset].
  rewrite Z.add_0_r.
  destruct (time.civil (time.unix t / 86400)) as [[year month] day].
  exists year, month, day. split; [reflexivity|].
  change (0 =? 0) with true. cbv iota.
  rewrite bytes_of_bytes.
  2:{ repeat first [ apply Forall_app; split
                   | apply appendInt_range
                   | apply Forall_cons; split; [lia|]
                   | apply Forall_nil_2 ]. }
  pose proof (Z.mod_pos_bound (time.unix t) 86400 eq_refl) as Hs.
  set (secs := time.unix t mod 86400) in *.
  assert (0 <= secs / 3600 < 100) as H1
      by (split; [apply Z.div_pos; lia | apply Z.div_lt_upper_bound; lia]).
  pose proof (Z.mod_pos_bound secs 3600 eq_refl) as Hm.
  assert (0 <= secs mod 3600 / 60 < 100) as H2
      by (split; [apply Z.div_pos; lia | apply Z.div_lt_upper_bound; lia]).
  pose proof (Z.mod_pos_bound secs 60 eq_refl) as H3.
  rewrite (appendInt_2 (secs / 3600)), (appendInt_2 (secs mod 3600 / 60)),
    (appendInt_2 (secs mod 60)) by lia.
  reflexivity.
Qed.

(** The writer after [c.JSON(200, obj)] on a response not yet started. *)
Lemma JSON_200_Writer (obj : gin.json) (c : gin.Context) :
  gin.written (gin.Writer c) = false ->
  gin.Writer (gin.JSON 200 obj c)
  = gin.mkWriter 200 true
      (match gin.header (gin.Writer c) !! "Content-Type" with
       | Some (_ :: _) => gin.header (gin.Writer c)
       | _ => gin.Header_Set "Content-Type" "application/json; charset=utf-8"
                             (gin.header (gin.Writer c))
       end)
      (gin.body (gin.Writer c) ++ [gin.PJSON obj])%list.
Proof.
  destruct c as [rq [st wt hd bd] ix]. cbn [gin.Writer gin.written]. intros ->.
  unfold gin.JSON, gin.Status, gin.WriteHeader, gin.writeContentType.
  cbn [gin.bodyAllowedForStatus Z.leb Z.eqb Z.ltb Z.compare Pos.compare
       Pos.compare_cont andb Pos.eqb gin.set_Writer gin.Writer gin.status gin.written].
  destruct (Z.eqb_spec st 200) as [->|Hne]; cbn [negb gin.header gin.Writer];
    destruct (hd !! "Content-Type") as [[|v vs]|]; reflexivity.
Qed.

(** C1. Every invocation of [Check] on a response that has not been started
    (as the router hands it over) answers with status 200 and a JSON object
    whose members are, in this order, [status], the constant ["healthy"];
    [version], the version the handler was constructed with;
    [uptime_seconds], the seconds of the duration from the handler's startup
    instant to the clock reading of this call; and [timestamp], that reading
    in UTC in the RFC3339 layout.  The call reads the clock once and changes
    nothing else in the world. *)
Theorem Check_response (h : handlers.HealthHandler) (c : gin.Context) (w : World) :
  gin.written (gin.Writer c) = false ->
  exists c' obj,
    handlers.Check h c w = (c', snd (Now w))
    /\ gin.status (gin.Writer c') = 200
    /\ gin.written (gin.Writer c') = true
    /\ gin.body (gin.Writer c') = (gin.body (gin.Writer c) ++ [gin.PJSON obj])%list
    /\ (gin.header (gin.Writer c) !! "Content-Type" = None ->
        gin.header (gin.Writer c') !! "Content-Type"
        = Some ["application/json; charset=utf-8"])
    /\ map fst obj = ["status"; "version"; "uptime_seconds"; "timestamp"]
    /\ gin.member "status" obj = Some (gin.JString "healthy")
    /\ gin.member "version" obj = Some (gin.JString (handlers.version h))
    /\ gin.member "uptime_seconds" obj
       = Some (gin.JNumber
                 (time.Seconds (time.Sub (clock w (ticks w)) (handlers.startupTime h))))
    /\ gin.member "timestamp" obj
       = Some (gin.JString (time.Format_RFC3339 (time.UTC (clock w (ticks w)))))
    /\ time.offset (time.UTC (clock w (ticks w))) = 0
    /\ time.unix (time.UTC (clock w (ticks w))) = time.unix (clock w (ticks w)).
Proof.
  intros Hw. unfold handlers.Check. cbn [Now fst snd].
  eexists _, _. split; [reflexivity|].
  rewrite (JSON_200_Writer _ c Hw). cbn [gin.status gin.written gin.body gin.header].
  repeat apply conj; try reflexivity.
  intros ->. apply lookup_insert_eq.
Qed.

Lemma Check_response_witness :
  exists c' obj,
    fst (handlers.Check sample_HealthHandler (gin.reset sample_request) sample_later) = c'
    /\ gin.status (gin.Writer c') = 200
    /\ gin.body (gin.Writer c') = [gin.PJSON obj]
    /\ gin.member "status" obj = Some (gin.JString "healthy")
    /\ gin.member "version" obj = Some (gin.JString "0.1.0")
    /\ gin.member "uptime_seconds" obj = Some (gin.JNumber (3000000000 # 1000000000))
    /\ gin.member "timestamp" obj = Some (gin.JString "2024-01-15T10:30:03Z").
Proof.
  destruct (Check_response sample_HealthHandler (gin.reset sample_request)
                           sample_later eq_refl)
    as (c' & obj & HC & Hs & _ & Hb & _ & _ & H1 & H2 & H3 & H4 & _).
  exists c', obj. rewrite HC. repeat apply conj.
  - reflexivity.
  - exact Hs.
  - exact Hb.
  - exact H1.
  - exact H2.
  - rewrite H3. vm_compute. reflexivity.
  - rewrite H4. vm_compute. reflexivity.
Defined.

(** ** The CORS middleware *)

(** What [AbortWithStatus] leaves of the writer. *)
Lemma AbortWithStatus_header (code : Z) (c : gin.Context) :
  gin.header (gin.Writer (gin.AbortWithStatus code c)) = gin.header (gin.Writer c).
Proof.
  destruct c as [rq [st wt hd bd] ix].
  unfold gin.AbortWithStatus, gin.Status, gin.WriteHeader.
  cbn [gin.Writer gin.set_Writer gin.Abort gin.set_index gin.written gin.status].
  destruct (_ && _); [destruct wt|]; reflexivity.
Qed.

Lemma AbortWithStatus_body (code : Z) (c : gin.Context) :
  gin.body (gin.Writer (gin.AbortWithStatus code c)) = gin.body (gin.Writer c).
Proof.
  destruct c as [rq [st wt hd bd] ix].
  unfold gin.AbortWithStatus, gin.Status, gin.WriteHeader.
  cbn [gin.Writer gin.set_Writer gin.Abort gin.set_index gin.written gin.status].
  destruct (_ && _); [destruct wt|]; reflexivity.
Qed.

Lemma AbortWithStatus_written (code : Z) (c : gin.Context) :
  gin.written (gin.Writer (gin.AbortWithStatus code c)) = true.
Proof. reflexivity. Qed.

Lemma AbortWithStatus_status (code : Z) (c : gin.Context) :
  0 < code -> gin.written (gin.Writer c) = false ->
  gin.status (gin.Writer (gin.AbortWithStatus code c)) = code.
Proof.
  destruct c as [rq [st wt hd bd] ix]. cbn [gin.Writer gin.written]. intros Hc ->.
  unfold gin.AbortWithStatus, gin.Status, gin.WriteHeader.
  cbn [gin.Writer gin.set_Writer gin.Abort gin.set_index gin.written gin.status].
  destruct (Z.ltb_spec 0 code); [|lia].
  destruct (Z.eqb_spec st code) as [->|]; reflexivity.
Qed.

Lemma CORS_headers_written (c : gin.Context) :
  gin.written (gin.Writer (CORS_headers c)) = gin.written (gin.Writer c).
Proof. rewrite CORS_headers_Writer. reflexivity. Qed.

Lemma CORS_headers_body (c : gin.Context) :
  gin.body (gin.Writer (CORS_headers c)) = gin.body (gin.Writer c).
Proof. rewrite CORS_headers_Writer. reflexivity. Qed.

Lemma CORS_headers_header (c : gin.Context) :
  gin.header (gin.Writer (CORS_headers c))
  = CORS_header_map (gin.Get (gin.ReqHeader (gin.Req c)) "Origin")
                    (gin.header (gin.Writer c)).
Proof. rewrite CORS_headers_Writer. reflexivity. Qed.

(** C5. [CORS] hands on (or, for OPTIONS, answers with) the context it got
    with response headers added: when the request's [Origin] is on the
    allow-list, [Access-Control-Allow-Origin] is exactly that origin; when it
    is not, that header is left as it was (absent on the response of a new
    request).  An OPTIONS request is answered at once: whatever the rest of
    the chain [next] is, it is not called and the world is as before; the
    status is 204, the header is out, nothing is added to the body, and the
    context is aborted, so no later handler runs. *)
Theorem CORS_origin_policy (next : gin.Context -> World -> gin.result)
        (c : gin.Context) (w : World) :
  gin.written (gin.Writer c) = false ->
  exists c',
    middleware.CORS next c w
    = (if String.eqb (gin.Method (gin.Req c)) "OPTIONS"
       then gin.Done (gin.AbortWithStatus 204 c') w
       else next c' w)
    /\ gin.Req c' = gin.Req c
    /\ (In (gin.Get (gin.ReqHeader (gin.Req c)) "Origin") constants.CORSAllowOrigins ->
        gin.header (gin.Writer c') !! "Access-Control-Allow-Origin"
        = Some [gin.Get (gin.ReqHeader (gin.Req c)) "Origin"])
    /\ (~ In (gin.Get (gin.ReqHeader (gin.Req c)) "Origin") constants.CORSAllowOrigins ->
        gin.header (gin.Writer c') !! "Access-Control-Allow-Origin"
        = gin.header (gin.Writer c) !! "Access-Control-Allow-Origin")
    /\ gin.status (gin.Writer (gin.AbortWithStatus 204 c')) = 204
    /\ gin.written (gin.Writer (gin.AbortWithStatus 204 c')) = true
    /\ gin.body (gin.Writer (gin.AbortWithStatus 204 c')) = gin.body (gin.Writer c)
    /\ gin.header (gin.Writer (gin.AbortWithStatus 204 c')) = gin.header (gin.Writer c')
    /\ gin.IsAborted (gin.AbortWithStatus 204 c') = true.
Proof.
  intros Hw. exists (CORS_headers c). split; [apply CORS_eq|].
  split; [apply CORS_headers_Req|].
  rewrite AbortWithStatus_header, AbortWithStatus_body, CORS_headers_body,
    CORS_headers_header, CORS_header_map_origin.
  rewrite AbortWithStatus_status by first [lia | rewrite CORS_headers_written; assumption].
  repeat apply conj; try reflexivity.
  - intros Hin. apply string_in_In in Hin. rewrite Hin. reflexivity.
  - intros Hin.
    destruct (string_in _ constants.CORSAllowOrigins) eqn:E; [|reflexivity].
    apply string_in_In in E. contradiction.
Qed.

Lemma CORS_origin_policy_witness :
  exists c',
    middleware.CORS (fun c w => gin.Done c w) (gin.reset sample_request) sample_World
    = gin.Done c' sample_World
    /\ gin.header (gin.Writer c') !! "Access-Control-Allow-Origin"
       = Some ["http://localhost:3000"].
Proof.
  destruct (CORS_origin_policy (fun c w => gin.Done c w) (gin.reset sample_request)
                               sample_World eq_refl)
    as (c' & HC & _ & Hin & _).
  exists c'. split; [exact HC|].
  apply Hin. left. reflexivity.
Defined.

(** C10. Whatever the request's [Origin], [CORS] sets
    [Access-Control-Allow-Credentials] to ["true"],
    [Access-Control-Allow-Methods] to the fixed list and
    [Access-Control-Allow-Headers] to ["*"] on the context it hands on or
    answers with.  An OPTIONS request is answered with 204 also when its
    origin is not on the allow-list: the response then carries the three
    headers, and [Access-Control-Allow-Origin] is as it was before the
    middleware (absent on the response of a new request). *)
Theorem CORS_fixed_headers (next : gin.Context -> World -> gin.result)
        (c : gin.Context) (w : World) :
  gin.written (gin.Writer c) = false ->
  exists c',
    middleware.CORS next c w
    = (if String.eqb (gin.Method (gin.Req c)) "OPTIONS"
       then gin.Done (gin.AbortWithStatus 204 c') w
       else next c' w)
    /\ gin.header (gin.Writer c') !! "Access-Control-Allow-Credentials" = Some ["true"]
    /\ gin.header (gin.Writer c') !! "Access-Control-Allow-Methods"
       = Some ["GET, POST, PUT, DELETE, PATCH, OPTIONS"]
    /\ gin.header (gin.Writer c') !! "Access-Control-Allow-Headers" = Some ["*"]
    /\ gin.status (gin.Writer (gin.AbortWithStatus 204 c')) = 204
    /\ gin.header (gin.Writer (gin.AbortWithStatus 204 c')) = gin.header (gin.Writer c')
    /\ (~ In (gin.Get (gin.ReqHeader (gin.Req c)) "Origin") constants.CORSAllowOrigins ->
        gin.header (gin.Writer (gin.AbortWithStatus 204 c'))
        !! "Access-Control-Allow-Origin"
        = gin.header (gin.Writer c) !! "Access-Control-Allow-Origin").
Proof.
  intros Hw. exists (CORS_headers c). split; [apply CORS_eq|].
  rewrite AbortWithStatus_header, CORS_headers_header.
  rewrite AbortWithStatus_status by first [lia | rewrite CORS_headers_written; assumption].
  destruct (CORS_header_map_fixed (gin.Get (gin.ReqHeader (gin.Req c)) "Origin")
                                  (gin.header (gin.Writer c))) as (H1 & H2 & H3).
  repeat apply conj; try assumption; try reflexivity.
  intros Hin. rewrite CORS_header_map_origin.
  destruct (string_in _ constants.CORSAllowOrigins) eqn:E; [|reflexivity].
  apply string_in_In in E. contradiction.
Qed.

Lemma CORS_fixed_headers_witness :
  exists c',
    middleware.CORS (fun c w => gin.Done c w) (gin.reset sample_preflight) sample_World
    = gin.Done (gin.AbortWithStatus 204 c') sample_World
    /\ gin.status (gin.Writer (gin.AbortWithStatus 204 c')) = 204
    /\ gin.header (gin.Writer (gin.AbortWithStatus 204 c'))
       !! "Access-Control-Allow-Credentials" = Some ["true"]
    /\ gin.header (gin.Writer (gin.AbortWithStatus 204 c'))
       !! "Access-Control-Allow-Origin" = None.
Proof.
  destruct (CORS_fixed_headers (fun c w => gin.Done c w) (gin.reset sample_preflight)
                               sample_World eq_refl)
    as (c' & HC & H1 & _ & _ & Hs & Hh & Ho).
  exists c'. split; [exact HC|]. split; [exact Hs|]. split.
  - rewrite Hh. exact H1.
  - rewrite Ho; [reflexivity|].
    vm_compute. intros [H|[H|[H|[]]]]; discriminate H.
Defined.

(** ** Repeated health checks *)

(** The responses to health checks served one after the other from [w]:
    the [i]-th is computed from the clock reading [1 + 3 * i] after [w]'s
    (every request reads the clock three times: [Logger], [Check], [Logger]). *)
Lemma serve_health (log : option logger.Logger) (h : handlers.HealthHandler)
      (container : dependencies.Container) (reqs : list gin.Request) :
  forallb is_health reqs = true ->
  forall (w : World) (i : nat), (i < length reqs)%nat ->
  exists hdr,
    fst (httpserver.serve (httpserver.mkServer (server_router log h) container) reqs w)
    !! i
    = Some (Some (httpserver.mkResponse 200 hdr
                    [gin.PJSON (health_body h (clock w (ticks w + 1 + 3 * i)%nat))])).
Proof.
  induction reqs as [|req rest IH]; intros Hall w i Hi; [cbn in Hi; lia|].
  cbn [forallb] in Hall. apply andb_true_iff in Hall as [Hreq Hrest].
  destruct (ServeHTTP_health log h container req w Hreq) as (w1 & HS & Hc & Ht).
  cbn [httpserver.serve]. rewrite HS.
  destruct (httpserver.serve _ rest w1) as [rs w2] eqn:Hrs.
  cbn [fst]. destruct i as [|i].
  - eexists. cbn [lookup list_lookup].
    replace (ticks w + 1 + 3 * 0)%nat with (S (ticks w)) by lia. reflexivity.
  - cbn [length] in Hi.
    destruct (IH Hrest w1 i ltac:(lia)) as (hdr & Hi').
    rewrite Hrs in Hi'. cbn [fst] in Hi'.
    exists hdr.
    change (rs !! i = Some (Some (httpserver.mkResponse 200 hdr
      [gin.PJSON (health_body h (clock w (ticks w + 1 + 3 * S i)%nat))]))).
    rewrite Hi', Hc, Ht.
    replace (ticks w + 1 + 3 * S i)%nat with (3 + ticks w + 1 + 3 * i)%nat by lia.
    reflexivity.
Qed.

Lemma serve_length (s : httpserver.Server) (reqs : list gin.Request) (w : World) :
  length (fst (httpserver.serve s reqs w)) = length reqs.
Proof.
  revert w. induction reqs as [|req rest IH]; intros w; [reflexivity|].
  cbn [httpserver.serve]. destruct (httpserver.ServeHTTP s req w) as [r w1].
  specialize (IH w1). destruct (httpserver.serve s rest w1) as [rs w2].
  cbn [fst length] in *. now rewrite IH.
Qed.

(** On a monotonic clock the uptime computed from a later reading is not
    smaller. *)
Lemma uptime_monotone (clk : nat -> time.Time) (start j k : nat) :
  monotonic_clock clk -> (j <= k)%nat ->
  (time.Seconds (time.Sub (clk j) (clk start))
   <= time.Seconds (time.Sub (clk k) (clk start)))%Q.
Proof.
  intros (m & Hm & Hr & Hle) Hjk.
  apply Seconds_monotone.
  apply (Sub_monotone _ _ _ (m j) (m k) (m start)); auto.
Qed.

(** C4. A server built by [New] keeps the clock reading of its construction
    as the startup instant of its health handler.  For every sequence of
    calls to [GET /health] served one after the other, at any later point of
    the process, on a clock with monotonic readings: every call is answered
    with status 200, status ["healthy"] and the version of the settings the
    server was built from; every [uptime_seconds] is computed from that same
    startup instant, the reading at construction; and the [uptime_seconds] of
    a later call is not smaller than that of an earlier one. *)
Theorem health_repeated (container : dependencies.Container) (s : httpserver.Server)
        (w0 w1 w : World) (reqs : list gin.Request) :
  httpserver.New container w0 = Returned s w1 ->
  monotonic_clock (clock w0) ->
  clock w = clock w0 -> (ticks w0 <= ticks w)%nat ->
  forallb is_health reqs = true ->
  exists cfg,
    dependencies.Config container = Some cfg
    /\ length (fst (httpserver.serve s reqs w)) = length reqs
    /\ (forall i, (i < length reqs)%nat ->
        exists r,
          fst (httpserver.serve s reqs w) !! i = Some (Some r)
          /\ httpserver.StatusCode r = 200
          /\ response_member "status" r = Some (gin.JString "healthy")
          /\ response_member "version" r = Some (gin.JString (config.AppVersion cfg))
          /\ response_member "uptime_seconds" r
             = Some (gin.JNumber
                       (time.Seconds
                          (time.Sub (clock w0 (ticks w + 1 + 3 * i)%nat)
                                    (clock w0 (ticks w0))))))
    /\ (forall i j ri rj qi qj,
        (i <= j)%nat ->
        fst (httpserver.serve s reqs w) !! i = Some (Some ri) ->
        fst (httpserver.serve s reqs w) !! j = Some (Some rj) ->
        response_member "uptime_seconds" ri = Some (gin.JNumber qi) ->
        response_member "uptime_seconds" rj = Some (gin.JNumber qj) ->
        (qi <= qj)%Q).
Proof.
  intros HN Hmono Hclock Hticks Hall.
  rewrite New_eq in HN.
  destruct (dependencies.Config container) as [cfg|]; [|discriminate].
  injection HN as <- _. exists cfg. split; [reflexivity|].
  split; [apply serve_length|].
  set (h := handlers.mkHealthHandler (clock w0 (ticks w0)) (config.AppVersion cfg)).
  set (s := httpserver.mkServer (server_router (dependencies.Logger container) h)
                                container).
  assert (forall i, (i < length reqs)%nat ->
          exists r,
            fst (httpserver.serve s reqs w) !! i = Some (Some r)
            /\ httpserver.StatusCode r = 200
            /\ response_member "status" r = Some (gin.JString "healthy")
            /\ response_member "version" r = Some (gin.JString (config.AppVersion cfg))
            /\ response_member "uptime_seconds" r
               = Some (gin.JNumber
                         (time.Seconds
                            (time.Sub (clock w0 (ticks w + 1 + 3 * i)%nat)
                                      (clock w0 (ticks w0)))))) as Hresp.
  { intros i Hi.
    destruct (serve_health (dependencies.Logger container) h container reqs Hall w i Hi)
      as (hdr & Hr).
    eexists. split; [exact Hr|]. rewrite Hclock.
    split; [reflexivity|]. split; [reflexivity|]. split; reflexivity. }
  split; [exact Hresp|].
  intros i j ri rj qi qj Hij Hi Hj Hqi Hqj.
  assert (i < length reqs)%nat as Hli
      by (rewrite <- (serve_length s reqs w); eapply lookup_lt_Some; exact Hi).
  assert (j < length reqs)%nat as Hlj
      by (rewrite <- (serve_length s reqs w); eapply lookup_lt_Some; exact Hj).
  destruct (Hresp i Hli) as (ri' & Hi' & _ & _ & _ & Hui).
  destruct (Hresp j Hlj) as (rj' & Hj' & _ & _ & _ & Huj).
  rewrite Hi in Hi'. injection Hi' as <-.
  rewrite Hj in Hj'. injection Hj' as <-.
  rewrite Hqi in Hui. injection Hui as ->.
  rewrite Hqj in Huj. injection Huj as ->.
  apply uptime_monotone; [assumption | lia].
Qed.

Lemma health_repeated_witness :
  exists r1 r2 q1 q2,
    fst (httpserver.serve sample_Server [sample_request; sample_request]
                          (snd (Now sample_World)))
    = [Some r1; Some r2]
    /\ response_member "uptime_seconds" r1 = Some (gin.JNumber q1)
    /\ response_member "uptime_seconds" r2 = Some (gin.JNumber q2)
    /\ (q1 <= q2)%Q.
Proof.
  destruct (health_repeated sample_Container sample_Server sample_World
                            (snd (Now sample_World)) (snd (Now sample_World))
                            [sample_request; sample_request]
                            eq_refl sample_clock_monotonic eq_refl
                            (le_S _ _ (le_n _)) eq_refl)
    as (cfg & _ & Hlen & Hresp & Hord).
  destruct (Hresp 0%nat ltac:(cbn; lia)) as (r1 & H1 & _ & _ & _ & U1).
  destruct (Hresp 1%nat ltac:(cbn; lia)) as (r2 & H2 & _ & _ & _ & U2).
  exists r1, r2. eexists _, _.
  split; [|split; [exact U1 | split; [exact U2|]]].
  - destruct (fst (httpserver.serve sample_Server [sample_request; sample_request]
                                    (snd (Now sample_World)))) as [|a [|b [|x l]]];
      try discriminate Hlen.
    cbn in H1, H2. congruence.
  - exact (Hord 0%nat 1%nat r1 r2 _ _ (le_S _ _ (le_n _)) H1 H2 U1 U2).
Defined.

(** ** Further properties of [config.Load] and [config.Validate] *)

(** [Load] reads the environment and the file through the seven keys only. *)
Lemma Unmarshal_ext (e1 e2 : gmap string string) (d1 d2 : option (gmap string string)) :
  (forall k, In k config_keys -> effective e1 d1 k = effective e2 d2 k) ->
  config.Unmarshal e1 (Load_viper d1) = config.Unmarshal e2 (Load_viper d2).
Proof.
  intros H. unfold config.Unmarshal, config.field_bool, config.field_int,
              config.field_string.
  rewrite !Load_settings by (simpl; tauto).
  rewrite !H by (simpl; tauto). reflexivity.
Qed.

Lemma Load_ext (CaseRanges : list unicode.CaseRange) (e1 e2 : gmap string string)
      (d1 d2 : option (gmap string string)) :
  (forall k, In k config_keys -> effective e1 d1 k = effective e2 d2 k) ->
  config.Load CaseRanges e1 d1 = config.Load CaseRanges e2 d2.
Proof. intros H. rewrite !Load_eq, (Unmarshal_ext e1 e2 d1 d2 H). reflexivity. Qed.



(** The defaults and the file behind [effective]. *)
Lemma effective_eq (environ : gmap string string) (dotenv : option (gmap string string))
      (key : string) :
  effective environ dotenv key
  = match viper.getEnv environ key with
    | Some s => Some (viper.VString s)
    | None =>
      match (match dotenv with Some file => file !! key | None => None end) with
      | Some s => Some (viper.VString s)
      | None => viper.defaults (Load_viper None) !! key
      end
    end.
Proof.
  unfold effective, viper.find.
  destruct dotenv as [file|]; cbn [Load_viper viper.automaticEnvApplied viper.AutomaticEnv
                                   viper.ReadInConfig fst viper.config viper.defaults];
    destruct (viper.getEnv environ key); try reflexivity.
  rewrite lookup_fmap. destruct (file !! key); reflexivity.
Qed.

(** X2. [Load] reads the environment and the [.env] file through the seven
    keys of the settings only.  A variable other than the seven changes
    what [Load] returns only through the file: the env codec expands [$VAR]
    from the environment, so the decoded file may differ, [dotenv'] after the
    change and [dotenv] before.  For files whose keys are written in upper
    case (letters, digits and underscores), when the two agree on the seven
    keys, [Load] returns the same. *)
Theorem Load_other_variable (CaseRanges : list unicode.CaseRange)
        (environ : gmap string string) (dotenv dotenv' : option (gmap string string))
        (k v : string) :
  ~ In k config_keys ->
  upper_keys dotenv = true -> upper_keys dotenv' = true ->
  (forall key, In key config_keys -> file_value dotenv' key = file_value dotenv key) ->
  config.Load CaseRanges (<[k := v]> environ) dotenv'
  = config.Load CaseRanges environ dotenv.
Proof.
  intros Hk _ _ Hfile. apply Load_ext. intros k' Hk'.
  rewrite !effective_eq.
  fold (file_value dotenv' k'). fold (file_value dotenv k').
  rewrite (Hfile k' Hk').
  unfold viper.getEnv. rewrite lookup_insert_ne; [reflexivity|].
  intros ->. contradiction.
Qed.

Lemma Load_other_variable_witness :
  config.Load [] (<["USER" := "bob"]> ∅)
              (Some {[ "HOST" := "localhost"; "GREETING" := "hello bob" ]})
  = config.Load [] ∅ (Some {[ "HOST" := "localhost"; "GREETING" := "hello " ]}).
Proof.
  apply Load_other_variable.
  - unfold config_keys. intros [H|[H|[H|[H|[H|[H|[H|[]]]]]]]]; discriminate H.
  - vm_compute. reflexivity.
  - vm_compute. reflexivity.
  - unfold config_keys. intros key [<-|[<-|[<-|[<-|[<-|[<-|[<-|[]]]]]]]];
      vm_compute; reflexivity.
Defined.

Lemma field_string_setting (environ : gmap string string)
      (dotenv : option (gmap string string)) (key default : string) :
  In key config_keys ->
  viper.defaults (Load_viper None) !! key = Some (viper.VString default) ->
  config.field_string (viper.AllSettings environ (Load_viper dotenv)) key
  = setting environ dotenv key default.
Proof.
  intros Hk Hd. unfold config.field_string, setting.
  rewrite Load_settings by assumption. rewrite effective_eq, Hd.
  destruct (viper.getEnv environ key); [reflexivity|].
  destruct dotenv as [file|]; [destruct (file !! key)|]; reflexivity.
Qed.

(** What [Unmarshal] decodes for the string settings. *)
Lemma Unmarshal_strings (environ : gmap string string)
      (dotenv : option (gmap string string)) (cfg : config.Config) :
  config.Unmarshal environ (Load_viper dotenv) = inr cfg ->
  config.AppName cfg = setting environ dotenv "APP_NAME" "CHANGE_ME"
  /\ config.AppVersion cfg = setting environ dotenv "APP_VERSION" "0.1.0"
  /\ config.Host cfg = setting environ dotenv "HOST" "0.0.0.0"
  /\ config.LogLevel cfg = setting environ dotenv "LOG_LEVEL" "INFO"
  /\ config.LogFormat cfg = setting environ dotenv "LOG_FORMAT" "json".
Proof.
  unfold config.Unmarshal.
  destruct (config.field_bool _ "DEBUG") as [debug|];
    destruct (config.field_int _ "PORT") as [port|]; try discriminate.
  intros [= <-]. cbn [config.AppName config.AppVersion config.Host config.LogLevel
                      config.LogFormat].
  rewrite !(field_string_setting environ dotenv _ _) by (first [simpl; tauto | reflexivity]).
  repeat apply conj; reflexivity.
Qed.

(** X3. The precedence the comment of [Load] promises, for the string
    settings and a [.env] file whose keys are written in upper case
    (letters, digits and underscores): in the
    settings [Load] returns, the name, the version, the host and the log
    format are the value of the environment variable when it is set and not
    empty, otherwise the value the decoded file has for the key, otherwise
    the default; the log level is that value in upper case. *)
Theorem Load_precedence (CaseRanges : list unicode.CaseRange)
        (environ : gmap string string) (dotenv : option (gmap string string))
        (cfg : config.Config) :
  upper_keys dotenv = true ->
  config.Load CaseRanges environ dotenv = inr cfg ->
  config.AppName cfg = setting environ dotenv "APP_NAME" "CHANGE_ME"
  /\ config.AppVersion cfg = setting environ dotenv "APP_VERSION" "0.1.0"
  /\ config.Host cfg = setting environ dotenv "HOST" "0.0.0.0"
  /\ config.LogFormat cfg = setting environ dotenv "LOG_FORMAT" "json"
  /\ config.LogLevel cfg
     = strings.ToUpper CaseRanges (setting environ dotenv "LOG_LEVEL" "INFO").
Proof.
  intros _. rewrite Load_eq.
  destruct (config.Unmarshal environ (Load_viper dotenv)) as [keys|c] eqn:Hu;
    [discriminate|].
  destruct (Unmarshal_strings environ dotenv c Hu) as (H1 & H2 & H3 & H4 & H5).
  unfold normalize_validate. destruct (config.Validate _); [|discriminate].
  intros [= <-]. cbn [config.set_LogLevel config.AppName config.AppVersion config.Host
                      config.LogLevel config.LogFormat].
  rewrite H1, H2, H3, H4, H5. repeat apply conj; reflexivity.
Qed.

Lemma Load_precedence_witness :
  exists cfg,
    config.Load [] {[ "HOST" := "127.0.0.1"; "APP_NAME" := "" ]}
                (Some {[ "APP_NAME" := "Test Server"; "HOST" := "localhost" ]})
    = inr cfg
    /\ config.AppName cfg = "Test Server"
    /\ config.Host cfg = "127.0.0.1"
    /\ config.AppVersion cfg = "0.1.0".
Proof.
  destruct (config.Load [] {[ "HOST" := "127.0.0.1"; "APP_NAME" := "" ]}
              (Some {[ "APP_NAME" := "Test Server"; "HOST" := "localhost" ]}))
    as [e|cfg] eqn:HL; [vm_compute in HL; discriminate HL|].
  exists cfg. split; [reflexivity|].
  assert (upper_keys (Some {[ "APP_NAME" := "Test Server"; "HOST" := "localhost" ]})
          = true) as Hk by (vm_compute; reflexivity).
  destruct (Load_precedence _ _ _ _ Hk HL) as (H1 & H2 & H3 & _).
  rewrite H1, H2, H3. vm_compute. repeat apply conj; reflexivity.
Defined.

(** ** What [Validate] accepts *)

Lemma field_error_required (name s : string) :
  field_error name (validator.FString s) [validator.required] = [] <-> s <> "".
Proof.
  unfold field_error. cbn [validator.first_failure validator.holds].
  destruct (String.eqb_spec s "") as [->|Hne]; cbn [negb]; split; intros H;
    try reflexivity; try discriminate; try assumption.
  now contradiction H.
Qed.

Lemma Port_first_failure (p : Z) :
  validator.first_failure Port_rules (validator.FInt p)
  = if p =? 0 then Some "required"
    else if p <? 1 then Some "min"
    else if 65535 <? p then Some "max" else None.
Proof.
  unfold Port_rules. cbn [validator.first_failure validator.holds validator.tag_of].
  destruct (Z.eqb_spec p 0); cbn [negb]; [reflexivity|].
  destruct (Z.leb_spec 1 p), (Z.ltb_spec p 1); try lia; [|reflexivity].
  destruct (Z.leb_spec p 65535), (Z.ltb_spec 65535 p); try lia; reflexivity.
Qed.

Lemma field_error_Port (p : Z) :
  field_error "Port" (validator.FInt p) Port_rules = [] <-> 1 <= p <= 65535.
Proof.
  unfold field_error. rewrite Port_first_failure.
  destruct (Z.eqb_spec p 0); [split; [discriminate | lia]|].
  destruct (Z.ltb_spec p 1); [split; [discriminate | lia]|].
  destruct (Z.ltb_spec 65535 p); [split; [discriminate | lia]|].
  split; [lia | reflexivity].
Qed.

Lemma oneof_first_failure (vals : list string) (s : string) :
  validator.first_failure [validator.required; validator.oneof vals] (validator.FString s)
  = if String.eqb s "" then Some "required"
    else if string_in s vals then None else Some "oneof".
Proof.
  cbn [validator.first_failure validator.holds validator.tag_of].
  destruct (String.eqb s ""); cbn [negb]; [reflexivity|].
  destruct (string_in s vals); reflexivity.
Qed.

Lemma field_error_oneof (name : string) (vals : list string) (s : string) :
  ~ In "" vals ->
  field_error name (validator.FString s) [validator.required; validator.oneof vals] = []
  <-> In s vals.
Proof.
  intros Hv. unfold field_error. rewrite oneof_first_failure.
  destruct (String.eqb_spec s "") as [->|Hne].
  - split; [discriminate | contradiction].
  - destruct (string_in s vals) eqn:E.
    + apply string_in_In in E. tauto.
    + split; [discriminate|]. intros Hin. apply string_in_In in Hin. congruence.
Qed.

Lemma Validate_fields_accepts (cfg : config.Config) :
  config.Validate cfg = [] ->
  config.AppName cfg <> "" /\ config.AppVersion cfg <> "" /\ config.Host cfg <> ""
  /\ 1 <= config.Port cfg <= 65535
  /\ In (config.LogLevel cfg) config.LogLevel_names
  /\ In (config.LogFormat cfg) ["json"; "text"].
Proof.
  rewrite Validate_fields.
  rewrite !app_nil.
  rewrite !field_error_required, field_error_Port.
  unfold LogLevel_rules.
  rewrite !field_error_oneof
    by (cbn; intros H; repeat destruct H as [H|H]; try discriminate H; exact H).
  tauto.
Qed.

(** X4. [Validate] accepts a settings record exactly when its name, version
    and host are not empty, its port lies from 1 to 65535, its log level is
    one of the five upper-case names and its log format is json or text;
    [Debug] is free. *)
Theorem Validate_accepts (cfg : config.Config) :
  config.Validate cfg = []
  <-> (config.AppName cfg <> "" /\ config.AppVersion cfg <> "" /\ config.Host cfg <> ""
       /\ 1 <= config.Port cfg <= 65535
       /\ In (config.LogLevel cfg) config.LogLevel_names
       /\ In (config.LogFormat cfg) ["json"; "text"]).
Proof.
  rewrite Validate_fields.
  rewrite !app_nil.
  rewrite !field_error_required, field_error_Port.
  unfold LogLevel_rules.
  rewrite !field_error_oneof
    by (cbn; intros H; repeat destruct H as [H|H]; try discriminate H; exact H).
  tauto.
Qed.

(** X5. The settings [Load] returns are valid: the name, the version and the
    host are not empty, the port lies from 1 to 65535, the log level is one
    of DEBUG, INFO, WARNING, ERROR, CRITICAL and the log format is json or
    text. *)
Theorem Load_result_valid (CaseRanges : list unicode.CaseRange)
        (environ : gmap string string) (dotenv : option (gmap string string))
        (cfg : config.Config) :
  config.Load CaseRanges environ dotenv = inr cfg ->
  config.AppName cfg <> "" /\ config.AppVersion cfg <> "" /\ config.Host cfg <> ""
  /\ 1 <= config.Port cfg <= 65535
  /\ In (config.LogLevel cfg) config.LogLevel_names
  /\ In (config.LogFormat cfg) ["json"; "text"].
Proof.
  intros HL. apply Validate_fields_accepts. eapply Load_valid. exact HL.
Qed.

Lemma Load_result_valid_witness :
  config.AppName default_Config <> "" /\ config.AppVersion default_Config <> ""
  /\ config.Host default_Config <> ""
  /\ 1 <= config.Port default_Config <= 65535
  /\ In (config.LogLevel default_Config) config.LogLevel_names
  /\ In (config.LogFormat default_Config) ["json"; "text"].
Proof.
  apply (Load_result_valid [] ∅ None default_Config). vm_compute. reflexivity.
Defined.

(** X6. Which rule a port fails: in a record that is valid otherwise, port 0
    fails [required] (it is the zero value), a negative port fails [min],
    a port above 65535 fails [max], and these are the only errors. *)
Theorem Validate_port_tag (cfg : config.Config) (p : Z) :
  config.Validate cfg = [] ->
  config.Validate (config.set_Port p cfg)
  = if p =? 0 then [validator.mkFieldError "Port" "required"]
    else if p <? 1 then [validator.mkFieldError "Port" "min"]
    else if 65535 <? p then [validator.mkFieldError "Port" "max"]
    else [].
Proof.
  rewrite !Validate_fields. rewrite !app_nil.
  intros (H1 & H2 & H3 & _ & H5 & H6).
  cbn [config.set_Port config.AppName config.AppVersion config.Host config.Port
       config.LogLevel config.LogFormat].
  rewrite H1, H2, H3, H5, H6. cbn [app]. rewrite app_nil_r.
  unfold field_error. rewrite Port_first_failure.
  destruct (p =? 0); [reflexivity|].
  destruct (p <? 1); [reflexivity|].
  destruct (65535 <? p); reflexivity.
Qed.

Lemma Validate_port_tag_witness :
  config.Validate (config.set_Port (-1) default_Config)
  = [validator.mkFieldError "Port" "min"]
  /\ config.Validate (config.set_Port 70000 default_Config)
     = [validator.mkFieldError "Port" "max"].
Proof.
  split.
  - apply (Validate_port_tag default_Config (-1)). reflexivity.
  - apply (Validate_port_tag default_Config 70000). reflexivity.
Defined.

(** ** The log format *)

Lemma Unmarshal_insert_format (environ : gmap string string)
      (dotenv : option (gmap string string)) (s : string) :
  s <> "" ->
  config.Unmarshal (<["LOG_FORMAT" := s]> environ) (Load_viper dotenv)
  = match config.Unmarshal environ (Load_viper dotenv) with
    | inl keys => inl keys
    | inr cfg => inr (set_LogFormat s cfg)
    end.
Proof.
  intros Hs. unfold config.Unmarshal, config.field_bool, config.field_int, config.field_string.
  rewrite !Load_settings by (simpl; tauto).
  rewrite !effective_insert_eq by assumption.
  rewrite !(effective_insert_ne _ _ "LOG_FORMAT") by discriminate.
  destruct (match effective environ dotenv "DEBUG" with
            | Some data => mapstructure.decodeBool data
            | None => Some false
            end) as [debug|];
    destruct (match effective environ dotenv "PORT" with
              | Some data => mapstructure.decodeInt data
              | None => Some 0
              end) as [port|]; reflexivity.
Qed.

Lemma normalize_validate_format (CaseRanges : list unicode.CaseRange)
      (cfg cfg0 : config.Config) (f0 f : string) :
  normalize_validate CaseRanges (set_LogFormat f0 cfg) = inr cfg0 ->
  normalize_validate CaseRanges (set_LogFormat f cfg)
  = match validator.first_failure LogFormat_rules (validator.FString f) with
    | None => inr (set_LogFormat f cfg0)
    | Some tag => inl (config.ErrValidation [validator.mkFieldError "LogFormat" tag])
    end.
Proof.
  unfold normalize_validate. rewrite !Validate_fields.
  cbn [config.set_LogLevel set_LogFormat
       config.AppName config.AppVersion config.Host config.Port config.LogLevel
       config.LogFormat].
  destruct (field_error "AppName" _ _); [|discriminate].
  destruct (field_error "AppVersion" _ _); [|discriminate].
  destruct (field_error "Host" _ _); [|discriminate].
  destruct (field_error "Port" _ _); [|discriminate].
  destruct (field_error "LogLevel" _ _); [|discriminate].
  destruct (field_error "LogFormat" (validator.FString f0) _); [|discriminate].
  cbn [app]. intros [= <-]. unfold field_error, LogFormat_rules.
  destruct (validator.first_failure _ (validator.FString f)); reflexivity.
Qed.

(** X7. The log format is not normalised.  Other settings being valid (here:
    [Load] succeeds with LOG_FORMAT set to json), [Load] succeeds with
    LOG_FORMAT set to text and returns the same settings with that format,
    and for every other value of the variable that is not empty (JSON in
    upper case is one) it returns the validation error of the field
    LogFormat, rule [oneof]. *)
Theorem Load_log_format (CaseRanges : list unicode.CaseRange)
        (environ : gmap string string) (dotenv : option (gmap string string))
        (cfg0 : config.Config) :
  config.Load CaseRanges (<["LOG_FORMAT" := "json"]> environ) dotenv = inr cfg0 ->
  config.Load CaseRanges (<["LOG_FORMAT" := "text"]> environ) dotenv
  = inr (set_LogFormat "text" cfg0)
  /\ (forall s, s <> "" -> s <> "json" -> s <> "text" ->
      config.Load CaseRanges (<["LOG_FORMAT" := s]> environ) dotenv
      = inl (config.ErrValidation [validator.mkFieldError "LogFormat" "oneof"])).
Proof.
  intros H0. rewrite Load_eq, Unmarshal_insert_format in H0 by discriminate.
  destruct (config.Unmarshal environ (Load_viper dotenv)) as [keys|cfg] eqn:Hu;
    [discriminate|].
  assert (forall s, s <> "" ->
          config.Load CaseRanges (<["LOG_FORMAT" := s]> environ) dotenv
          = match validator.first_failure LogFormat_rules (validator.FString s) with
            | None => inr (set_LogFormat s cfg0)
            | Some tag =>
              inl (config.ErrValidation [validator.mkFieldError "LogFormat" tag])
            end) as HL.
  { intros s Hs. rewrite Load_eq, Unmarshal_insert_format, Hu by assumption.
    now apply (normalize_validate_format CaseRanges cfg cfg0 "json"). }
  split.
  - rewrite HL by discriminate. reflexivity.
  - intros s Hs Hj Ht. rewrite HL by assumption.
    unfold LogFormat_rules. rewrite oneof_first_failure.
    destruct (String.eqb_spec s ""); [contradiction|].
    unfold string_in. cbn [existsb].
    destruct (String.eqb_spec s "json"); [contradiction|].
    destruct (String.eqb_spec s "text"); [contradiction|]. reflexivity.
Qed.

Lemma Load_log_format_witness :
  config.Load [] (<["LOG_FORMAT" := "text"]> ∅) None
  = inr (set_LogFormat "text" default_Config)
  /\ config.Load [] (<["LOG_FORMAT" := "JSON"]> ∅) None
     = inl (config.ErrValidation [validator.mkFieldError "LogFormat" "oneof"]).
Proof.
  destruct (Load_log_format [] ∅ None default_Config) as [H1 H2];
    [vm_compute; reflexivity|].
  split; [exact H1|]. apply H2; discriminate.
Defined.

(** ** Values that do not decode *)

Lemma Unmarshal_port_fails (environ : gmap string string)
      (dotenv : option (gmap string string)) (s : string) :
  s <> "" -> mapstructure.decodeInt (viper.VString s) = None ->
  exists keys,
    config.Unmarshal (<["PORT" := s]> environ) (Load_viper dotenv) = inl keys
    /\ In "PORT" keys.
Proof.
  intros Hs Hd. unfold config.Unmarshal, config.field_bool, config.field_int.
  rewrite !Load_settings by (simpl; tauto).
  rewrite effective_insert_eq by assumption. rewrite Hd.
  destruct (match effective _ dotenv "DEBUG" with
            | Some data => mapstructure.decodeBool data
            | None => Some false
            end) as [debug|]; eexists; (split; [reflexivity|]); simpl; tauto.
Qed.

Lemma Unmarshal_debug_fails (environ : gmap string string)
      (dotenv : option (gmap string string)) (s : string) :
  s <> "" -> mapstructure.decodeBool (viper.VString s) = None ->
  exists keys,
    config.Unmarshal (<["DEBUG" := s]> environ) (Load_viper dotenv) = inl keys
    /\ In "DEBUG" keys.
Proof.
  intros Hs Hd. unfold config.Unmarshal, config.field_bool, config.field_int.
  rewrite !Load_settings by (simpl; tauto).
  rewrite effective_insert_eq by assumption. rewrite Hd.
  destruct (match effective _ dotenv "PORT" with
            | Some data => mapstructure.decodeInt data
            | None => Some 0
            end) as [port|]; eexists; (split; [reflexivity|]); simpl; tauto.
Qed.

(** X8. A value that does not decode fails before validation: when PORT is
    set to text that [strconv.ParseInt] does not read as a 64-bit integer,
    or DEBUG to text that [strconv.ParseBool] does not read, [Load] returns
    the error of [Unmarshal], which names the key, whatever the other
    settings are. *)
Theorem Load_undecodable (CaseRanges : list unicode.CaseRange)
        (environ : gmap string string) (dotenv : option (gmap string string))
        (s : string) :
  s <> "" ->
  (forall e, strconv.ParseInt s 64 = inl e ->
   exists keys,
     config.Load CaseRanges (<["PORT" := s]> environ) dotenv
     = inl (config.ErrUnmarshal keys) /\ In "PORT" keys)
  /\ (strconv.ParseBool s = None ->
      exists keys,
        config.Load CaseRanges (<["DEBUG" := s]> environ) dotenv
        = inl (config.ErrUnmarshal keys) /\ In "DEBUG" keys).
Proof.
  intros Hs. split.
  - intros e He.
    destruct (Unmarshal_port_fails environ dotenv s Hs) as (keys & Hu & Hin).
    { cbn [mapstructure.decodeInt].
      destruct (String.eqb_spec s ""); [contradiction|]. now rewrite He. }
    exists keys. rewrite Load_eq, Hu. split; [reflexivity | exact Hin].
  - intros Hb.
    destruct (Unmarshal_debug_fails environ dotenv s Hs) as (keys & Hu & Hin).
    { cbn [mapstructure.decodeBool]. rewrite Hb.
      destruct (String.eqb_spec s ""); [contradiction | reflexivity]. }
    exists keys. rewrite Load_eq, Hu. split; [reflexivity | exact Hin].
Qed.

Lemma Load_undecodable_witness :
  (exists keys,
     config.Load [] (<["PORT" := "80a"]> ∅) None = inl (config.ErrUnmarshal keys)
     /\ In "PORT" keys)
  /\ (exists keys,
        config.Load [] (<["DEBUG" := "yes"]> ∅) None = inl (config.ErrUnmarshal keys)
        /\ In "DEBUG" keys).
Proof.
  destruct (Load_undecodable [] ∅ None "80a") as [H1 _]; [discriminate|].
  destruct (Load_undecodable [] ∅ None "yes") as [_ H2]; [discriminate|].
  split.
  - apply (H1 strconv.ErrSyntax). vm_compute. reflexivity.
  - apply H2. vm_compute. reflexivity.
Defined.

(** ** Further properties of the logger *)

(** [New] builds a logger at the level [parseLevel] gives. *)
Lemma New_builds (level format : string) :
  exists z,
    logger.New (logger.mkConfig level format) = inr (logger.mkLogger (Some z))
    /\ zap.Level (zap.core z) = fst (logger.parseLevel level).
Proof.
  destruct (parseLevel_total level) as [l Hp].
  unfold logger.New. cbn [logger.Level logger.Format]. rewrite Hp.
  destruct (String.eqb format "json"); eexists; split; reflexivity.
Qed.

(** X9. [New] never returns an error: for every level and format it builds
    a logger, which runs at the level [parseLevel] gives and writes ISO 8601
    times.  The format decides between two configurations only: ["json"]
    gives the production configuration (JSON encoding, time under the key
    ["timestamp"]), and every other string, known or not, gives the logger
    that ["text"] gives (console encoding, development mode, coloured
    capital levels). *)
Theorem New_format (level format : string) :
  exists z,
    logger.New (logger.mkConfig level format) = inr (logger.mkLogger (Some z))
    /\ zap.Level (zap.core z) = fst (logger.parseLevel level)
    /\ zap.EncodeTime (zap.core z) = zapcore.ISO8601TimeEncoder
    /\ (if String.eqb format "json"
        then zap.Encoding (zap.core z) = "json"
             /\ zap.TimeKey (zap.core z) = "timestamp"
             /\ zap.Development (zap.core z) = false
        else zap.Encoding (zap.core z) = "console"
             /\ zap.EncodeLevel (zap.core z) = zapcore.CapitalColorLevelEncoder
             /\ zap.Development (zap.core z) = true
             /\ logger.New (logger.mkConfig level format)
                = logger.New (logger.mkConfig level "text")).
Proof.
  destruct (parseLevel_total level) as [l Hp].
  unfold logger.New. cbn [logger.Level logger.Format]. rewrite Hp.
  change ("text" =? "json")%string with false.
  destruct (String.eqb format "json"); eexists; repeat apply conj; reflexivity.
Qed.

(** An info entry passes a logger built for [level] exactly when the level
    is not one of the five names of a higher level. *)
Lemma parseLevel_logs_info (level : string) :
  zapcore.Enabled (fst (logger.parseLevel level)) zapcore.InfoLevel = logs_info level.
Proof.
  unfold logs_info, logger.parseLevel, string_in. cbn [existsb].
  destruct (String.eqb_spec level "DEBUG") as [->|_]; [reflexivity|].
  destruct (String.eqb_spec level "INFO") as [->|_]; [reflexivity|].
  destruct (String.eqb level "WARNING"); [reflexivity|].
  destruct (String.eqb level "WARN"); [reflexivity|].
  destruct (String.eqb level "ERROR"); [reflexivity|].
  destruct (String.eqb level "CRITICAL"); [reflexivity|].
  destruct (String.eqb level "FATAL"); reflexivity.
Qed.

(** [Logger] around a handler that returns, with a logger that is there. *)
Lemma Logger_returns (z : zap.SugaredLogger)
      (next : gin.Context -> World -> gin.result) (c c1 : gin.Context) (w w1 : World) :
  next c (snd (Now w)) = gin.Done c1 w1 ->
  middleware.Logger (Some (logger.mkLogger (Some z))) next c w
  = gin.Done c1
      (if zapcore.Enabled (zap.Level (zap.core z)) zapcore.InfoLevel
       then write_entry (request_entry c1 (clock w (ticks w)) (clock w1 (ticks w1)))
                        (snd (Now w1))
       else snd (Now w1)).
Proof.
  intros Hn. unfold middleware.Logger. cbn [Now fst snd] in *. rewrite Hn.
  unfold logger.Infow, request_entry.
  destruct (zapcore.Enabled _ _); reflexivity.
Qed.

(** X10. The request log is written at the info level, after the rest of
    the chain has returned.  With a logger that [New] built, the middleware
    reads the clock before the chain and again after it, and hands back the
    context the chain left.  The log gains at most one entry, [http_request]
    with the method, the path, the status the chain set, the milliseconds
    between the two readings and the client address.  When the level is
    WARNING, WARN, ERROR, CRITICAL or FATAL nothing is written.  When the
    level lets info entries pass and the format is not json, the entry is
    written; with json the production configuration samples, and the entry
    may be dropped. *)
Theorem Logger_entry (level format : string) (lg : logger.Logger)
        (next : gin.Context -> World -> gin.result) (c c1 : gin.Context) (w w1 : World) :
  logger.New (logger.mkConfig level format) = inr lg ->
  next c (snd (Now w)) = gin.Done c1 w1 ->
  exists w2,
    middleware.Logger (Some lg) next c w = gin.Done c1 w2
    /\ clock w2 = clock w1 /\ (S (ticks w1) <= ticks w2)%nat
    /\ (logged w2 = logged w1
        \/ logged w2
           = (logged w1
              ++ [request_entry c1 (clock w (ticks w)) (clock w1 (ticks w1))])%list)
    /\ (logs_info level = false -> logged w2 = logged w1)
    /\ (logs_info level = true -> format <> "json" ->
        logged w2
        = (logged w1
           ++ [request_entry c1 (clock w (ticks w)) (clock w1 (ticks w1))])%list).
Proof.
  intros HN Hn.
  destruct (New_builds level format) as (z & Hz & Hl).
  rewrite Hz in HN. injection HN as <-.
  rewrite (Logger_returns z next c c1 w w1 Hn), Hl, parseLevel_logs_info.
  eexists. split; [reflexivity|].
  destruct (logs_info level); cbn [write_entry Now snd clock ticks logged].
  - split; [reflexivity|]. split; [apply le_n|]. split; [right; reflexivity|].
    split; [discriminate | reflexivity].
  - split; [reflexivity|]. split; [apply le_n|]. split; [left; reflexivity|].
    split; [reflexivity | discriminate].
Qed.

Lemma Logger_entry_witness :
  exists lg w2,
    logger.New (logger.mkConfig "INFO" "text") = inr lg
    /\ middleware.Logger (Some lg) (fun c w => gin.Done c w)
                         (gin.reset sample_request) sample_World
       = gin.Done (gin.reset sample_request) w2
    /\ logged w2
       = [request_entry (gin.reset sample_request) (sample_clock 0) (sample_clock 1)].
Proof.
  destruct (logger.New (logger.mkConfig "INFO" "text")) as [e|lg] eqn:HN;
    [vm_compute in HN; discriminate HN|].
  destruct (Logger_entry "INFO" "text" lg (fun c w => gin.Done c w)
                         (gin.reset sample_request) (gin.reset sample_request)
                         sample_World (snd (Now sample_World)) HN eq_refl)
    as (w2 & HL & _ & _ & _ & _ & Hlog).
  exists lg, w2. split; [reflexivity|]. split; [exact HL|].
  apply Hlog; [reflexivity | discriminate].
Defined.

(** ** Further properties of the server *)

Lemma append_slash_ne_health (p : string) : (p ++ "/")%string <> "/health".
Proof.
  destruct p as [|a1 [|a2 [|a3 [|a4 [|a5 [|a6 [|a7 p]]]]]]]; cbn; try discriminate.
  destruct p; discriminate.
Qed.

Lemma server_router_tsr (log : option logger.Logger) (h : handlers.HealthHandler)
      (method path : string) :
  gin.tsr (server_router log h) method path
  = String.eqb "GET" method && String.eqb "/health/" path.
Proof.
  unfold gin.tsr. cbn [server_router gin.routes existsb fst snd].
  rewrite orb_false_r.
  destruct (String.eqb_spec "/health" (path ++ "/")) as [E|_].
  - symmetry in E. now apply append_slash_ne_health in E.
  - rewrite orb_false_r. reflexivity.
Qed.

(** A request without a route goes to [serveError] with 404. *)
Lemma handleHTTPRequest_no_route (log : option logger.Logger)
      (h : handlers.HealthHandler) (req : gin.Request) (w : World) :
  no_route req = true ->
  gin.handleHTTPRequest httpserver.call (server_router log h) req w
  = gin.serveError httpserver.call (server_router log h) 404 "404 page not found"
                   (gin.reset req) w.
Proof.
  unfold no_route. intros Hn. unfold gin.handleHTTPRequest.
  rewrite server_router_has_tree, server_router_getValue, server_router_tsr.
  rewrite (String.eqb_sym "GET"), (String.eqb_sym "/health"), (String.eqb_sym "/health/").
  destruct (String.eqb (gin.Method req) "GET"); [|reflexivity].
  cbn [andb negb] in *.
  destruct (String.eqb (gin.Path req) "/health"); [discriminate|].
  destruct (String.eqb (gin.Path req) "/health/"); [discriminate|].
  cbn [andb]. rewrite andb_false_r. reflexivity.
Qed.

(** X11. Requests the router has no route for (every request that is not a
    preflight, not [GET /health] and not [GET /health/]), on a server whose
    logger [New] built: the answer is 404 with gin's plain-text body, and it
    carries the headers of [CORS].  The request goes through the request log
    like any other: the clock is read at least twice, and the log gains at
    most one entry, with status 404 and the milliseconds between the first
    two readings; none when the level is above info, exactly that one when
    the level lets info entries pass and the format is not json (the json
    logger samples). *)
Theorem ServeHTTP_not_found (level format : string) (lg : logger.Logger)
        (h : handlers.HealthHandler) (container : dependencies.Container)
        (req : gin.Request) (w : World) :
  logger.New (logger.mkConfig level format) = inr lg ->
  gin.Method req <> "OPTIONS" ->
  no_route req = true ->
  exists w',
    httpserver.ServeHTTP (httpserver.mkServer (server_router (Some lg) h) container) req w
    = (Some (httpserver.mkResponse 404
               (gin.Header_Set "Content-Type" "text/plain"
                  (CORS_header_map (gin.Get (gin.ReqHeader req) "Origin") ∅))
               [gin.PText "404 page not found"]),
       w')
    /\ clock w' = clock w /\ (2 + ticks w <= ticks w')%nat
    /\ (logged w' = logged w
        \/ logged w'
           = (logged w
              ++ [server_entry req 404 (clock w (ticks w)) (clock w (S (ticks w)))])%list)
    /\ (logs_info level = false -> logged w' = logged w)
    /\ (logs_info level = true -> format <> "json" ->
        logged w'
        = (logged w
           ++ [server_entry req 404 (clock w (ticks w)) (clock w (S (ticks w)))])%list).
Proof.
  intros HN HM Hn.
  destruct (New_builds level format) as (z & Hz & Hl).
  rewrite Hz in HN. injection HN as <-.
  unfold httpserver.ServeHTTP. cbn [httpserver.router].
  rewrite handleHTTPRequest_no_route by assumption.
  unfold gin.serveError. cbn [server_router gin.middleware].
  change (length (noroute_chain _)) with 3%nat.
  rewrite noroute_chain_Next by reflexivity.
  unfold recovery_stage, middleware.Recovery, cors_stage.
  rewrite CORS_eq. cbn zeta. cbn [gin.Req gin.set_index gin.set_Writer gin.reset].
  destruct (String.eqb_spec (gin.Method req) "OPTIONS") as [|_]; [contradiction|].
  rewrite CORS_headers_eq.
  unfold logger_stage.
  erewrite Logger_returns by (unfold nothing_stage; reflexivity).
  rewrite Hl, parseLevel_logs_info.
  cbn [leave gin.set_index gin.index gin.Req gin.Writer gin.written gin.status
       gin.header gin.body gin.set_Writer gin.reset].
  change (404 =? 404) with true. cbv iota.
  eexists. split; [reflexivity|].
  destruct (logs_info level); cbn [write_entry Now snd clock ticks logged].
  - split; [reflexivity|]. split; [apply le_n|]. split; [right; reflexivity|].
    split; [discriminate | reflexivity].
  - split; [reflexivity|]. split; [apply le_n|]. split; [left; reflexivity|].
    split; [reflexivity | discriminate].
Qed.

Lemma ServeHTTP_not_found_witness :
  exists lg w',
    logger.New (logger.mkConfig "INFO" "text") = inr lg
    /\ httpserver.ServeHTTP
         (httpserver.mkServer (server_router (Some lg) sample_HealthHandler)
                              sample_Container)
         (gin.mkRequest "POST" "/health" ∅ "127.0.0.1") sample_World
       = (Some (httpserver.mkResponse 404
                  (gin.Header_Set "Content-Type" "text/plain" (CORS_header_map "" ∅))
                  [gin.PText "404 page not found"]),
          w')
    /\ logged w'
       = [server_entry (gin.mkRequest "POST" "/health" ∅ "127.0.0.1") 404
                       (sample_clock 0) (sample_clock 1)].
Proof.
  destruct (logger.New (logger.mkConfig "INFO" "text")) as [e|lg] eqn:HN;
    [vm_compute in HN; discriminate HN|].
  destruct (ServeHTTP_not_found "INFO" "text" lg sample_HealthHandler
              sample_Container (gin.mkRequest "POST" "/health" ∅ "127.0.0.1")
              sample_World HN)
    as (w' & HS & _ & _ & _ & _ & Hlog); [discriminate | reflexivity |].
  exists lg, w'. split; [reflexivity|]. split; [exact HS|].
  apply Hlog; [reflexivity | discriminate].
Defined.

(** The response of [Check] behind [CORS], as the server sends it. *)
Lemma check_stage_eq (h : handlers.HealthHandler) (req : gin.Request)
      (hdr : gin.Header) (i : Z) (w : World) :
  hdr !! "Content-Type" = None ->
  check_stage h (gin.mkContext req (gin.mkWriter 200 false hdr []) i) w
  = gin.Done
      (gin.mkContext req
         (gin.mkWriter 200 true
            (gin.Header_Set "Content-Type" "application/json; charset=utf-8" hdr)
            [gin.PJSON (health_body h (clock w (ticks w)))])
         4)
      (snd (Now w)).
Proof.
  intros Hct. unfold check_stage, handlers.Check. cbn [Now fst snd].
  unfold gin.JSON, gin.Status, gin.WriteHeader, gin.writeContentType.
  cbn [gin.bodyAllowedForStatus Z.leb Z.eqb Z.ltb Z.compare Pos.compare
       Pos.compare_cont andb negb Pos.eqb gin.set_Writer gin.set_index gin.Writer
       gin.status gin.written gin.header gin.body gin.Req gin.index].
  rewrite Hct. reflexivity.
Qed.

(** X12. [GET /health] on a server whose logger [New] built: the answer is
    200 with the content type of JSON, the headers of [CORS] and the body of
    [Check] for the second clock reading of the request (the middleware
    reads the clock before the handler and again after it, so the clock is
    read at least three times).  The log gains at most one entry, with
    status 200 and the milliseconds between the first and the third
    reading; none when the level is above info, exactly that one when the
    level lets info entries pass and the format is not json (the json
    logger samples). *)
Theorem ServeHTTP_health_logged (level format : string) (lg : logger.Logger)
        (h : handlers.HealthHandler) (container : dependencies.Container)
        (req : gin.Request) (w : World) :
  logger.New (logger.mkConfig level format) = inr lg ->
  is_health req = true ->
  exists w',
    httpserver.ServeHTTP (httpserver.mkServer (server_router (Some lg) h) container) req w
    = (Some (httpserver.mkResponse 200
               (gin.Header_Set "Content-Type" "application/json; charset=utf-8"
                  (CORS_header_map (gin.Get (gin.ReqHeader req) "Origin") ∅))
               [gin.PJSON (health_body h (clock w (S (ticks w))))]),
       w')
    /\ clock w' = clock w /\ (3 + ticks w <= ticks w')%nat
    /\ (logged w' = logged w
        \/ logged w'
           = (logged w
              ++ [server_entry req 200 (clock w (ticks w))
                               (clock w (2 + ticks w)%nat)])%list)
    /\ (logs_info level = false -> logged w' = logged w)
    /\ (logs_info level = true -> format <> "json" ->
        logged w'
        = (logged w
           ++ [server_entry req 200 (clock w (ticks w))
                            (clock w (2 + ticks w)%nat)])%list).
Proof.
  intros HN Hreq.
  destruct (New_builds level format) as (z & Hz & Hl).
  rewrite Hz in HN. injection HN as <-.
  unfold is_health in Hreq. apply andb_true_iff in Hreq as [HM HP].
  apply String.eqb_eq in HM, HP.
  unfold httpserver.ServeHTTP, gin.handleHTTPRequest.
  cbn [httpserver.router].
  rewrite server_router_has_tree, server_router_getValue, HM, HP.
  change ("GET" =? "GET")%string with true.
  change ("/health" =? "/health")%string with true. cbv iota beta. cbn [andb].
  change (length (health_chain _ h)) with 4%nat.
  rewrite health_chain_Next by reflexivity.
  unfold recovery_stage, middleware.Recovery, cors_stage.
  rewrite CORS_eq. cbn zeta. cbn [gin.Req gin.set_index gin.reset]. rewrite HM.
  change ("GET" =? "OPTIONS")%string with false. cbv iota.
  rewrite CORS_headers_eq.
  unfold logger_stage.
  cbn [gin.Req gin.Writer gin.index gin.set_index gin.status gin.written
       gin.header gin.body].
  erewrite Logger_returns
    by (apply check_stage_eq; rewrite CORS_header_map_other;
        [apply lookup_empty | cbn; intros [?|[?|[?|[?|[]]]]]; discriminate]).
  rewrite Hl, parseLevel_logs_info.
  cbn [leave gin.set_index gin.index gin.Req gin.Writer gin.written gin.status
       gin.header gin.body gin.set_Writer gin.WriteHeaderNow Now snd clock ticks].
  eexists. split; [reflexivity|].
  unfold request_entry, server_entry.
  cbn [gin.Req gin.Writer gin.status gin.reset].
  destruct (logs_info level); cbn [write_entry Now snd clock ticks logged].
  - split; [reflexivity|]. split; [apply le_n|]. split; [right; reflexivity|].
    split; [discriminate | reflexivity].
  - split; [reflexivity|]. split; [apply le_n|]. split; [left; reflexivity|].
    split; [reflexivity | discriminate].
Qed.

Lemma ServeHTTP_health_logged_witness :
  exists lg w',
    logger.New (logger.mkConfig "DEBUG" "text") = inr lg
    /\ httpserver.ServeHTTP
         (httpserver.mkServer (server_router (Some lg) sample_HealthHandler)
                              sample_Container)
         sample_request sample_World
       = (Some (httpserver.mkResponse 200
                  (gin.Header_Set "Content-Type" "application/json; charset=utf-8"
                     (CORS_header_map "http://localhost:3000" ∅))
                  [gin.PJSON (health_body sample_HealthHandler (sample_clock 1))]),
          w')
    /\ logged w'
       = [server_entry sample_request 200 (sample_clock 0) (sample_clock 2)].
Proof.
  destruct (logger.New (logger.mkConfig "DEBUG" "text")) as [e|lg] eqn:HN;
    [vm_compute in HN; discriminate HN|].
  destruct (ServeHTTP_health_logged "DEBUG" "text" lg sample_HealthHandler
              sample_Container sample_request sample_World HN eq_refl)
    as (w' & HS & _ & _ & _ & _ & Hlog).
  exists lg, w'. split; [reflexivity|]. split; [exact HS|].
  apply Hlog; [reflexivity | discriminate].
Defined.

(** ** Further properties of the container *)

(** X13. [Close] panics exactly on a container that lacks its client or its
    logger (a nil pointer, or a logger without its zap logger); without a
    logger it panics after the idle connections of the client have been
    closed.  In every other case it returns. *)
Theorem Close_panics (c : dependencies.Container) (w : World) :
  ((exists w', dependencies.Close c w = Panicked w')
   <-> (dependencies.HTTPClient c = None \/ dependencies.Logger c = None
        \/ dependencies.Logger c = Some (logger.mkLogger None)))
  /\ (dependencies.HTTPClient c <> None ->
      dependencies.Logger c = None
      \/ dependencies.Logger c = Some (logger.mkLogger None) ->
      dependencies.Close c w = Panicked (close_idle w)).
Proof.
  destruct c as [cfg lg client]. cbn [dependencies.HTTPClient dependencies.Logger].
  unfold dependencies.Close, dependencies.CloseIdleConnections, logger.Sync.
  cbn [dependencies.HTTPClient dependencies.Logger].
  destruct client as [cl|]; destruct lg as [[[z|]]|]; cbn [flush]; split.
  - split.
    + intros [w' H]. destruct (sync_result _ _); discriminate H.
    + intros [H|[H|H]]; discriminate H.
  - intros _ [H|H]; discriminate H.
  - split; [intros _; right; right; reflexivity | intros _; eexists; reflexivity].
  - intros _ _. reflexivity.
  - split; [intros _; right; left; reflexivity | intros _; eexists; reflexivity].
  - intros _ _. reflexivity.
  - split; [intros _; left; reflexivity | intros _; eexists; reflexivity].
  - intros H. now contradiction H.
  - split; [intros _; left; reflexivity | intros _; eexists; reflexivity].
  - intros H. now contradiction H.
  - split; [intros _; left; reflexivity | intros _; eexists; reflexivity].
  - intros H. now contradiction H.
Qed.

Lemma Close_panics_witness :
  dependencies.Close (dependencies.NewContainer (Some default_Config) None) sample_World
  = Panicked (close_idle sample_World).
Proof.
  apply (proj2 (Close_panics (dependencies.NewContainer (Some default_Config) None)
                             sample_World)).
  - discriminate.
  - left. reflexivity.
Defined.

(** X14. Any number of calls of [Close] on a container built by
    [NewContainer] around a logger that [New] returned: all of them return,
    the [k]-th returns what the [k]-th flush of the log sink returned, and
    after [n] calls the idle connections have been closed [n] times and the
    sink flushed [n] times. *)
Theorem Close_repeated (n : nat) (cfg : option config.Config) (lcfg : logger.Config)
        (lg : logger.Logger) (w : World) :
  logger.New lcfg = inr lg ->
  exists w',
    Close_times n (dependencies.NewContainer cfg (Some lg)) w
    = Returned (map (fun k => sync_result w (syncs w + k)%nat) (seq 0 n)) w'
    /\ syncs w' = (syncs w + n)%nat
    /\ idle_closes w' = (idle_closes w + n)%nat.
Proof.
  intros HN.
  destruct (Close_times_returns n cfg lcfg lg w HN) as (w' & H & Hs & Hc & _).
  exists w'. repeat apply conj; assumption.
Qed.

Lemma Close_repeated_witness :
  exists w',
    Close_times 3 (dependencies.NewContainer None (Some sample_Logger)) sample_World
    = Returned (map (fun k => sync_result sample_World (syncs sample_World + k)%nat)
                    (seq 0 3)) w'
    /\ syncs w' = (syncs sample_World + 3)%nat
    /\ idle_closes w' = (idle_closes sample_World + 3)%nat.
Proof.
  exact (Close_repeated 3 None (logger.mkConfig "INFO" "json") sample_Logger
                        sample_World eq_refl).
Defined.

(** ** The injector *)

Lemma parseLevel_name (name : string) :
  In name config.LogLevel_names ->
  logger.parseLevel name = (level_of_name name, None).
Proof.
  unfold config.LogLevel_names.
  intros [<-|[<-|[<-|[<-|[<-|[]]]]]]; reflexivity.
Qed.

(** X15. The injector composes [Load], [provideLogger] and [NewContainer]:
    it fails exactly when [Load] fails, with that error; when [Load] returns
    settings, the container holds these settings, a logger at the level of
    their LogLevel (WARNING is zap's warn, CRITICAL its fatal) in the
    encoding of their LogFormat, and the HTTP client; such a container
    closes without a panic and [New] builds a server from it. *)
Theorem InitializeContainer_complete (CaseRanges : list unicode.CaseRange)
        (environ : gmap string string) (dotenv : option (gmap string string)) :
  match config.Load CaseRanges environ dotenv with
  | inl e => InitializeContainer CaseRanges environ dotenv = inl (ErrLoad e)
  | inr cfg =>
    exists z container,
      InitializeContainer CaseRanges environ dotenv = inr container
      /\ dependencies.Config container = Some cfg
      /\ dependencies.Logger container = Some (logger.mkLogger (Some z))
      /\ zap.Level (zap.core z) = level_of_name (config.LogLevel cfg)
      /\ zap.Encoding (zap.core z)
         = (if String.eqb (config.LogFormat cfg) "json" then "json" else "console")
      /\ dependencies.HTTPClient container
         = Some (dependencies.mkClient (30 * time.Second)
                   (Some (dependencies.mkTransport 10 10 (90 * time.Second))))
      /\ (forall w, exists err w', dependencies.Close container w = Returned err w')
      /\ (forall w, exists s w', httpserver.New container w = Returned s w')
  end.
Proof.
  unfold InitializeContainer.
  destruct (config.Load CaseRanges environ dotenv) as [e|cfg] eqn:HL; [reflexivity|].
  apply Load_valid, Validate_fields_accepts in HL.
  destruct HL as (_ & _ & _ & _ & Hlevel & _).
  unfold dependencies.provideLogger, logger.New. cbn [logger.Level logger.Format].
  rewrite (parseLevel_name _ Hlevel).
  destruct (String.eqb (config.LogFormat cfg) "json");
    cbn [zap.Build zap.Encoding logger.set_Level logger.set_EncodeTime logger.set_TimeKey
         logger.set_EncodeLevel zap.NewProductionConfig zap.NewDevelopmentConfig
         string_in existsb String.eqb Ascii.eqb Bool.eqb orb];
    (eexists _, _; split; [reflexivity|];
     repeat apply conj; try reflexivity;
     [ intros w; unfold dependencies.Close; cbn;
       destruct (sync_result w (syncs w)); eexists _, _; reflexivity
     | intros w; rewrite New_eq; cbn [dependencies.NewContainer dependencies.Config];
       eexists _, _; reflexivity ]).
Qed.

(** ** The test fixtures *)

Lemma provided_option_keeps (opt : config.Config -> config.Config) (c : config.Config) :
  provided_option opt ->
  config.AppVersion (opt c) = config.AppVersion c
  /\ config.Host (opt c) = config.Host c
  /\ config.LogFormat (opt c) = config.LogFormat c.
Proof. intros []; repeat apply conj; reflexivity. Qed.

Lemma fold_provided_options (opts : list (config.Config -> config.Config))
      (c : config.Config) :
  Forall provided_option opts ->
  config.AppVersion (fold_left (fun cfg opt => opt cfg) opts c) = config.AppVersion c
  /\ config.Host (fold_left (fun cfg opt => opt cfg) opts c) = config.Host c
  /\ config.LogFormat (fold_left (fun cfg opt => opt cfg) opts c) = config.LogFormat c.
Proof.
  intros H. revert c. induction H as [|opt opts Ho _ IH]; intros c.
  - repeat apply conj; reflexivity.
  - cbn [fold_left]. destruct (IH (opt c)) as (H1 & H2 & H3).
    destruct (provided_option_keeps opt c Ho) as (K1 & K2 & K3).
    rewrite H1, H2, H3, K1, K2, K3. repeat apply conj; reflexivity.
Qed.

Lemma fold_keeps_Port (opts : list (config.Config -> config.Config))
      (c : config.Config) :
  Forall keeps_Port opts ->
  config.Port (fold_left (fun cfg opt => opt cfg) opts c) = config.Port c.
Proof.
  intros H. revert c. induction H as [|opt opts Ho _ IH]; intros c; [reflexivity|].
  cbn [fold_left]. now rewrite IH, Ho.
Qed.

(** X16. [NewTestConfig] applies its options in the order given, so the last
    option that sets a field decides it: with [WithPort p] followed only by
    options that leave the port alone, the port is [p], whatever came
    before.  The options of the package never touch the version, the host
    and the log format, which stay at the fixture's 0.1.0, 127.0.0.1 and
    json. *)
Theorem NewTestConfig_options (before after : list (config.Config -> config.Config))
        (p : Z) :
  Forall provided_option before -> Forall provided_option after ->
  Forall keeps_Port after ->
  config.Port (mocks.NewTestConfig (before ++ mocks.WithPort p :: after)) = p
  /\ config.AppVersion (mocks.NewTestConfig (before ++ mocks.WithPort p :: after))
     = "0.1.0"
  /\ config.Host (mocks.NewTestConfig (before ++ mocks.WithPort p :: after))
     = "127.0.0.1"
  /\ config.LogFormat (mocks.NewTestConfig (before ++ mocks.WithPort p :: after))
     = "json".
Proof.
  intros Hb Ha Hk. unfold mocks.NewTestConfig.
  split.
  - rewrite fold_left_app. cbn [fold_left]. now rewrite fold_keeps_Port.
  - apply fold_provided_options.
    apply Forall_app. split; [assumption|]. constructor; [constructor | assumption].
Qed.

Lemma NewTestConfig_options_witness :
  config.Port (mocks.NewTestConfig
                 ([mocks.WithPort 9000; mocks.WithAppName "MyCustomApp"]
                  ++ mocks.WithPort 443 :: [mocks.WithLogLevel "ERROR"; mocks.WithDebug false]))
  = 443
  /\ config.AppVersion (mocks.NewTestConfig
                 ([mocks.WithPort 9000; mocks.WithAppName "MyCustomApp"]
                  ++ mocks.WithPort 443 :: [mocks.WithLogLevel "ERROR"; mocks.WithDebug false]))
     = "0.1.0"
  /\ config.Host (mocks.NewTestConfig
                 ([mocks.WithPort 9000; mocks.WithAppName "MyCustomApp"]
                  ++ mocks.WithPort 443 :: [mocks.WithLogLevel "ERROR"; mocks.WithDebug false]))
     = "127.0.0.1"
  /\ config.LogFormat (mocks.NewTestConfig
                 ([mocks.WithPort 9000; mocks.WithAppName "MyCustomApp"]
                  ++ mocks.WithPort 443 :: [mocks.WithLogLevel "ERROR"; mocks.WithDebug false]))
     = "json".
Proof.
  apply NewTestConfig_options.
  - repeat constructor.
  - repeat constructor.
  - repeat constructor.
Defined.

(** ** The server without a logger, and preflights *)

(** [Logger] with a nil logger: the call of [Infow] panics, after the
    chain has returned and the clock has been read again. *)
Lemma Logger_panics (log : option logger.Logger)
      (next : gin.Context -> World -> gin.result) (c c1 : gin.Context) (w w1 : World) :
  log = None \/ log = Some (logger.mkLogger None) ->
  next c (snd (Now w)) = gin.Done c1 w1 ->
  middleware.Logger log next c w = gin.Panic c1 (snd (Now w1)).
Proof.
  intros Hlog Hn. unfold middleware.Logger. cbn [Now fst snd] in *. rewrite Hn.
  destruct Hlog as [->| ->]; reflexivity.
Qed.

(** X17. A server whose container has no logger (a nil pointer, or a logger
    without its zap logger) still answers: the panic of the request log is
    recovered by [Recovery].  [GET /health] is answered 200 with its body,
    which was sent before the panic; a request without a route is answered
    500 with an empty body instead of 404.  Nothing is logged in either
    case. *)
Theorem ServeHTTP_without_logger (log : option logger.Logger)
        (h : handlers.HealthHandler) (container : dependencies.Container)
        (req : gin.Request) (w : World) :
  log = None \/ log = Some (logger.mkLogger None) ->
  (is_health req = true ->
   exists w',
     httpserver.ServeHTTP (httpserver.mkServer (server_router log h) container) req w
     = (Some (httpserver.mkResponse 200
                (gin.Header_Set "Content-Type" "application/json; charset=utf-8"
                   (CORS_header_map (gin.Get (gin.ReqHeader req) "Origin") ∅))
                [gin.PJSON (health_body h (clock w (S (ticks w))))]),
        w')
     /\ logged w' = logged w)
  /\ (gin.Method req <> "OPTIONS" -> no_route req = true ->
      exists w',
        httpserver.ServeHTTP (httpserver.mkServer (server_router log h) container) req w
        = (Some (httpserver.mkResponse 500
                   (CORS_header_map (gin.Get (gin.ReqHeader req) "Origin") ∅) []),
           w')
        /\ logged w' = logged w).
Proof.
  intros Hlog. split.
  - intros Hreq.
    unfold is_health in Hreq. apply andb_true_iff in Hreq as [HM HP].
    apply String.eqb_eq in HM, HP.
    unfold httpserver.ServeHTTP, gin.handleHTTPRequest.
    cbn [httpserver.router].
    rewrite server_router_has_tree, server_router_getValue, HM, HP.
    change ("GET" =? "GET")%string with true.
    change ("/health" =? "/health")%string with true. cbv iota beta. cbn [andb].
    change (length (health_chain _ h)) with 4%nat.
    rewrite health_chain_Next by reflexivity.
    unfold recovery_stage, middleware.Recovery, cors_stage.
    rewrite CORS_eq. cbn zeta. cbn [gin.Req gin.set_index gin.reset]. rewrite HM.
    change ("GET" =? "OPTIONS")%string with false. cbv iota.
    rewrite CORS_headers_eq.
    unfold logger_stage.
    cbn [gin.Req gin.Writer gin.index gin.set_index gin.status gin.written
         gin.header gin.body].
    erewrite (Logger_panics log _ _ _ _ _ Hlog)
      by (apply check_stage_eq; rewrite CORS_header_map_other;
          [apply lookup_empty | cbn; intros [?|[?|[?|[?|[]]]]]; discriminate]).
    eexists. split; reflexivity.
  - intros HM Hn.
    unfold httpserver.ServeHTTP. cbn [httpserver.router].
    rewrite handleHTTPRequest_no_route by assumption.
    unfold gin.serveError. cbn [server_router gin.middleware].
    change (length (noroute_chain _)) with 3%nat.
    rewrite noroute_chain_Next by reflexivity.
    unfold recovery_stage, middleware.Recovery, cors_stage.
    rewrite CORS_eq. cbn zeta. cbn [gin.Req gin.set_index gin.set_Writer gin.reset].
    destruct (String.eqb_spec (gin.Method req) "OPTIONS") as [|_]; [contradiction|].
    rewrite CORS_headers_eq.
    unfold logger_stage.
    erewrite (Logger_panics log _ _ _ _ _ Hlog) by (unfold nothing_stage; reflexivity).
    eexists. split; reflexivity.
Qed.

Lemma ServeHTTP_without_logger_witness :
  exists w',
    httpserver.ServeHTTP
      (httpserver.mkServer (server_router None sample_HealthHandler)
                           (dependencies.NewContainer (Some default_Config) None))
      (gin.mkRequest "GET" "/missing" ∅ "127.0.0.1") sample_World
    = (Some (httpserver.mkResponse 500 (CORS_header_map "" ∅) []), w')
    /\ logged w' = [].
Proof.
  destruct (ServeHTTP_without_logger None sample_HealthHandler
              (dependencies.NewContainer (Some default_Config) None)
              (gin.mkRequest "GET" "/missing" ∅ "127.0.0.1") sample_World
              (or_introl eq_refl)) as [_ H].
  destruct H as (w' & HS & Hlog); [discriminate | reflexivity |].
  exists w'. split; [exact HS | exact Hlog].
Defined.

(** X18. A preflight is answered by [CORS] alone, on every path and whatever
    the logger: 204 with the headers of [CORS] and an empty body.  The
    handlers after [CORS] do not run: the clock is not read and the request
    is not logged, the world is as it was. *)
Theorem ServeHTTP_preflight (log : option logger.Logger) (h : handlers.HealthHandler)
        (container : dependencies.Container) (req : gin.Request) (w : World) :
  gin.Method req = "OPTIONS" ->
  httpserver.ServeHTTP (httpserver.mkServer (server_router log h) container) req w
  = (Some (httpserver.mkResponse 204
             (CORS_header_map (gin.Get (gin.ReqHeader req) "Origin") ∅) []),
     w)
  /\ CORS_header_map (gin.Get (gin.ReqHeader req) "Origin") ∅ !! "Content-Type" = None.
Proof.
  intros HM. split; [now apply ServeHTTP_OPTIONS|].
  rewrite CORS_header_map_other; [apply lookup_empty|].
  cbn. intros [?|[?|[?|[?|[]]]]]; discriminate.
Qed.

Lemma ServeHTTP_preflight_witness :
  httpserver.ServeHTTP sample_Server sample_preflight sample_World
  = (Some (httpserver.mkResponse 204 (CORS_header_map "http://example.com" ∅) []),
     sample_World).
Proof.
  exact (proj1 (ServeHTTP_preflight (Some sample_Logger) sample_HealthHandler
                  sample_Container sample_preflight sample_World eq_refl)).
Defined.

(** ** Further properties of the health handler *)

(** The body after [c.JSON(200, obj)], whatever was sent before. *)
Lemma JSON_200_body (obj : gin.json) (c : gin.Context) :
  gin.body (gin.Writer (gin.JSON 200 obj c))
  = (gin.body (gin.Writer c) ++ [gin.PJSON obj])%list.
Proof.
  destruct c as [rq [st wt hd bd] ix].
  unfold gin.JSON, gin.Status, gin.WriteHeader, gin.writeContentType.
  cbn [gin.bodyAllowedForStatus Z.leb Z.eqb Z.ltb Z.compare Pos.compare
       Pos.compare_cont andb Pos.eqb gin.set_Writer gin.Writer gin.status gin.written].
  destruct (negb (st =? 200)); [destruct wt|]; cbn [gin.header gin.Writer];
    destruct (hd !! "Content-Type") as [[|v vs]|]; reflexivity.
Qed.

Lemma Seconds_nonneg (d : Z) : 0 <= d -> (0 <= time.Seconds d)%Q.
Proof.
  intros H. rewrite Seconds_eq. unfold Qle. cbn [Qnum Qden]. lia.
Qed.

(** X19. The uptime [Check] reports is never negative, on a clock with
    monotonic readings: for a handler that [NewHealthHandler] built and a
    call at any later point of the same clock, the [uptime_seconds] of the
    body, the seconds of the duration from the reading at construction to
    the reading of the call, is at least 0. *)
Theorem Check_uptime_nonneg (version : string) (w0 w : World) (c : gin.Context) :
  monotonic_clock (clock w0) ->
  clock w = clock w0 -> (ticks w0 <= ticks w)%nat ->
  exists obj q,
    gin.body (gin.Writer (fst (handlers.Check (fst (handlers.NewHealthHandler version w0))
                                              c w)))
    = (gin.body (gin.Writer c) ++ [gin.PJSON obj])%list
    /\ gin.member "uptime_seconds" obj = Some (gin.JNumber q)
    /\ q = time.Seconds (time.Sub (clock w0 (ticks w)) (clock w0 (ticks w0)))
    /\ (0 <= q)%Q.
Proof.
  intros (m & Hm & Hr & Hle) Hclock Hticks.
  unfold handlers.NewHealthHandler, handlers.Check.
  cbn [Now fst snd handlers.startupTime handlers.version].
  rewrite JSON_200_body. rewrite Hclock.
  eexists _, _. split; [reflexivity|]. split; [reflexivity|].
  split; [reflexivity|].
  apply Seconds_nonneg.
  exact (Sub_nonneg (clock w0 (ticks w)) (clock w0 (ticks w0)) _ _
                    (Hm _) (Hm _) (Hr _) (Hr _) (Hle _ _ Hticks)).
Qed.

Lemma Check_uptime_nonneg_witness :
  exists obj q,
    gin.body (gin.Writer (fst (handlers.Check
                                 (fst (handlers.NewHealthHandler "0.1.0" sample_World))
                                 (gin.reset sample_request) sample_later)))
    = [gin.PJSON obj]
    /\ gin.member "uptime_seconds" obj = Some (gin.JNumber q)
    /\ (0 <= q)%Q.
Proof.
  destruct (Check_uptime_nonneg "0.1.0" sample_World sample_later
              (gin.reset sample_request) sample_clock_monotonic eq_refl
              (le_S _ _ (le_S _ _ (le_n _))))
    as (obj & q & Hb & Hq & _ & Hpos).
  exists obj, q. split; [exact Hb|]. split; [exact Hq | exact Hpos].
Defined.

(** X20. The timestamp [Check] reports is the reading of the clock in UTC,
    whatever the zone of the reading: the date of the day
    (year-month-day of the seconds since the epoch), [T], the hour, the
    minute and the second of the day in two digits each, and [Z]. *)
Theorem Check_timestamp (h : handlers.HealthHandler) (c : gin.Context) (w : World) :
  exists obj ts year month day hh mm ss,
    gin.body (gin.Writer (fst (handlers.Check h c w)))
    = (gin.body (gin.Writer c) ++ [gin.PJSON obj])%list
    /\ gin.member "timestamp" obj = Some (gin.JString ts)
    /\ time.civil (time.unix (clock w (ticks w)) / 86400) = (year, month, day)
    /\ time.unix (clock w (ticks w)) mod 86400 = hh * 3600 + mm * 60 + ss
    /\ 0 <= hh < 24 /\ 0 <= mm < 60 /\ 0 <= ss < 60
    /\ bytes ts
       = (time.appendInt year 4 ++ [45] ++ time.appendInt month 2 ++ [45]
          ++ time.appendInt day 2
          ++ [84; 48 + hh / 10; 48 + hh mod 10; 58; 48 + mm / 10; 48 + mm mod 10;
              58; 48 + ss / 10; 48 + ss mod 10; 90])%list.
Proof.
  unfold handlers.Check. cbn [Now fst snd]. rewrite JSON_200_body.
  destruct (Format_RFC3339_UTC (clock w (ticks w))) as (year & month & day & Hc & Hb).
  set (secs := time.unix (clock w (ticks w)) mod 86400) in *.
  exists (handlers.to_json
            (handlers.mkHealthCheckResponse constants.HealthStatusHealthy
               (handlers.version h)
               (time.Seconds (time.Sub (clock w (ticks w)) (handlers.startupTime h)))
               (time.Format_RFC3339 (time.UTC (clock w (ticks w)))))),
         (time.Format_RFC3339 (time.UTC (clock w (ticks w)))),
         year, month, day, (secs / 3600), (secs mod 3600 / 60), (secs mod 60).
  pose proof (Z.mod_pos_bound (time.unix (clock w (ticks w))) 86400 eq_refl) as Hs.
  fold secs in Hs.
  split; [reflexivity|]. split; [reflexivity|]. split; [exact Hc|].
  pose proof (Z.div_mod secs 3600 ltac:(lia)) as H1.
  pose proof (Z.mod_pos_bound secs 3600 eq_refl) as H2.
  pose proof (Z.div_mod (secs mod 3600) 60 ltac:(lia)) as H3.
  pose proof (Z.mod_pos_bound (secs mod 3600) 60 eq_refl) as H4.
  assert (secs mod 3600 mod 60 = secs mod 60) as H5.
  { apply Z.mod_mod_divide. exists 60. reflexivity. }
  pose proof (Z.mod_pos_bound secs 60 eq_refl) as H6.
  assert (0 <= secs / 3600 < 24) as H7
      by (split; [apply Z.div_pos; lia | apply Z.div_lt_upper_bound; lia]).
  assert (0 <= secs mod 3600 / 60 < 60) as H8
      by (split; [apply Z.div_pos; lia | apply Z.div_lt_upper_bound; lia]).
  repeat apply conj; try lia.
  rewrite Hb. reflexivity.
Qed.

(** ** What serving a request leaves alone *)

Lemma later_refl (w : World) : later w w.
Proof.
  unfold later. repeat apply conj; try reflexivity.
  exists []. now rewrite app_nil_r.
Qed.

Lemma later_trans (w1 w2 w3 : World) : later w1 w2 -> later w2 w3 -> later w1 w3.
Proof.
  intros (C1 & T1 & (e1 & L1) & R1 & S1 & I1 & J1) (C2 & T2 & (e2 & L2) & R2 & S2 & I2 & J2).
  unfold later. repeat apply conj; try congruence; try lia.
  exists (e1 ++ e2)%list. rewrite L2, L1. now rewrite <- app_assoc.
Qed.

Lemma later_Now (w : World) : later w (snd (Now w)).
Proof.
  unfold later. cbn. repeat apply conj; try reflexivity; try lia.
  exists []. now rewrite app_nil_r.
Qed.

Lemma later_Infow (log : option logger.Logger) (msg : string)
      (fields : list (string * zapcore.Field)) (w : World) :
  match logger.Infow log msg fields w with
  | Returned _ w' => later w w'
  | Panicked w' => later w w'
  end.
Proof.
  destruct log as [[[z|]]|]; cbn; try apply later_refl.
  destruct (zapcore.Enabled _ _); [|apply later_refl].
  unfold later. cbn. repeat apply conj; try reflexivity. eexists. reflexivity.
Qed.

Lemma leave_later (w : World) (r : gin.result) :
  result_later w r -> result_later w (leave r).
Proof. destruct r; exact (fun H => H). Qed.

Lemma Logger_later (log : option logger.Logger)
      (next : gin.Context -> World -> gin.result) (c : gin.Context) (w : World) :
  (forall c0 w0, result_later w0 (next c0 w0)) ->
  result_later w (middleware.Logger log next c w).
Proof.
  intros Hn. unfold middleware.Logger.
  pose proof (later_Now w) as H0. cbn [Now fst snd] in *.
  specialize (Hn c (mkWorld (clock w) (S (ticks w)) (logged w) (sync_result w)
                            (syncs w) (idle_conns w) (idle_closes w))).
  destruct (next c _) as [c1 w1|c1 w1]; cbn [result_later] in *.
  - pose proof (later_Now w1) as H1. cbn [Now fst snd] in H1.
    match goal with
    | |- context [logger.Infow log ?m ?f ?w2] =>
      pose proof (later_Infow log m f w2) as H2;
        destruct (logger.Infow log m f w2) as [[] w3|w3]
    end; cbn [result_later];
      exact (later_trans _ _ _ H0 (later_trans _ _ _ Hn (later_trans _ _ _ H1 H2))).
  - exact (later_trans _ _ _ H0 Hn).
Qed.

Lemma CORS_later (next : gin.Context -> World -> gin.result) (c : gin.Context)
      (w : World) :
  (forall c0 w0, result_later w0 (next c0 w0)) ->
  result_later w (middleware.CORS next c w).
Proof.
  intros Hn. rewrite CORS_eq. cbn zeta.
  destruct (String.eqb _ "OPTIONS"); [apply later_refl | apply Hn].
Qed.

Lemma Recovery_later (next : gin.Context -> World -> gin.result) (c : gin.Context)
      (w : World) :
  (forall c0 w0, result_later w0 (next c0 w0)) ->
  result_later w (middleware.Recovery next c w).
Proof.
  intros Hn. unfold middleware.Recovery. specialize (Hn c w).
  destruct (next c w); exact Hn.
Qed.

Lemma recovery_stage_later (log : option logger.Logger)
      (inner : gin.Context -> World -> gin.result) (c : gin.Context) (w : World) :
  (forall c0 w0, result_later w0 (inner c0 w0)) ->
  result_later w (recovery_stage log inner c w).
Proof.
  intros Hi. unfold recovery_stage. apply leave_later, Recovery_later.
  intros c0 w0. unfold cors_stage. apply leave_later, CORS_later.
  intros c1 w1. unfold logger_stage. apply leave_later, Logger_later. exact Hi.
Qed.

Lemma check_stage_later (h : handlers.HealthHandler) (c : gin.Context) (w : World) :
  result_later w (check_stage h c w).
Proof. unfold check_stage, handlers.Check. cbn [Now fst snd]. apply (later_Now w). Qed.

Lemma handleHTTPRequest_later (log : option logger.Logger)
      (h : handlers.HealthHandler) (req : gin.Request) (w : World) :
  result_later w (gin.handleHTTPRequest httpserver.call (server_router log h) req w).
Proof.
  assert (result_later w
            (gin.serveError httpserver.call (server_router log h) 404
                            "404 page not found" (gin.reset req) w)) as HE.
  { unfold gin.serveError. cbn [server_router gin.middleware].
    change (length (noroute_chain log)) with 3%nat.
    rewrite noroute_chain_Next by reflexivity.
    pose proof (recovery_stage_later log nothing_stage
                  (gin.set_Writer
                     (gin.mkWriter 404 (gin.written (gin.Writer (gin.reset req)))
                                   (gin.header (gin.Writer (gin.reset req)))
                                   (gin.body (gin.Writer (gin.reset req))))
                     (gin.reset req)) w
                  (fun c0 w0 => later_refl w0)) as H.
    destruct (recovery_stage log nothing_stage _ w) as [c1 w1|c1 w1]; [|exact H].
    destruct (gin.written (gin.Writer c1)); [exact H|].
    destruct (gin.status (gin.Writer c1) =? 404); exact H. }
  unfold gin.handleHTTPRequest.
  rewrite server_router_has_tree, server_router_getValue.
  destruct (String.eqb "GET" (gin.Method req)); [|exact HE].
  cbn [andb]. destruct (String.eqb "/health" (gin.Path req)).
  - change (length (health_chain log h)) with 4%nat.
    rewrite health_chain_Next by reflexivity.
    pose proof (recovery_stage_later log (check_stage h) (gin.reset req) w
                  (check_stage_later h)) as H.
    destruct (recovery_stage log (check_stage h) (gin.reset req) w); exact H.
  - destruct (_ && _); [apply later_refl | exact HE].
Qed.

Lemma ServeHTTP_later (log : option logger.Logger) (h : handlers.HealthHandler)
      (container : dependencies.Container) (req : gin.Request) (w : World) :
  later w (snd (httpserver.ServeHTTP
                  (httpserver.mkServer (server_router log h) container) req w)).
Proof.
  unfold httpserver.ServeHTTP. cbn [httpserver.router].
  pose proof (handleHTTPRequest_later log h req w) as H.
  destruct (gin.handleHTTPRequest _ _ req w); exact H.
Qed.

Lemma serve_later (log : option logger.Logger) (h : handlers.HealthHandler)
      (container : dependencies.Container) (reqs : list gin.Request) (w : World) :
  later w (snd (httpserver.serve
                  (httpserver.mkServer (server_router log h) container) reqs w)).
Proof.
  revert w. induction reqs as [|req rest IH]; intros w; [apply later_refl|].
  cbn [httpserver.serve].
  pose proof (ServeHTTP_later log h container req w) as H1.
  destruct (httpserver.ServeHTTP _ req w) as [r w1]. cbn [snd] in H1.
  specialize (IH w1).
  destruct (httpserver.serve _ rest w1) as [rs w2]. cbn [snd] in *.
  exact (later_trans _ _ _ H1 IH).
Qed.

Lemma serve_app (s : httpserver.Server) (l1 l2 : list gin.Request) (w : World) :
  httpserver.serve s (l1 ++ l2) w
  = (fst (httpserver.serve s l1 w)
     ++ fst (httpserver.serve s l2 (snd (httpserver.serve s l1 w))),
     snd (httpserver.serve s l2 (snd (httpserver.serve s l1 w))))%list.
Proof.
  revert w. induction l1 as [|req rest IH]; intros w.
  - cbn. now destruct (httpserver.serve s l2 w).
  - cbn [app httpserver.serve].
    destruct (httpserver.ServeHTTP s req w) as [r w1].
    rewrite IH.
    destruct (httpserver.serve s rest w1) as [rs w2]. reflexivity.
Qed.

(** The response to the [i]-th request is the response to it in the world
    the requests before it have left. *)
Lemma serve_lookup (s : httpserver.Server) (reqs : list gin.Request) (w : World)
      (i : nat) (req : gin.Request) :
  reqs !! i = Some req ->
  fst (httpserver.serve s reqs w) !! i
  = Some (fst (httpserver.ServeHTTP s req (snd (httpserver.serve s (take i reqs) w)))).
Proof.
  revert w i. induction reqs as [|r0 rest IH]; intros w i Hi; [discriminate|].
  destruct i as [|i].
  - injection Hi as ->. cbn [take httpserver.serve snd].
    destruct (httpserver.ServeHTTP s req w) as [r w1].
    destruct (httpserver.serve s rest w1) as [rs w2]. reflexivity.
  - cbn [take httpserver.serve].
    destruct (httpserver.ServeHTTP s r0 w) as [r w1].
    specialize (IH w1 i Hi).
    destruct (httpserver.serve s rest w1) as [rs w2].
    destruct (httpserver.serve s (take i rest) w1) as [rs' w2'] eqn:E.
    cbn [fst snd] in *. exact IH.
Qed.

Lemma serve_take_later (log : option logger.Logger) (h : handlers.HealthHandler)
      (container : dependencies.Container) (reqs : list gin.Request) (w : World)
      (i j : nat) :
  (i <= j)%nat ->
  later (snd (httpserver.serve (httpserver.mkServer (server_router log h) container)
                               (take i reqs) w))
        (snd (httpserver.serve (httpserver.mkServer (server_router log h) container)
                               (take j reqs) w)).
Proof.
  intros Hij.
  replace (take j reqs) with (take (i + (j - i)) reqs) by (f_equal; lia).
  rewrite <- take_take_drop, serve_app. cbn [snd]. apply serve_later.
Qed.

(** X21. Serving a request, whatever it is and whatever the logger, leaves
    the world as it was but for the clock, which has been read some more
    times, and the log, to which entries may have been added: no entry
    written before is changed or dropped, the log sink is not flushed and
    the idle connections of the client stay as they are. *)
Theorem ServeHTTP_frame (log : option logger.Logger) (h : handlers.HealthHandler)
        (container : dependencies.Container) (req : gin.Request) (w : World) :
  later w (snd (httpserver.ServeHTTP
                  (httpserver.mkServer (server_router log h) container) req w)).
Proof. apply ServeHTTP_later. Qed.

(** X22. Uptime is non-decreasing across every sequence of requests, not only
    across health checks that follow each other: on a server that [New]
    built, on a clock with monotonic readings, for requests of any kind
    served one after the other from any later point of the process, the two
    health checks at positions [i <= j] of the sequence are both answered,
    with [uptime_seconds] that do not decrease, the same status and the
    same version. *)
Theorem health_uptime_interleaved (container : dependencies.Container)
        (s : httpserver.Server) (w0 w1 w : World) (reqs : list gin.Request)
        (i j : nat) (ra rb : gin.Request) :
  httpserver.New container w0 = Returned s w1 ->
  monotonic_clock (clock w0) ->
  clock w = clock w0 -> (ticks w0 <= ticks w)%nat ->
  (i <= j)%nat ->
  reqs !! i = Some ra -> reqs !! j = Some rb ->
  is_health ra = true -> is_health rb = true ->
  exists resp_a resp_b qa qb,
    fst (httpserver.serve s reqs w) !! i = Some (Some resp_a)
    /\ fst (httpserver.serve s reqs w) !! j = Some (Some resp_b)
    /\ response_member "uptime_seconds" resp_a = Some (gin.JNumber qa)
    /\ response_member "uptime_seconds" resp_b = Some (gin.JNumber qb)
    /\ (qa <= qb)%Q
    /\ response_member "status" resp_a = response_member "status" resp_b
    /\ response_member "version" resp_a = response_member "version" resp_b.
Proof.
  intros HN Hmono Hclock Hticks Hij Hi Hj Ha Hb.
  rewrite New_eq in HN.
  destruct (dependencies.Config container) as [cfg|]; [|discriminate].
  injection HN as <- _.
  set (h := handlers.mkHealthHandler (clock w0 (ticks w0)) (config.AppVersion cfg)).
  set (log := dependencies.Logger container).
  set (s := httpserver.mkServer (server_router log h) container).
  rewrite (serve_lookup s reqs w i ra Hi), (serve_lookup s reqs w j rb Hj).
  set (wi := snd (httpserver.serve s (take i reqs) w)).
  set (wj := snd (httpserver.serve s (take j reqs) w)).
  assert (later w wi) as Li by apply serve_later.
  assert (later wi wj) as Lij by (apply serve_take_later; exact Hij).
  destruct (ServeHTTP_health log h container ra wi Ha) as (wa & HSa & _ & _).
  destruct (ServeHTTP_health log h container rb wj Hb) as (wb & HSb & _ & _).
  fold s in HSa, HSb. rewrite HSa, HSb. cbn [fst].
  eexists _, _, _, _.
  split; [reflexivity|]. split; [reflexivity|].
  split; [reflexivity|]. split; [reflexivity|].
  split; [|split; reflexivity].
  destruct Li as (Ci & Ti & _). destruct Lij as (Cj & Tj & _).
  cbn [handlers.startupTime h].
  rewrite Cj, Ci, Hclock.
  apply uptime_monotone; [assumption | lia].
Qed.

Lemma health_uptime_interleaved_witness :
  exists resp_a resp_b qa qb,
    fst (httpserver.serve sample_Server
           [sample_request; sample_preflight; sample_request] (snd (Now sample_World)))
    !! 0%nat = Some (Some resp_a)
    /\ fst (httpserver.serve sample_Server
              [sample_request; sample_preflight; sample_request]
              (snd (Now sample_World)))
       !! 2%nat = Some (Some resp_b)
    /\ response_member "uptime_seconds" resp_a = Some (gin.JNumber qa)
    /\ response_member "uptime_seconds" resp_b = Some (gin.JNumber qb)
    /\ (qa <= qb)%Q.
Proof.
  destruct (health_uptime_interleaved sample_Container sample_Server sample_World
              (snd (Now sample_World)) (snd (Now sample_World))
              [sample_request; sample_preflight; sample_request] 0 2
              sample_request sample_request
              eq_refl sample_clock_monotonic eq_refl (le_S _ _ (le_n _))
              (le_S _ _ (le_S _ _ (le_n _))) eq_refl eq_refl eq_refl eq_refl)
    as (ra & rb & qa & qb & H1 & H2 & H3 & H4 & H5 & _).
  exists ra, rb, qa, qb. repeat apply conj; assumption.
Defined.

(** ** The debug flag *)

Lemma Unmarshal_insert_debug (environ : gmap string string)
      (dotenv : option (gmap string string)) (s0 s : string) (cfg : config.Config)
      (b : bool) :
  s0 <> "" -> s <> "" ->
  config.Unmarshal (<["DEBUG" := s0]> environ) (Load_viper dotenv) = inr cfg ->
  mapstructure.decodeBool (viper.VString s) = Some b ->
  config.Unmarshal (<["DEBUG" := s]> environ) (Load_viper dotenv)
  = inr (set_Debug b cfg).
Proof.
  intros Hs0 Hs. unfold config.Unmarshal, config.field_bool, config.field_int,
                   config.field_string.
  rewrite !Load_settings by (simpl; tauto).
  rewrite !effective_insert_eq by assumption.
  rewrite !(effective_insert_ne _ _ "DEBUG") by discriminate.
  intros Hu Hd. rewrite Hd.
  destruct (mapstructure.decodeBool (viper.VString s0)) as [b0|]; [|discriminate].
  destruct (match effective environ dotenv "PORT" with
            | Some data => mapstructure.decodeInt data
            | None => Some 0
            end) as [port|]; [|discriminate].
  injection Hu as <-. reflexivity.
Qed.

Lemma normalize_validate_debug (CaseRanges : list unicode.CaseRange)
      (cfg cfg0 : config.Config) (b : bool) :
  normalize_validate CaseRanges cfg = inr cfg0 ->
  normalize_validate CaseRanges (set_Debug b cfg) = inr (set_Debug b cfg0).
Proof.
  unfold normalize_validate. rewrite !Validate_fields.
  cbn [config.set_LogLevel set_Debug
       config.AppName config.AppVersion config.Host config.Port config.LogLevel
       config.LogFormat].
  destruct (_ ++ _)%list; [|discriminate].
  intros [= <-]. reflexivity.
Qed.

(** X23. DEBUG is read the way [strconv.ParseBool] reads it and is not
    validated.  Other settings being valid (here: [Load] succeeds with DEBUG
    set to false), for every text that [ParseBool] reads ([1], [t], [T],
    [TRUE], [true], [True] and their six counterparts for false), [Load]
    succeeds and returns the same settings with that flag. *)
Theorem Load_debug (CaseRanges : list unicode.CaseRange)
        (environ : gmap string string) (dotenv : option (gmap string string))
        (cfg0 : config.Config) (s : string) (b : bool) :
  config.Load CaseRanges (<["DEBUG" := "false"]> environ) dotenv = inr cfg0 ->
  strconv.ParseBool s = Some b ->
  config.Load CaseRanges (<["DEBUG" := s]> environ) dotenv = inr (set_Debug b cfg0).
Proof.
  intros H0 Hb. rewrite Load_eq in *.
  destruct (config.Unmarshal (<["DEBUG" := "false"]> environ) (Load_viper dotenv))
    as [keys|cfg] eqn:Hu; [discriminate|].
  assert (s <> "") as Hs by (intros ->; discriminate Hb).
  rewrite (Unmarshal_insert_debug environ dotenv "false" s cfg b);
    [ | discriminate | assumption | assumption
      | cbn [mapstructure.decodeBool]; now rewrite Hb ].
  now apply normalize_validate_debug.
Qed.

Lemma Load_debug_witness :
  config.Load [] (<["DEBUG" := "T"]> ∅) None = inr (set_Debug true default_Config).
Proof.
  apply (Load_debug [] ∅ None default_Config "T" true).
  - vm_compute. reflexivity.
  - reflexivity.
Defined.
